(** * The snippets API of the DRF tutorial, stages 4 to 6

    A shallow embedding of the [snippets] application in its three
    authenticated stages:

    - [4-authentication-and-permissions] (generic class-based views),
    - [5-relationships-and-hyperlinked-apis] (hyperlinked serializers, the
      highlight endpoint, the API root),
    - [6-viewsets-and-routers] (viewsets bound to routes by a router).

    The application is a composition of Django REST framework classes.  The
    embedding follows that layering: the persisted records and the manager
    operations ([models.py]), the serializers ([serializers.py]), the
    permission classes ([permissions.py]), the generic views and their mixins,
    the view classes of each stage ([views.py]) and the URL configuration
    ([urls.py]).  A request handler is a computation in a small monad [M]
    that reads the clock, threads the database and may raise an
    [APIException]; [dispatch] turns an exception into an error response the
    way [APIView.dispatch] and [handle_exception] do.

    What is outside the repository is kept abstract: the coercion every
    serializer field applies to a raw JSON value ([Fields]), the syntax
    highlighter ([Pygments]) and the page size of the project settings
    ([Settings]).  Requests carry a JSON object as body and no query string
    (a paginated list is asked for its first page); content negotiation,
    format suffixes and rendering are not part of the model, and a
    hyperlink is represented by the route it points to. *)

From stdpp Require Import base strings list gmap sorting.
From Stdlib Require Import ZArith.

Set Default Proof Using "Type".

(** ** JSON values of a request body *)

#[warnings="-register-all"]
Inductive json : Type :=
  | JNull
  | JBool (b : bool)
  | JNum (n : Z)
  | JStr (s : string)
  | JList (l : list json)
  | JObj (o : list (string * json)).

(** ** What the application imports from outside the repository *)

(** [run_validation] of the serializer field that [ModelSerializer] derives
    for each writable column of [Snippet]: [Some v] is the validated value,
    [None] a validation error of that field. *)
Class Fields := {
  title_field : json → option string;
  code_field : json → option string;
  linenos_field : json → option bool;
  language_field : json → option string;
  style_field : json → option string;
}.

(** The syntax highlighter: [highlight code language style] is the HTML
    page Pygments renders for [code] with the lexer of [language] and the
    formatter of [style]. *)
Class Pygments := {
  highlight : string → string → string → string;
}.

(** [PAGE_SIZE] of the project settings, used by the paginated list
    responses of stages 5 and 6. *)
Class Settings := {
  PAGE_SIZE : positive;
}.

(** ** models.py *)

Record User := {
  user_pk : nat;
  username : string;
}.

(** Modelled from the spec: [models.py] is missing; the columns and their
    defaults are those of the data model section: "identifier
    (auto-assigned, unique), title (text, optional, default empty), code
    (text, required), linenos (boolean, default false), language (enumerated
    string, default "python"), style (enumerated string, default "friendly"),
    created (timestamp, auto-set at creation, used as the default ordering
    key), owner (reference to a User entity, ..., cascade-deleted with the
    owner), and a derived highlighted field".  In the authenticated stages
    [owner] is not nullable: it holds the primary key of a [User]. *)
Record Snippet := {
  snippet_pk : nat;
  created : nat;
  title : string;
  code : string;
  linenos : bool;
  language : string;
  style : string;
  owner : nat;
  highlighted : string;
}.

#[global] Instance User_eq_dec : EqDecision User.
Proof. solve_decision. Defined.

#[global] Instance Snippet_eq_dec : EqDecision Snippet.
Proof. solve_decision. Defined.

(** The database: both tables and the sequences of their primary keys. *)
Record DB := {
  users : list User;
  snippets : list Snippet;
  user_seq : nat;
  snippet_seq : nat;
}.

Definition empty_db : DB :=
  {| users := []; snippets := []; user_seq := 1; snippet_seq := 1 |}.

Class Model (T : Type) := pk : T → nat.
#[global] Instance User_model : Model User := user_pk.
#[global] Instance Snippet_model : Model Snippet := snippet_pk.

(** Keyword arguments of [Snippet(...)] and the [validated_data] of a
    [SnippetSerializer]: an absent key is [None]. *)
Record SnippetAttrs := {
  a_title : option string;
  a_code : option string;
  a_linenos : option bool;
  a_language : option string;
  a_style : option string;
}.

Definition no_attrs : SnippetAttrs :=
  {| a_title := None; a_code := None; a_linenos := None;
     a_language := None; a_style := None |}.

(** Modelled from the spec: [Meta.ordering] of the missing [models.py],
    "created (... used as the default ordering key)", "Snippets are always
    returned ordered by creation time ascending". *)
Definition created_le : relation Snippet := λ a b, created a ≤ created b.

#[global] Instance created_le_dec : RelDecision created_le :=
  λ a b, decide (created a ≤ created b).

(** [Snippet.objects.all()]: every row, by the default ordering. *)
Definition Snippet_objects_all (db : DB) : list Snippet :=
  merge_sort created_le (snippets db).

Definition Snippet_objects_count (db : DB) : nat :=
  length (Snippet_objects_all db).

(** [user.snippets.all()], the reverse side of the [owner] foreign key
    ([related_name="snippets"]). *)
Definition user_snippets (db : DB) (u : User) : list Snippet :=
  filter (λ s, owner s = user_pk u) (Snippet_objects_all db).

(** [User.objects.all()]: no ordering is declared on [User]; the rows come
    in table order, which is the order of their primary keys. *)
Definition User_objects_all (db : DB) : list User := users db.

(** [User.objects.all().order_by("id")]. *)
Definition user_pk_le : relation User := λ a b, user_pk a ≤ user_pk b.

#[global] Instance user_pk_le_dec : RelDecision user_pk_le :=
  λ a b, decide (user_pk a ≤ user_pk b).

Definition User_objects_order_by_id (db : DB) : list User :=
  merge_sort user_pk_le (users db).

(** [queryset.get(pk=...)] as [get_object_or_404] uses it: the row with
    that primary key, if any. *)
Definition get_by_pk {T} `{Model T} (rows : list T) (k : nat) : option T :=
  List.find (λ r, bool_decide (pk r = k)) rows.

(** Modelled from the spec: [Snippet.save] of the missing [models.py], "a
    derived highlighted field (pre-rendered HTML produced from
    code/language/style at save time, read-only)". *)
Definition render `{Pygments} (s : Snippet) : Snippet :=
  {| snippet_pk := snippet_pk s; created := created s; title := title s;
     code := code s; linenos := linenos s; language := language s;
     style := style s; owner := owner s;
     highlighted := highlight (code s) (language s) (style s) |}.

(** Modelled from the spec: the constructor of the missing [models.py]
    applied to keyword arguments and an owner; the column defaults of the
    data model section fill the absent keys (title empty, linenos false,
    language "python", style "friendly"), and a text column without a default
    starts as the empty string. *)
Definition Snippet_init (attrs : SnippetAttrs) (o : nat) : Snippet :=
  {| snippet_pk := 0; created := 0;
     title := default EmptyString (a_title attrs);
     code := default EmptyString (a_code attrs);
     linenos := default false (a_linenos attrs);
     language := default "python" (a_language attrs);
     style := default "friendly" (a_style attrs);
     owner := o;
     highlighted := EmptyString |}.

(** [setattr(instance, attr, value)] for every key of [validated_data], as
    [ModelSerializer.update] does before it saves the instance. *)
Definition set_attrs (s : Snippet) (attrs : SnippetAttrs) : Snippet :=
  {| snippet_pk := snippet_pk s; created := created s;
     title := default (title s) (a_title attrs);
     code := default (code s) (a_code attrs);
     linenos := default (linenos s) (a_linenos attrs);
     language := default (language s) (a_language attrs);
     style := default (style s) (a_style attrs);
     owner := owner s;
     highlighted := highlighted s |}.

(** ** Requests, responses and the handler monad *)

(** The named URL patterns of [urls.py], with the [pk] captured by
    [<int:pk>]. *)
Inductive Route : Type :=
  | api_root_url
  | snippet_list_url
  | snippet_detail_url (k : nat)
  | snippet_highlight_url (k : nat)
  | user_list_url
  | user_detail_url (k : nat).

(** What arrives from the client: the verb, the resolved URL, the user id
    of the session cookie (if the client logged in) and the parsed body. *)
Record HttpRequest := {
  http_method : string;
  http_url : Route;
  http_session : option nat;
  http_body : gmap string json;
}.

(** [request.user] *)
Inductive RequestUser : Type :=
  | AnonymousUser
  | AuthUser (u : User).

Definition is_authenticated (u : RequestUser) : bool :=
  match u with AnonymousUser => false | AuthUser _ => true end.

(** The framework's [Request] a view sees once authentication has run. *)
Record Request := {
  method : string;
  user : RequestUser;
  data : gmap string json;
}.

Inductive Exception : Type :=
  | Http404
  | NotAuthenticated
  | PermissionDenied
  | MethodNotAllowed
  | ValidationError (errors : list string)
  (** not an [APIException]: the request ends in a server error *)
  | ValueError
  | IntegrityError.

(** Serializer output.  A hyperlink is the route it reverses to. *)
Record SnippetRepr := {
  r_url : option Route;
  r_id : nat;
  r_highlight : option Route;
  r_owner : option string;
  r_title : string;
  r_code : string;
  r_linenos : bool;
  r_language : string;
  r_style : string;
}.

Inductive Related : Type :=
  | ByPk (k : nat)
  | ByLink (url : Route).

Record UserRepr := {
  u_url : option Route;
  u_id : nat;
  u_username : string;
  u_snippets : list Related;
}.

Inductive Item : Type :=
  | SnippetItem (r : SnippetRepr)
  | UserItem (r : UserRepr).

Inductive ResponseData : Type :=
  | NoData
  | Detail (e : Exception)
  | Object (i : Item)
  | Objects (l : list Item)
  | Paginated (count : nat) (results : list Item)
  | StaticHTML (html : string)
  | Links (l : list (string * Route))
  | Metadata.

Record Response := {
  status_code : nat;
  content : ResponseData;
}.

Definition HTTP_200_OK := 200.
Definition HTTP_201_CREATED := 201.
Definition HTTP_204_NO_CONTENT := 204.
Definition HTTP_400_BAD_REQUEST := 400.
Definition HTTP_403_FORBIDDEN := 403.
Definition HTTP_404_NOT_FOUND := 404.
Definition HTTP_405_METHOD_NOT_ALLOWED := 405.
Definition HTTP_500_INTERNAL_SERVER_ERROR := 500.

(** A handler reads the clock, reads and writes the database, and either
    returns or raises.  A raised exception keeps the database as it is at
    that point: requests are not wrapped in a transaction. *)
Definition M (A : Type) : Type := nat → DB → (Exception + A) * DB.

#[global] Instance M_ret : MRet M := λ A a _ db, (inr a, db).

#[global] Instance M_bind : MBind M := λ A B f m now db,
  match m now db with
  | (inl e, db') => (inl e, db')
  | (inr a, db') => f a now db'
  end.

Definition raise {A} (e : Exception) : M A := λ _ db, (inl e, db).
Definition timezone_now : M nat := λ now db, (inr now, db).
Definition get_db : M DB := λ _ db, (inr db, db).
Definition put_db (db : DB) : M () := λ _ _, (inr (), db).

(** ** models.py: writes *)

Definition with_snippets (db : DB) (rows : list Snippet) : DB :=
  {| users := users db; snippets := rows;
     user_seq := user_seq db; snippet_seq := snippet_seq db |}.

(** The instance as it is inserted: with its primary key and, by
    [auto_now_add], its creation time. *)
Definition Snippet_row (s : Snippet) (k now : nat) : Snippet :=
  {| snippet_pk := k; created := now; title := title s; code := code s;
     linenos := linenos s; language := language s; style := style s;
     owner := owner s; highlighted := highlighted s |}.

Definition insert_snippet (db : DB) (row : Snippet) : DB :=
  {| users := users db; snippets := snippets db ++ [row];
     user_seq := user_seq db; snippet_seq := S (snippet_seq db) |}.

Definition replace_row (row : Snippet) (rows : list Snippet) : list Snippet :=
  (λ r, if bool_decide (pk r = pk row) then row else r) <$> rows.

(** [Snippet.objects.create(...)], that is [save] on a new instance: the
    highlighted page is rendered, the row gets the next primary key and the
    current time and is inserted.  The foreign key must point to a stored
    user. *)
Definition Snippet_objects_create `{Pygments}
    (attrs : SnippetAttrs) (o : nat) : M Snippet :=
  now ← timezone_now;
  db ← get_db;
  match get_by_pk (users db) o with
  | None => raise IntegrityError
  | Some _ =>
      let row :=
        render (Snippet_row (Snippet_init attrs o) (snippet_seq db) now) in
      put_db (insert_snippet db row);;
      mret row
  end.

(** [instance.save()] on a stored instance: the highlighted page is
    rendered again and the row is replaced. *)
Definition Snippet_save `{Pygments} (s : Snippet) : M Snippet :=
  db ← get_db;
  let row := render s in
  put_db (with_snippets db (replace_row row (snippets db)));;
  mret row.

(** [instance.delete()] *)
Definition Snippet_delete (s : Snippet) : M () :=
  db ← get_db;
  put_db (with_snippets db (filter (λ r, pk r ≠ pk s) (snippets db))).

(** [User.objects.create_user(username=...)]; user names are unique. *)
Definition User_objects_create_user (name : string) : M User :=
  db ← get_db;
  if bool_decide (name ∈ username <$> users db) then raise IntegrityError
  else
    let u := {| user_pk := user_seq db; username := name |} in
    put_db {| users := users db ++ [u]; snippets := snippets db;
              user_seq := S (user_seq db); snippet_seq := snippet_seq db |};;
    mret u.

(** Modelled from the spec: [on_delete] of the [owner] column in the missing
    [models.py], "owner (reference to a User entity, ..., cascade-deleted
    with the owner)": [user.delete()] removes the user's snippets, then the
    user. *)
Definition User_delete (u : User) : M () :=
  db ← get_db;
  put_db {| users := filter (λ r, pk r ≠ pk u) (users db);
            snippets := filter (λ s, owner s ≠ pk u) (snippets db);
            user_seq := user_seq db; snippet_seq := snippet_seq db |}.

(** ** serializers.py *)

Inductive Stage : Type := Stage4 | Stage5 | Stage6.

(** Stage 4 declares [ModelSerializer]s, stage 5
    [HyperlinkedModelSerializer]s with [url] and [highlight] fields; so does
    stage 6, whose serializer tests read both fields. *)
Definition hyperlinked (st : Stage) : bool :=
  match st with Stage4 => false | Stage5 | Stage6 => true end.

(** [SnippetSerializer.to_representation].  [owner] is
    [ReadOnlyField(source="owner.username")]. *)
Definition SnippetSerializer_to_representation
    (st : Stage) (db : DB) (s : Snippet) : SnippetRepr :=
  {| r_url := if hyperlinked st then Some (snippet_detail_url (pk s)) else None;
     r_id := pk s;
     r_highlight :=
       if hyperlinked st then Some (snippet_highlight_url (pk s)) else None;
     r_owner := username <$> get_by_pk (users db) (owner s);
     r_title := title s;
     r_code := code s;
     r_linenos := linenos s;
     r_language := language s;
     r_style := style s |}.

(** [UserSerializer.to_representation]: [snippets] lists the reverse
    relation, by primary key in stage 4 and by hyperlink afterwards. *)
Definition UserSerializer_to_representation
    (st : Stage) (db : DB) (u : User) : UserRepr :=
  {| u_url := if hyperlinked st then Some (user_detail_url (pk u)) else None;
     u_id := pk u;
     u_username := username u;
     u_snippets :=
       (λ s : Snippet,
          if hyperlinked st then ByLink (snippet_detail_url (pk s))
          else ByPk (pk s)) <$> user_snippets db u |}.

(** Validation of one writable field: a key absent from the body is skipped
    when the field is optional or the update is partial.  This is
    [Field.get_value] and [run_validation] on a JSON object.  On a
    form-encoded body the framework differs in one case: a key of a boolean
    field ([linenos]) that is absent from a full, non-partial validation is
    read as false, the unchecked checkbox; the properties below that speak
    of absent keys are stated so that they hold for both encodings. *)
Inductive FieldResult (A : Type) : Type :=
  | Skipped
  | Validated (a : A)
  | Failed.
Arguments Skipped {A}.
Arguments Validated {A} a.
Arguments Failed {A}.

Definition run_field {A} (required partial : bool)
    (coerce : json → option A) (raw : option json) : FieldResult A :=
  match raw with
  | None => if partial then Skipped else if required then Failed else Skipped
  | Some j => match coerce j with Some a => Validated a | None => Failed end
  end.

Definition field_value {A} (r : FieldResult A) : option A :=
  match r with Validated a => Some a | _ => None end.

Definition field_error {A} (name : string) (r : FieldResult A) : list string :=
  match r with Failed => [name] | _ => [] end.

(** [SnippetSerializer.to_internal_value]: the writable fields of
    [Meta.fields] are [title], [code], [linenos], [language] and [style];
    [id], [owner], [url] and [highlight] are read-only and every other key of
    the body is ignored.  Only [code] is required.  The result is either the
    names of the fields that failed or the validated data. *)
Definition SnippetSerializer_to_internal_value `{Fields}
    (partial : bool) (body : gmap string json) : list string + SnippetAttrs :=
  let t := run_field false partial title_field (body !! "title") in
  let c := run_field true partial code_field (body !! "code") in
  let n := run_field false partial linenos_field (body !! "linenos") in
  let l := run_field false partial language_field (body !! "language") in
  let s := run_field false partial style_field (body !! "style") in
  match field_error "title" t ++ field_error "code" c ++
        field_error "linenos" n ++ field_error "language" l ++
        field_error "style" s with
  | [] => inr {| a_title := field_value t; a_code := field_value c;
                 a_linenos := field_value n; a_language := field_value l;
                 a_style := field_value s |}
  | errors => inl errors
  end.

(** [serializer.is_valid(raise_exception=True)] *)
Definition is_valid `{Fields}
    (partial : bool) (body : gmap string json) : M SnippetAttrs :=
  match SnippetSerializer_to_internal_value partial body with
  | inl errors => raise (ValidationError errors)
  | inr attrs => mret attrs
  end.

(** ** permissions.py *)

Definition SAFE_METHODS : list string := ["GET"; "HEAD"; "OPTIONS"].

(** A permission class: the two hooks of [BasePermission]. *)
Record Permission (T : Type) := {
  has_permission : Request → bool;
  has_object_permission : Request → T → bool;
}.
Arguments has_permission {T} _ _.
Arguments has_object_permission {T} _ _ _.

Definition BasePermission (T : Type) : Permission T :=
  {| has_permission _ := true; has_object_permission _ _ := true |}.

Definition AllowAny (T : Type) : Permission T := BasePermission T.

Definition IsAuthenticatedOrReadOnly (T : Type) : Permission T :=
  {| has_permission request :=
       bool_decide (method request ∈ SAFE_METHODS)
       || is_authenticated (user request);
     has_object_permission _ _ := true |}.

(** [obj.owner == request.user]: two model instances are equal when they
    are rows of the same table with the same primary key; the anonymous
    user is no row. *)
Definition owner_eq (obj : Snippet) (u : RequestUser) : bool :=
  match u with
  | AnonymousUser => false
  | AuthUser u => bool_decide (owner obj = pk u)
  end.

(** [IsOwnerOrReadOnly.has_object_permission], the class every stage's
    views import from [permissions.py] *)
Definition IsOwnerOrReadOnly_has_object_permission
    (request : Request) (obj : Snippet) : bool :=
  if bool_decide (method request ∈ SAFE_METHODS) then true
  else owner_eq obj (user request).

Definition IsOwnerOrReadOnly : Permission Snippet :=
  {| has_permission := has_permission (BasePermission Snippet);
     has_object_permission := IsOwnerOrReadOnly_has_object_permission |}.

(** ** The generic views of the framework *)

Definition Handler : Type := Request → M Response.

(** The class attributes of a [GenericAPIView] subclass.  [serializer_class]
    stands for the serializer's output side; [pagination_class] is the page
    size when list responses are paginated. *)
Record GenericAPIView (T : Type) := {
  queryset : DB → list T;
  serializer_class : DB → T → Item;
  permission_classes : list (Permission T);
  pagination_class : option positive;
}.
Arguments queryset {T} _ _.
Arguments serializer_class {T} _ _ _.
Arguments permission_classes {T} _.
Arguments pagination_class {T} _.

(** [APIView.permission_denied] *)
Definition permission_denied {A} (request : Request) : M A :=
  if is_authenticated (user request) then raise PermissionDenied
  else raise NotAuthenticated.

(** [APIView.check_permissions] *)
Definition check_permissions {T}
    (classes : list (Permission T)) (request : Request) : M () :=
  if forallb (λ p, has_permission p request) classes then mret ()
  else permission_denied request.

(** [APIView.check_object_permissions] *)
Definition check_object_permissions {T}
    (classes : list (Permission T)) (request : Request) (obj : T) : M () :=
  if forallb (λ p, has_object_permission p request obj) classes then mret ()
  else permission_denied request.

Section generics.
Context {T : Type} `{Model T} (self : GenericAPIView T).

(** [GenericAPIView.get_object]: [get_object_or_404] on the queryset,
    then the object-level permission check. *)
Definition get_object (k : nat) (request : Request) : M T :=
  db ← get_db;
  match get_by_pk (queryset self db) k with
  | None => raise Http404
  | Some obj =>
      check_object_permissions (permission_classes self) request obj;;
      mret obj
  end.

(** The first page of a paginated list response, or the plain list. *)
Definition paginate (items : list Item) : ResponseData :=
  match pagination_class self with
  | None => Objects items
  | Some size => Paginated (length items) (take (Pos.to_nat size) items)
  end.

(** [ListModelMixin.list] *)
Definition list_ : Handler := λ request,
  db ← get_db;
  mret {| status_code := HTTP_200_OK;
          content := paginate (serializer_class self db <$> queryset self db) |}.

(** [RetrieveModelMixin.retrieve] *)
Definition retrieve (k : nat) : Handler := λ request,
  instance ← get_object k request;
  db ← get_db;
  mret {| status_code := HTTP_200_OK;
          content := Object (serializer_class self db instance) |}.
End generics.

Section write_mixins.
Context `{Fields, Pygments} (self : GenericAPIView Snippet).

(** [CreateModelMixin.create], with the view's [perform_create] hook *)
Definition create (perform_create : Request → SnippetAttrs → M Snippet)
    : Handler := λ request,
  attrs ← is_valid false (data request);
  instance ← perform_create request attrs;
  db ← get_db;
  mret {| status_code := HTTP_201_CREATED;
          content := Object (serializer_class self db instance) |}.

(** [UpdateModelMixin.update] and [partial_update]; [perform_update] is
    [serializer.save()], that is [ModelSerializer.update]. *)
Definition update (partial : bool) (k : nat) : Handler := λ request,
  instance ← get_object self k request;
  attrs ← is_valid partial (data request);
  instance ← Snippet_save (set_attrs instance attrs);
  db ← get_db;
  mret {| status_code := HTTP_200_OK;
          content := Object (serializer_class self db instance) |}.

(** [DestroyModelMixin.destroy] *)
Definition destroy (k : nat) : Handler := λ request,
  instance ← get_object self k request;
  Snippet_delete instance;;
  mret {| status_code := HTTP_204_NO_CONTENT; content := NoData |}.
End write_mixins.

(** The method handlers a view class defines, by verb. *)
Definition Handlers : Type := list (string * Handler).

Fixpoint getattr (handlers : Handlers) (m : string) : option Handler :=
  match handlers with
  | [] => None
  | (name, h) :: rest => if String.eqb name m then Some h else getattr rest m
  end.

Definition ListAPIView {T} (self : GenericAPIView T) : Handlers :=
  [("GET", list_ self)].

Definition RetrieveAPIView {T} `{Model T}
    (self : GenericAPIView T) (k : nat) : Handlers :=
  [("GET", retrieve self k)].

Definition ListCreateAPIView `{Fields, Pygments} (self : GenericAPIView Snippet)
    (perform_create : Request → SnippetAttrs → M Snippet) : Handlers :=
  [("GET", list_ self); ("POST", create self perform_create)].

Definition RetrieveUpdateDestroyAPIView `{Fields, Pygments}
    (self : GenericAPIView Snippet) (k : nat) : Handlers :=
  [("GET", retrieve self k); ("PUT", update self false k);
   ("PATCH", update self true k); ("DELETE", destroy self k)].

(** [View.http_method_names] *)
Definition http_method_names : list string :=
  ["GET"; "POST"; "PUT"; "PATCH"; "DELETE"; "HEAD"; "OPTIONS"; "TRACE"].

Definition http_method_not_allowed : Handler := λ _, raise MethodNotAllowed.

(** [APIView.options] *)
Definition options : Handler := λ _,
  mret {| status_code := HTTP_200_OK; content := Metadata |}.

(** The handler [dispatch] selects: the view's own handler for the verb;
    [HEAD] falls back to the [GET] handler, [OPTIONS] to [APIView.options];
    a verb outside [names] or without handler is not allowed. *)
Definition select_handler
    (names : list string) (handlers : Handlers) (m : string) : Handler :=
  if bool_decide (m ∈ names) then
    match getattr handlers m with
    | Some h => h
    | None =>
        if String.eqb m "HEAD" then
          default http_method_not_allowed (getattr handlers "GET")
        else if String.eqb m "OPTIONS" then options
        else http_method_not_allowed
    end
  else http_method_not_allowed.

(** [SessionAuthentication]: the session's user, if that user is stored. *)
Definition authenticate (db : DB) (session : option nat) : RequestUser :=
  match session ≫= get_by_pk (users db) with
  | Some u => AuthUser u
  | None => AnonymousUser
  end.

(** [APIView.initialize_request] and [perform_authentication] *)
Definition initialize_request (db : DB) (r : HttpRequest) : Request :=
  {| method := http_method r;
     user := authenticate db (http_session r);
     data := http_body r |}.

Definition status_of (e : Exception) : nat :=
  match e with
  | Http404 => HTTP_404_NOT_FOUND
  | NotAuthenticated => HTTP_403_FORBIDDEN
  | PermissionDenied => HTTP_403_FORBIDDEN
  | MethodNotAllowed => HTTP_405_METHOD_NOT_ALLOWED
  | ValidationError _ => HTTP_400_BAD_REQUEST
  | ValueError | IntegrityError => HTTP_500_INTERNAL_SERVER_ERROR
  end.

(** [APIView.handle_exception].  A [NotAuthenticated] is answered with 403
    because session authentication, the first authenticator, sends no
    [WWW-Authenticate] header. *)
Definition handle_exception (e : Exception) : Response :=
  {| status_code := status_of e; content := Detail e |}.

Definition View : Type := HttpRequest → nat → DB → Response * DB.

(** The [try ... except] of [APIView.dispatch]: the response of the body,
    or the error response of the exception it raised. *)
Definition respond (body : M Response) : nat → DB → Response * DB :=
  λ now db,
    match body now db with
    | (inl e, db') => (handle_exception e, db')
    | (inr response, db') => (response, db')
    end.

(** [APIView.dispatch]: [initial] authenticates and checks the view-level
    permissions, then the handler of the verb runs; an exception of either
    becomes the error response. *)
Definition dispatch {T} (names : list string)
    (classes : list (Permission T)) (handlers : Handlers) : View :=
  λ r now db,
    let request := initialize_request db r in
    respond (check_permissions classes request;;
             select_handler names handlers (method request) request) now db.

(** [as_view()] of a class-based generic view *)
Definition as_view {T} (self : GenericAPIView T) (handlers : Handlers) : View :=
  dispatch http_method_names (permission_classes self) handlers.

(** ** views.py *)

(** [DEFAULT_PERMISSION_CLASSES] of the framework, for a view that declares
    no [permission_classes] *)
Definition DEFAULT_PERMISSION_CLASSES (T : Type) : list (Permission T) :=
  [AllowAny T].

(** List responses are plain lists in stage 4 and paginated from stage 5
    on (the tests read [count] and [results]). *)
Definition DEFAULT_PAGINATION_CLASS `{Settings} (st : Stage) : option positive :=
  match st with Stage4 => None | Stage5 | Stage6 => Some PAGE_SIZE end.

(** [SnippetList.perform_create]:
    [serializer.save(owner=self.request.user)].  The [owner] keyword is
    merged over the validated data and [ModelSerializer.create] calls
    [Snippet.objects.create]; the anonymous user is no value for the
    foreign key. *)
Definition perform_create `{Pygments}
    (request : Request) (attrs : SnippetAttrs) : M Snippet :=
  match user request with
  | AuthUser u => Snippet_objects_create attrs (pk u)
  | AnonymousUser => raise ValueError
  end.

Section views.
Context `{Fields, Pygments, Settings} (st : Stage).

(** stages 4 and 5: [class SnippetList(generics.ListCreateAPIView)] *)
Definition SnippetList : GenericAPIView Snippet :=
  {| queryset := Snippet_objects_all;
     serializer_class db s :=
       SnippetItem (SnippetSerializer_to_representation st db s);
     permission_classes := [IsAuthenticatedOrReadOnly Snippet];
     pagination_class := DEFAULT_PAGINATION_CLASS st |}.

(** stages 4 and 5:
    [class SnippetDetail(generics.RetrieveUpdateDestroyAPIView)] *)
Definition SnippetDetail : GenericAPIView Snippet :=
  {| queryset := Snippet_objects_all;
     serializer_class db s :=
       SnippetItem (SnippetSerializer_to_representation st db s);
     permission_classes :=
       [IsAuthenticatedOrReadOnly Snippet; IsOwnerOrReadOnly];
     pagination_class := DEFAULT_PAGINATION_CLASS st |}.

(** stage 6: [class SnippetViewSet(viewsets.ModelViewSet)]; one class
    serves the list, detail and highlight routes. *)
Definition SnippetViewSet : GenericAPIView Snippet := SnippetDetail.

(** [class UserList(generics.ListAPIView)], [UserDetail] and, in stage 6,
    [UserViewSet]: the queryset is [User.objects.all()] in stage 4 and
    [User.objects.all().order_by("id")] afterwards. *)
Definition UserList : GenericAPIView User :=
  {| queryset :=
       match st with
       | Stage4 => User_objects_all
       | Stage5 | Stage6 => User_objects_order_by_id
       end;
     serializer_class db u :=
       UserItem (UserSerializer_to_representation st db u);
     permission_classes := DEFAULT_PERMISSION_CLASSES User;
     pagination_class := DEFAULT_PAGINATION_CLASS st |}.

Definition UserDetail : GenericAPIView User := UserList.
Definition UserViewSet : GenericAPIView User := UserList.

(** stage 5: [class SnippetHighlight(generics.GenericAPIView)]; the class
    declares a queryset and a renderer, its handler uses no serializer. *)
Definition SnippetHighlight : GenericAPIView Snippet :=
  {| queryset := Snippet_objects_all;
     serializer_class db s :=
       SnippetItem (SnippetSerializer_to_representation st db s);
     permission_classes := DEFAULT_PERMISSION_CLASSES Snippet;
     pagination_class := DEFAULT_PAGINATION_CLASS st |}.

(** [SnippetHighlight.get] and the [highlight] action of
    [SnippetViewSet]: [Response(snippet.highlighted)] *)
Definition highlight_action (self : GenericAPIView Snippet) (k : nat)
    : Handler := λ request,
  snippet ← get_object self k request;
  mret {| status_code := HTTP_200_OK;
          content := StaticHTML (highlighted snippet) |}.

(** [api_root], a function view under [@api_view(["GET"])] *)
Definition api_root : View :=
  dispatch ["GET"; "OPTIONS"] (DEFAULT_PERMISSION_CLASSES ())
    [("GET", λ request,
        mret {| status_code := HTTP_200_OK;
                content := Links [("users", user_list_url);
                                  ("snippets", snippet_list_url)] |})].

End views.

(** ** urls.py *)

Section urls.
Context `{Fields, Pygments, Settings}.

(** stage 4: [snippet-list], [snippet-detail], [user-list] and
    [user-detail] *)
Definition urlpatterns_4 (url : Route) : option View :=
  match url with
  | snippet_list_url =>
      Some (as_view (SnippetList Stage4)
              (ListCreateAPIView (SnippetList Stage4) perform_create))
  | snippet_detail_url k =>
      Some (as_view (SnippetDetail Stage4)
              (RetrieveUpdateDestroyAPIView (SnippetDetail Stage4) k))
  | user_list_url =>
      Some (as_view (UserList Stage4) (ListAPIView (UserList Stage4)))
  | user_detail_url k =>
      Some (as_view (UserDetail Stage4) (RetrieveAPIView (UserDetail Stage4) k))
  | api_root_url | snippet_highlight_url _ => None
  end.

(** stage 5: the patterns of stage 4, [api-root] and [snippet-highlight] *)
Definition urlpatterns_5 (url : Route) : option View :=
  match url with
  | api_root_url => Some api_root
  | snippet_list_url =>
      Some (as_view (SnippetList Stage5)
              (ListCreateAPIView (SnippetList Stage5) perform_create))
  | snippet_detail_url k =>
      Some (as_view (SnippetDetail Stage5)
              (RetrieveUpdateDestroyAPIView (SnippetDetail Stage5) k))
  | user_list_url =>
      Some (as_view (UserList Stage5) (ListAPIView (UserList Stage5)))
  | user_detail_url k =>
      Some (as_view (UserDetail Stage5) (RetrieveAPIView (UserDetail Stage5) k))
  | snippet_highlight_url k =>
      Some (as_view (SnippetHighlight Stage5)
              [("GET", highlight_action (SnippetHighlight Stage5) k)])
  end.

(** Modelled from the spec: [urls.py] of stage 6 is missing; the endpoints
    are "produced by generic framework views and routers".  A router binds
    the actions of [SnippetViewSet] and [UserViewSet] to the list and detail
    routes ([list] and [create]; [retrieve], [update], [partial_update] and
    [destroy]) and the extra [highlight] action to its own route; the root is
    the [api_root] view of [views.py]. *)
Definition urlpatterns_6 (url : Route) : option View :=
  match url with
  | api_root_url => Some api_root
  | snippet_list_url =>
      Some (as_view (SnippetViewSet Stage6)
              (ListCreateAPIView (SnippetViewSet Stage6) perform_create))
  | snippet_detail_url k =>
      Some (as_view (SnippetViewSet Stage6)
              (RetrieveUpdateDestroyAPIView (SnippetViewSet Stage6) k))
  | snippet_highlight_url k =>
      Some (as_view (SnippetViewSet Stage6)
              [("GET", highlight_action (SnippetViewSet Stage6) k)])
  | user_list_url =>
      Some (as_view (UserViewSet Stage6) (ListAPIView (UserViewSet Stage6)))
  | user_detail_url k =>
      Some (as_view (UserViewSet Stage6)
              (RetrieveAPIView (UserViewSet Stage6) k))
  end.

Definition urlpatterns (st : Stage) : Route → option View :=
  match st with
  | Stage4 => urlpatterns_4
  | Stage5 => urlpatterns_5
  | Stage6 => urlpatterns_6
  end.

(** The application: resolve the URL, run the view. *)
Definition handle (st : Stage) : View := λ r now db,
  match urlpatterns st (http_url r) with
  | Some view => view r now db
  | None =>
      ({| status_code := HTTP_404_NOT_FOUND; content := Detail Http404 |}, db)
  end.

(** ** Histories *)

(** What changes the database: a request, or one of the manager calls
    the test suites make directly. *)
Inductive Op : Type :=
  | Http (now : nat) (r : HttpRequest)
  | CreateUser (name : string)
  | DeleteUser (k : nat)
  | CreateSnippet (now : nat) (attrs : SnippetAttrs) (o : nat)
  | DeleteSnippet (k : nat).

Definition step (st : Stage) (db : DB) (op : Op) : DB :=
  match op with
  | Http now r => (handle st r now db).2
  | CreateUser name => (User_objects_create_user name 0 db).2
  | DeleteUser k =>
      match get_by_pk (users db) k with
      | Some u => (User_delete u 0 db).2
      | None => db
      end
  | CreateSnippet now attrs o => (Snippet_objects_create attrs o now db).2
  | DeleteSnippet k =>
      match get_by_pk (snippets db) k with
      | Some s => (Snippet_delete s 0 db).2
      | None => db
      end
  end.

Definition run (st : Stage) (ops : list Op) (db : DB) : DB :=
  foldl (step st) db ops.

(** The states the application can be in. *)
Definition reachable (st : Stage) (db : DB) : Prop :=
  ∃ ops, db = run st ops empty_db.
End urls.

(** ** Specification vocabulary *)

(** Primary keys are unique and come from the sequence. *)
Definition db_ok (db : DB) : Prop :=
  NoDup (pk <$> snippets db) ∧ Forall (λ s, pk s < snippet_seq db) (snippets db).

(** The requester is the stored owner of [obj]. *)
Definition is_owner (who : RequestUser) (obj : Snippet) : Prop :=
  ∃ u, who = AuthUser u ∧ owner obj = pk u.

(** Every stored snippet carries the page rendered from its own code,
    language and style. *)
Definition highlighted_ok `{Pygments} (db : DB) : Prop :=
  ∀ s, s ∈ snippets db → highlighted s = highlight (code s) (language s) (style s).

(** The objects of a list response. *)
Definition items_of (c : ResponseData) : list Item :=
  match c with
  | Objects l => l
  | Paginated _ l => l
  | _ => []
  end.

(** What one request does to the database, for a response and a final
    state: nothing, or one of the three writes of the snippet views. *)
Inductive Effect `{Fields, Pygments}
    (request : Request) (now : nat) (db : DB) : Response → DB → Prop :=
  | no_effect response :
      Effect request now db response db
  | created_effect u attrs response :
      user request = AuthUser u →
      SnippetSerializer_to_internal_value false (data request) = inr attrs →
      status_code response = HTTP_201_CREATED →
      Effect request now db response
        (insert_snippet db
           (render (Snippet_row (Snippet_init attrs (pk u)) (snippet_seq db) now)))
  | updated_effect u obj partial attrs response :
      obj ∈ snippets db →
      user request = AuthUser u →
      owner obj = pk u →
      SnippetSerializer_to_internal_value partial (data request) = inr attrs →
      status_code response = HTTP_200_OK →
      Effect request now db response
        (with_snippets db
           (replace_row (render (set_attrs obj attrs)) (snippets db)))
  | deleted_effect u obj response :
      obj ∈ snippets db →
      user request = AuthUser u →
      owner obj = pk u →
      status_code response = HTTP_204_NO_CONTENT →
      Effect request now db response
        (with_snippets db (filter (λ r, pk r ≠ pk obj) (snippets db))).

(** The three ways [get_object] ends; none of them writes. *)
Inductive get_object_result {T} `{Model T} (self : GenericAPIView T)
    (k : nat) (request : Request) (db : DB) : Exception + T → Prop :=
  | get_object_missing :
      get_by_pk (queryset self db) k = None →
      get_object_result self k request db (inl Http404)
  | get_object_denied obj e :
      get_by_pk (queryset self db) k = Some obj →
      forallb (λ p, has_object_permission p request obj)
        (permission_classes self) = false →
      status_of e = HTTP_403_FORBIDDEN →
      get_object_result self k request db (inl e)
  | get_object_found obj :
      get_by_pk (queryset self db) k = Some obj →
      forallb (λ p, has_object_permission p request obj)
        (permission_classes self) = true →
      get_object_result self k request db (inr obj).

(** A handler bound to the verb [name] keeps to [Effect] on the requests
    [dispatch] passes to it: those of that verb and, for the [GET] handler,
    [HEAD] requests. *)
Definition handler_ok `{Fields, Pygments} (name : string) (h : Handler) : Prop :=
  ∀ request now db,
    method request = name ∨ (name = "GET" ∧ method request = "HEAD") →
    Effect request now db
      (respond (h request) now db).1 (respond (h request) now db).2.

(** Two requests a view cannot tell apart: the same verb and user, and
    bodies with the same validation outcome. *)
Definition same_request `{Fields} (q1 q2 : Request) : Prop :=
  method q1 = method q2 ∧ user q1 = user q2 ∧
  ∀ partial, SnippetSerializer_to_internal_value partial (data q1)
             = SnippetSerializer_to_internal_value partial (data q2).

Definition permission_respects `{Fields} {T} (p : Permission T) : Prop :=
  ∀ q1 q2, same_request q1 q2 →
    has_permission p q1 = has_permission p q2 ∧
    ∀ obj, has_object_permission p q1 obj = has_object_permission p q2 obj.

Definition handler_respects `{Fields} (h : Handler) : Prop :=
  ∀ q1 q2, same_request q1 q2 → ∀ now db, h q1 now db = h q2 now db.

(** The keys of a body the snippet serializer reads. *)
Definition writable_fields : list string :=
  ["title"; "code"; "linenos"; "language"; "style"].

(** The endpoints of the API, as the URL configuration of a stage exposes
    them. *)
Inductive Endpoint : Type :=
  | RootEndpoint
  | SnippetCollection
  | SnippetMember (k : nat)
  | SnippetPage (k : nat)
  | UserCollection
  | UserMember (k : nat).

Definition endpoint (st : Stage) (url : Route) : option Endpoint :=
  match url with
  | api_root_url =>
      match st with Stage4 => None | _ => Some RootEndpoint end
  | snippet_list_url => Some SnippetCollection
  | snippet_detail_url k => Some (SnippetMember k)
  | snippet_highlight_url k =>
      match st with Stage4 => None | _ => Some (SnippetPage k) end
  | user_list_url => Some UserCollection
  | user_detail_url k => Some (UserMember k)
  end.

(** The verbs an endpoint answers. *)
Definition supported (e : Endpoint) : list string :=
  match e with
  | RootEndpoint => ["GET"; "OPTIONS"]
  | SnippetCollection => ["GET"; "HEAD"; "OPTIONS"; "POST"]
  | SnippetMember _ => ["GET"; "HEAD"; "OPTIONS"; "PUT"; "PATCH"; "DELETE"]
  | SnippetPage _ | UserCollection | UserMember _ => ["GET"; "HEAD"; "OPTIONS"]
  end.

(** The endpoints whose view requires a login for unsafe verbs. *)
Definition login_required (st : Stage) (e : Endpoint) : bool :=
  match e with
  | SnippetCollection | SnippetMember _ => true
  | SnippetPage _ => match st with Stage6 => true | _ => false end
  | RootEndpoint | UserCollection | UserMember _ => false
  end.

Definition body_invalid `{Fields} (partial : bool) (body : gmap string json)
    : bool :=
  match SnippetSerializer_to_internal_value partial body with
  | inl _ => true
  | inr _ => false
  end.

(** The status of the response, by the order in which a request can fail:
    no such URL (404); the view-level permission check (403); the verb
    (405); the addressed record (404); the object-level permission check
    (403); the body (400). *)
Definition expected_status `{Fields}
    (st : Stage) (db : DB) (r : HttpRequest) : nat :=
  let m := http_method r in
  let who := authenticate db (http_session r) in
  match endpoint st (http_url r) with
  | None => HTTP_404_NOT_FOUND
  | Some e =>
      if login_required st e && negb (bool_decide (m ∈ SAFE_METHODS))
         && negb (is_authenticated who)
      then HTTP_403_FORBIDDEN
      else if negb (bool_decide (m ∈ supported e))
      then HTTP_405_METHOD_NOT_ALLOWED
      else if bool_decide (m = "OPTIONS") then HTTP_200_OK
      else
        match e with
        | RootEndpoint | UserCollection => HTTP_200_OK
        | SnippetCollection =>
            if bool_decide (m = "POST") then
              if body_invalid false (http_body r) then HTTP_400_BAD_REQUEST
              else HTTP_201_CREATED
            else HTTP_200_OK
        | SnippetMember k =>
            match get_by_pk (Snippet_objects_all db) k with
            | None => HTTP_404_NOT_FOUND
            | Some obj =>
                if negb (bool_decide (m ∈ SAFE_METHODS)) && negb (owner_eq obj who)
                then HTTP_403_FORBIDDEN
                else if bool_decide (m = "DELETE") then HTTP_204_NO_CONTENT
                else if bool_decide (m ∈ ["PUT"; "PATCH"]) then
                  if body_invalid (bool_decide (m = "PATCH")) (http_body r)
                  then HTTP_400_BAD_REQUEST
                  else HTTP_200_OK
                else HTTP_200_OK
            end
        | SnippetPage k =>
            match get_by_pk (Snippet_objects_all db) k with
            | None => HTTP_404_NOT_FOUND
            | Some _ => HTTP_200_OK
            end
        | UserMember k =>
            match get_by_pk (users db) k with
            | None => HTTP_404_NOT_FOUND
            | Some _ => HTTP_200_OK
            end
        end
  end.

(** ** A concrete instance

    One choice of field coercions, highlighter and page size, and the
    fixture of the view test suites ([SnippetViewTests.setUp]), to run the
    model on. *)
Module Sample.

Definition fields : Fields :=
  {| title_field j := match j with JStr s => Some s | _ => None end;
     code_field j :=
       match j with
       | JStr s => if bool_decide (s = EmptyString) then None else Some s
       | _ => None
       end;
     linenos_field j := match j with JBool b => Some b | _ => None end;
     language_field j :=
       match j with
       | JStr s =>
           if bool_decide (s ∈ ["python"; "javascript"; "ruby"]) then Some s
           else None
       | _ => None
       end;
     style_field j :=
       match j with
       | JStr s =>
           if bool_decide (s ∈ ["friendly"; "monokai"]) then Some s else None
       | _ => None
       end |}.

Definition pygments : Pygments :=
  {| highlight c l s := "<html><pre class=" +:+ s +:+ ">" +:+ c +:+ "</pre></html>" |}.

Definition settings : Settings := {| PAGE_SIZE := 10 |}.

Definition setUp : list Op :=
  [CreateUser "user1"; CreateUser "user2";
   CreateSnippet 10
     {| a_title := Some "First Snippet"; a_code := Some "print('first')";
        a_linenos := None; a_language := Some "python"; a_style := None |} 1;
   CreateSnippet 11
     {| a_title := Some "Second Snippet";
        a_code := Some "console.log('second')";
        a_linenos := None; a_language := Some "javascript"; a_style := None |} 2].

Definition db : DB := @run fields pygments settings Stage4 setUp empty_db.

(** The application at this instance. *)
Abbreviation app := (@handle fields pygments settings).

Definition request (m : string) (url : Route) (session : option nat)
    (body : gmap string json) : HttpRequest :=
  {| http_method := m; http_url := url; http_session := session;
     http_body := body |}.

(** What the test methods assert on: the status of the response and the
    number of stored snippets after the request, at the fixture. *)
Definition status (st : Stage) (r : HttpRequest) : nat :=
  status_code (app st r 20 db).1.

Definition count_after (st : Stage) (r : HttpRequest) : nat :=
  Snippet_objects_count (app st r 20 db).2.

Definition code_only (c : string) : SnippetAttrs :=
  {| a_title := None; a_code := Some c; a_linenos := None;
     a_language := None; a_style := None |}.

Definition snippet1 : Snippet :=
  {| snippet_pk := 1; created := 10; title := "First Snippet";
     code := "print('first')"; linenos := false; language := "python";
     style := "friendly"; owner := 1;
     highlighted := "<html><pre class=friendly>print('first')</pre></html>" |}.

End Sample.

(** ** More specification vocabulary *)

(** Referential integrity of the [owner] foreign key: the users have
    distinct primary keys, all from the sequence, and every snippet is owned
    by a stored user. *)
Definition fk_ok (db : DB) : Prop :=
  NoDup (pk <$> users db) ∧
  Forall (λ u, pk u < user_seq db) (users db) ∧
  Forall (λ s, owner s ∈ pk <$> users db) (snippets db).

(** How a user's representation refers to the snippet with primary key
    [k]: by the key itself in stage 4, by the link to its detail URL
    afterwards. *)
Definition related_snippet (st : Stage) (k : nat) : Related :=
  if hyperlinked st then ByLink (snippet_detail_url k) else ByPk k.

(** The request a client sends to follow a hyperlink: a GET of its URL. *)
Definition follow (url : Route) (session : option nat) : HttpRequest :=
  {| http_method := "GET"; http_url := url; http_session := session;
     http_body := ∅ |}.

(** The URLs that exist in every stage with the same view classes behind
    them. *)
Definition common_url (url : Route) : bool :=
  match url with
  | snippet_list_url | snippet_detail_url _ | user_list_url
  | user_detail_url _ => true
  | api_root_url | snippet_highlight_url _ => false
  end.


(** The verbs whose handler writes, by URL: [create] on the snippet
    collection; [update], [partial_update] and [destroy] on a snippet. *)
Definition write_verbs (url : Route) : list string :=
  match url with
  | snippet_list_url => ["POST"]
  | snippet_detail_url _ => ["PUT"; "PATCH"; "DELETE"]
  | api_root_url | snippet_highlight_url _ | user_list_url
  | user_detail_url _ => []
  end.

(** ** The stages before authentication *)

(** Modelled from the spec: in stages 1 to 3 the owner is "nullable until
    the authentication stage" and a snippet is created without one.
    [no_owner] is the value of the [owner] column of such a row; the
    primary keys of users start at 1. *)
Definition no_owner : nat := 0.

(** Modelled from the spec: [Snippet.objects.create(...)] of stages 1 to 3,
    whose [models.py] is missing; the owner is "nullable until the
    authentication stage".  The constructor fills the absent keys with the
    column defaults, the highlighted page is rendered, the row gets the next
    primary key and the current time and is inserted; there is no foreign
    key to check. *)
Definition Snippet_objects_create_unowned `{Pygments}
    (attrs : SnippetAttrs) : M Snippet :=
  now ← timezone_now;
  db ← get_db;
  let row :=
    render (Snippet_row (Snippet_init attrs no_owner) (snippet_seq db) now) in
  put_db (insert_snippet db row);;
  mret row.

(** [SnippetSerializer(data=body)], [is_valid] and [save()] as the
    serializer tests of stages 1 to 3 call them: the serializer is a
    [ModelSerializer] over the same five writable fields, and
    [ModelSerializer.create] passes the validated data to
    [Snippet.objects.create]. *)
Definition SnippetSerializer_save `{Fields, Pygments}
    (body : gmap string json) : M Snippet :=
  attrs ← is_valid false body;
  Snippet_objects_create_unowned attrs.

(** * Properties *)

(** ** The default ordering *)

#[global] Instance created_le_total : Total created_le.
Proof. intros a b. unfold created_le. lia. Qed.

#[global] Instance created_le_trans : Transitive created_le.
Proof. intros a b c. unfold created_le. lia. Qed.

Lemma Snippet_objects_all_perm (db : DB) :
  Snippet_objects_all db ≡ₚ snippets db.
Proof. apply merge_sort_Permutation. Qed.

Lemma Snippet_objects_all_sorted (db : DB) :
  StronglySorted created_le (Snippet_objects_all db).
Proof. apply StronglySorted_merge_sort; apply _. Qed.

Lemma elem_of_Snippet_objects_all (db : DB) (s : Snippet) :
  s ∈ Snippet_objects_all db ↔ s ∈ snippets db.
Proof. by rewrite Snippet_objects_all_perm. Qed.

Lemma StronglySorted_take {A} (R : relation A) (n : nat) (l : list A) :
  StronglySorted R l → StronglySorted R (take n l).
Proof.
  intros Hl. revert n. induction Hl as [|x l Hl IH Hx]; intros [|n]; simpl;
    try constructor; auto using Forall_take.
Qed.

Lemma StronglySorted_filter {A} (R : relation A) (P : A → Prop)
    `{∀ x, Decision (P x)} (l : list A) :
  StronglySorted R l → StronglySorted R (filter P l).
Proof.
  induction 1 as [|x l Hl IH Hx]; [constructor|].
  rewrite filter_cons. case_decide; [|done].
  constructor; [done|].
  rewrite Forall_forall in Hx. apply Forall_forall.
  intros y [_ Hy]%list_elem_of_filter. auto.
Qed.

(** ** Lookup by primary key *)

Section lookup.
Context {T : Type} `{Model T}.
Implicit Types (rows : list T) (r : T) (k : nat).

Lemma get_by_pk_Some rows k r :
  get_by_pk rows k = Some r → r ∈ rows ∧ pk r = k.
Proof.
  unfold get_by_pk. intros Hf. apply find_some in Hf as [Hin Hpk].
  split; [by apply list_elem_of_In | by apply bool_decide_eq_true in Hpk].
Qed.

Lemma get_by_pk_None rows k :
  get_by_pk rows k = None ↔ k ∉ pk <$> rows.
Proof.
  unfold get_by_pk. induction rows as [|r rows IH]; simpl.
  - split; [intros _; apply not_elem_of_nil | done].
  - rewrite not_elem_of_cons. case_bool_decide as Hk; [|rewrite IH].
    + split; [done | by intros [? _]].
    + split; [done | by intros [_ ?]].
Qed.

Lemma get_by_pk_is_Some rows k :
  is_Some (get_by_pk rows k) ↔ k ∈ pk <$> rows.
Proof.
  rewrite <-not_eq_None_Some, get_by_pk_None.
  split; [apply dec_stable | auto].
Qed.

Lemma get_by_pk_NoDup rows r :
  NoDup (pk <$> rows) → r ∈ rows → get_by_pk rows (pk r) = Some r.
Proof.
  unfold get_by_pk. induction rows as [|r' rows IH]; simpl.
  - by intros _ ?%elem_of_nil.
  - rewrite NoDup_cons. intros [Hr' Hnd] [->|Hin]%elem_of_cons.
    + by rewrite bool_decide_eq_true_2.
    + rewrite bool_decide_eq_false_2; [by apply IH|].
      intros Heq. apply Hr'. rewrite Heq. by apply list_elem_of_fmap_2.
Qed.

Lemma get_by_pk_None_perm rows rows' k :
  rows ≡ₚ rows' → get_by_pk rows k = None → get_by_pk rows' k = None.
Proof. rewrite !get_by_pk_None. by intros ->. Qed.
End lookup.

Lemma get_user_order_by_id (db : DB) (k : nat) :
  match get_by_pk (User_objects_order_by_id db) k,
        get_by_pk (users db) k with
  | Some _, Some _ | None, None => True
  | _, _ => False
  end.
Proof.
  assert (User_objects_order_by_id db ≡ₚ users db) as Hp
    by apply merge_sort_Permutation.
  destruct (get_by_pk (User_objects_order_by_id db) k) eqn:H1,
    (get_by_pk (users db) k) eqn:H2; try done.
  - by rewrite (get_by_pk_None_perm _ _ _ (symmetry Hp) H2) in H1.
  - by rewrite (get_by_pk_None_perm _ _ _ Hp H1) in H2.
Qed.

Lemma get_snippet (db : DB) (s : Snippet) :
  db_ok db → s ∈ snippets db →
  get_by_pk (Snippet_objects_all db) (pk s) = Some s.
Proof.
  intros [Hnd _] Hs. apply get_by_pk_NoDup.
  - by rewrite Snippet_objects_all_perm.
  - by apply elem_of_Snippet_objects_all.
Qed.

Lemma authenticate_stored (db : DB) (session : option nat) (u : User) :
  authenticate db session = AuthUser u →
  is_Some (get_by_pk (users db) (pk u)).
Proof.
  unfold authenticate. destruct session as [k|]; simpl; [|done].
  destruct (get_by_pk (users db) k) as [u'|] eqn:Hk; [|done].
  intros [= ->]. apply get_by_pk_Some in Hk as [Hin <-].
  apply get_by_pk_is_Some. by apply list_elem_of_fmap_2.
Qed.

(** ** The handler monad *)

Ltac unfold_M :=
  unfold mbind, M_bind, mret, M_ret, raise, get_db, put_db, timezone_now in *.

Lemma respond_bind {A} (m : M A) (f : A → M Response) (now : nat) (db : DB) :
  respond (m ≫= f) now db =
  match m now db with
  | (inl e, db') => (handle_exception e, db')
  | (inr a, db') => respond (f a) now db'
  end.
Proof. unfold respond. unfold_M. by destruct (m now db) as [[e|a] db']. Qed.

(** ** Permission checks *)

Lemma permission_denied_403 {A} (request : Request) (now : nat) (db : DB) :
  ∃ e, @permission_denied A request now db = (inl e, db) ∧
       status_of e = HTTP_403_FORBIDDEN.
Proof.
  unfold permission_denied. destruct (is_authenticated _); eexists; by split.
Qed.

Lemma check_permissions_true {T} (classes : list (Permission T)) request now db :
  forallb (λ p, has_permission p request) classes = true →
  check_permissions classes request now db = (inr (), db).
Proof. unfold check_permissions. by intros ->. Qed.

Lemma check_permissions_false {T} (classes : list (Permission T)) request now db :
  forallb (λ p, has_permission p request) classes = false →
  ∃ e, check_permissions classes request now db = (inl e, db) ∧
       status_of e = HTTP_403_FORBIDDEN.
Proof. unfold check_permissions. intros ->. apply permission_denied_403. Qed.

Lemma get_object_spec {T} `{Model T} (self : GenericAPIView T) k request now db :
  ∃ res, get_object self k request now db = (res, db) ∧
         get_object_result self k request db res.
Proof.
  unfold get_object. unfold_M.
  destruct (get_by_pk (queryset self db) k) as [obj|] eqn:Hk.
  - unfold check_object_permissions.
    destruct (forallb _ _) eqn:Hp.
    + eexists. split; [done|]. by eapply get_object_found.
    + destruct (permission_denied_403 (A:=()) request now db) as (e & -> & He).
      eexists. split; [done|]. by eapply get_object_denied.
  - eexists. split; [done|]. by apply get_object_missing.
Qed.

Lemma IsOwnerOrReadOnly_unsafe (request : Request) (obj : Snippet) :
  method request ∉ SAFE_METHODS →
  IsOwnerOrReadOnly_has_object_permission request obj = true →
  is_owner (user request) obj.
Proof.
  unfold IsOwnerOrReadOnly_has_object_permission, owner_eq, is_owner.
  intros Hm. rewrite bool_decide_eq_false_2 by done.
  destruct (user request) as [|u]; [done|].
  intros Ho%bool_decide_eq_true. by exists u.
Qed.

Lemma forallb_elem_of {A} (f : A → bool) (l : list A) (x : A) :
  forallb f l = true → x ∈ l → f x = true.
Proof.
  intros Hall Hx. apply list_elem_of_In in Hx.
  by apply (proj1 (forallb_forall f l) Hall).
Qed.

(** ** What the handlers do to the database *)

Section effects.
Context `{Fields, Pygments}.

Lemma list_ok {T} (self : GenericAPIView T) name : handler_ok name (list_ self).
Proof. intros request now db _. apply no_effect. Qed.

Lemma retrieve_ok {T} `{Model T} (self : GenericAPIView T) k name :
  handler_ok name (retrieve self k).
Proof.
  intros request now db _. unfold retrieve. rewrite respond_bind.
  destruct (get_object_spec self k request now db) as ([e|obj] & -> & _);
    apply no_effect.
Qed.

Lemma highlight_action_ok (self : GenericAPIView Snippet) k name :
  handler_ok name (highlight_action self k).
Proof.
  intros request now db _. unfold highlight_action. rewrite respond_bind.
  destruct (get_object_spec self k request now db) as ([e|obj] & -> & _);
    apply no_effect.
Qed.

Lemma create_ok (self : GenericAPIView Snippet) name :
  handler_ok name (create self perform_create).
Proof.
  intros request now db _.
  unfold create, is_valid, perform_create, Snippet_objects_create, respond.
  unfold_M.
  destruct (SnippetSerializer_to_internal_value false (data request))
    as [errors|attrs] eqn:Hv; [apply no_effect|].
  destruct (user request) as [|u] eqn:Hu; [apply no_effect|].
  destruct (get_by_pk (users db) (pk u)); [|apply no_effect].
  by eapply created_effect.
Qed.

Lemma found_is_owned (self : GenericAPIView Snippet) k request db obj :
  IsOwnerOrReadOnly ∈ permission_classes self →
  queryset self = Snippet_objects_all →
  method request ∉ SAFE_METHODS →
  get_object_result self k request db (inr obj) →
  obj ∈ snippets db ∧ is_owner (user request) obj.
Proof.
  intros Hperm Hqs Hm Hres. inversion Hres as [| |obj' Hk Hall]; subst.
  rewrite Hqs in Hk. apply get_by_pk_Some in Hk as [Hin _].
  split; [by apply elem_of_Snippet_objects_all|].
  apply IsOwnerOrReadOnly_unsafe; [done|].
  by apply (forallb_elem_of _ _ IsOwnerOrReadOnly Hall).
Qed.

Lemma unsafe_verb (request : Request) (name : string) :
  name ∉ SAFE_METHODS →
  method request = name ∨ (name = "GET" ∧ method request = "HEAD") →
  method request ∉ SAFE_METHODS.
Proof.
  intros Hname [->|[-> _]]; [done|].
  exfalso. apply Hname. apply list_elem_of_here.
Qed.

Lemma update_ok (self : GenericAPIView Snippet) partial k name :
  IsOwnerOrReadOnly ∈ permission_classes self →
  queryset self = Snippet_objects_all →
  name ∉ SAFE_METHODS →
  handler_ok name (update self partial k).
Proof.
  intros Hperm Hqs Hname request now db Hm. unfold update.
  rewrite respond_bind.
  destruct (get_object_spec self k request now db) as ([e|obj] & -> & Hres);
    [apply no_effect|].
  eapply found_is_owned in Hres as [Hin (u & Hu & Ho)];
    eauto using unsafe_verb.
  unfold is_valid, Snippet_save, respond. unfold_M.
  destruct (SnippetSerializer_to_internal_value partial (data request))
    as [errors|attrs] eqn:Hv; [apply no_effect|].
  by eapply updated_effect.
Qed.

Lemma destroy_ok (self : GenericAPIView Snippet) k name :
  IsOwnerOrReadOnly ∈ permission_classes self →
  queryset self = Snippet_objects_all →
  name ∉ SAFE_METHODS →
  handler_ok name (destroy self k).
Proof.
  intros Hperm Hqs Hname request now db Hm. unfold destroy.
  rewrite respond_bind.
  destruct (get_object_spec self k request now db) as ([e|obj] & -> & Hres);
    [apply no_effect|].
  eapply found_is_owned in Hres as [Hin (u & Hu & Ho)];
    eauto using unsafe_verb.
  by eapply deleted_effect.
Qed.

Lemma getattr_Some (handlers : Handlers) (m : string) (h : Handler) :
  getattr handlers m = Some h → (m, h) ∈ handlers.
Proof.
  induction handlers as [|[name h'] rest IH]; simpl; [done|].
  destruct (String.eqb_spec name m) as [->|_].
  - intros [= ->]. apply list_elem_of_here.
  - intros Hr. apply list_elem_of_further. by apply IH.
Qed.

Lemma select_handler_ok names (handlers : Handlers) (m : string) :
  Forall (λ nh, handler_ok nh.1 nh.2) handlers →
  ∀ request now db, method request = m →
    Effect request now db
      (respond (select_handler names handlers m request) now db).1
      (respond (select_handler names handlers m request) now db).2.
Proof.
  intros Hall request now db Hm. rewrite Forall_forall in Hall.
  unfold select_handler. case_bool_decide; [|apply no_effect].
  destruct (getattr handlers m) as [h|] eqn:Hh.
  { apply getattr_Some in Hh. apply (Hall _ Hh). by left. }
  destruct (String.eqb_spec m "HEAD") as [->|_].
  { destruct (getattr handlers "GET") as [h|] eqn:Hg; [|apply no_effect].
    apply getattr_Some in Hg. apply (Hall _ Hg). by right. }
  destruct (String.eqb m "OPTIONS"); apply no_effect.
Qed.

Lemma dispatch_effect {T} names (classes : list (Permission T)) handlers r now db :
  Forall (λ nh, handler_ok nh.1 nh.2) handlers →
  Effect (initialize_request db r) now db
    (dispatch names classes handlers r now db).1
    (dispatch names classes handlers r now db).2.
Proof.
  intros Hall. unfold dispatch. rewrite respond_bind.
  unfold check_permissions. destruct (forallb _ _).
  - by apply select_handler_ok.
  - destruct (permission_denied_403 (A:=()) (initialize_request db r) now db)
      as (e & -> & _). apply no_effect.
Qed.
End effects.

Section handle_effect.
Context `{Fields, Pygments, Settings}.

Lemma unsafe_PUT : "PUT" ∉ SAFE_METHODS.
Proof. by apply (bool_decide_eq_false_1 _). Qed.

Lemma unsafe_PATCH : "PATCH" ∉ SAFE_METHODS.
Proof. by apply (bool_decide_eq_false_1 _). Qed.

Lemma unsafe_DELETE : "DELETE" ∉ SAFE_METHODS.
Proof. by apply (bool_decide_eq_false_1 _). Qed.

Lemma unsafe_POST : "POST" ∉ SAFE_METHODS.
Proof. by apply (bool_decide_eq_false_1 _). Qed.

Lemma ListCreateAPIView_ok (self : GenericAPIView Snippet) :
  Forall (λ nh, handler_ok nh.1 nh.2) (ListCreateAPIView self perform_create).
Proof. repeat constructor; simpl; auto using list_ok, create_ok. Qed.

Lemma RetrieveUpdateDestroyAPIView_ok (self : GenericAPIView Snippet) k :
  IsOwnerOrReadOnly ∈ permission_classes self →
  queryset self = Snippet_objects_all →
  Forall (λ nh, handler_ok nh.1 nh.2) (RetrieveUpdateDestroyAPIView self k).
Proof.
  intros Hperm Hqs. repeat constructor; simpl;
    auto using retrieve_ok, update_ok, destroy_ok,
      unsafe_PUT, unsafe_PATCH, unsafe_DELETE.
Qed.

Lemma SnippetDetail_owner_only st :
  IsOwnerOrReadOnly ∈ permission_classes (SnippetDetail st).
Proof. simpl. apply list_elem_of_further, list_elem_of_here. Qed.

(** Every request is one of the four effects. *)
Lemma handle_effect st r now db :
  Effect (initialize_request db r) now db
    (handle st r now db).1 (handle st r now db).2.
Proof.
  unfold handle, urlpatterns, urlpatterns_4, urlpatterns_5, urlpatterns_6.
  destruct st, (http_url r) as [| |k|k| |k]; simpl; try apply no_effect;
    unfold as_view, api_root; apply dispatch_effect;
    auto using ListCreateAPIView_ok, RetrieveUpdateDestroyAPIView_ok,
      SnippetDetail_owner_only;
    repeat constructor; simpl;
    auto using list_ok, retrieve_ok, highlight_action_ok.
  all: intros request now' db' _; apply no_effect.
Qed.
End handle_effect.

(** ** Invariants of the database *)

Lemma empty_db_ok : db_ok empty_db.
Proof. split; simpl; constructor. Qed.

Lemma insert_snippet_ok (db : DB) (row : Snippet) :
  pk row = snippet_seq db → db_ok db → db_ok (insert_snippet db row).
Proof.
  intros Hrow [Hnd Hlt]. split; simpl.
  - rewrite fmap_app. apply NoDup_app. split_and!; [done| |apply NoDup_singleton].
    intros k Hk ->%list_elem_of_singleton.
    apply list_elem_of_fmap in Hk as (s & Hs & Hin).
    rewrite Forall_forall in Hlt. specialize (Hlt _ Hin). lia.
  - apply Forall_app. split.
    + eapply Forall_impl; [done|]. simpl. lia.
    + apply Forall_singleton. lia.
Qed.

Lemma pk_replace_row (row : Snippet) (rows : list Snippet) :
  pk <$> replace_row row rows = pk <$> rows.
Proof.
  unfold replace_row. rewrite <-list_fmap_compose. apply list_fmap_ext.
  intros i r _. simpl. by case_bool_decide.
Qed.

Lemma replace_row_ok (db : DB) (row : Snippet) :
  db_ok db → db_ok (with_snippets db (replace_row row (snippets db))).
Proof.
  intros [Hnd Hlt]. split; simpl.
  - by rewrite pk_replace_row.
  - assert (Forall (λ k, k < snippet_seq db)
              (pk <$> replace_row row (snippets db))) as Hf.
    { rewrite pk_replace_row. by apply Forall_fmap. }
    by apply Forall_fmap in Hf.
Qed.

Lemma filter_snippets_ok (db : DB) (P : Snippet → Prop) `{∀ s, Decision (P s)} :
  db_ok db → db_ok (with_snippets db (filter P (snippets db))).
Proof.
  intros [Hnd Hlt]. split; simpl.
  - eapply sublist_NoDup; [done|]. apply fmap_sublist, sublist_filter.
  - rewrite Forall_forall in Hlt. apply Forall_forall.
    intros s [_ Hs]%list_elem_of_filter. auto.
Qed.

Section invariants.
Context `{Fields, Pygments, Settings}.

Lemma Effect_db_ok request now db response db' :
  Effect request now db response db' → db_ok db → db_ok db'.
Proof.
  intros [] Hok;
    auto using insert_snippet_ok, replace_row_ok, filter_snippets_ok.
Qed.

Lemma step_db_ok st db op : db_ok db → db_ok (step st db op).
Proof.
  intros Hok. destruct op as [now r|name|k|now attrs o|k]; simpl.
  - eapply Effect_db_ok; [apply handle_effect | done].
  - unfold User_objects_create_user. unfold_M. by case_bool_decide.
  - destruct (get_by_pk (users db) k) as [u|]; [|done].
    apply (filter_snippets_ok db (λ s, owner s ≠ pk u) Hok).
  - unfold Snippet_objects_create. unfold_M.
    destruct (get_by_pk (users db) o); [|done].
    by apply insert_snippet_ok.
  - destruct (get_by_pk (snippets db) k) as [s|]; [|done].
    by apply filter_snippets_ok.
Qed.

Lemma run_invariant st (P : DB → Prop) ops db :
  (∀ db op, P db → P (step st db op)) → P db → P (run st ops db).
Proof.
  intros Hstep. revert db. induction ops as [|op ops IH]; simpl; auto.
Qed.

Lemma reachable_db_ok st db : reachable st db → db_ok db.
Proof.
  intros [ops ->]. apply run_invariant; [apply step_db_ok | apply empty_db_ok].
Qed.

Lemma highlighted_ok_insert db row :
  highlighted_ok db → highlighted_ok (insert_snippet db (render row)).
Proof.
  intros Hok s [Hs| ->%list_elem_of_singleton]%elem_of_app; auto.
Qed.

Lemma highlighted_ok_replace db row :
  highlighted_ok db →
  highlighted_ok (with_snippets db (replace_row (render row) (snippets db))).
Proof.
  intros Hok s (r & -> & Hr)%list_elem_of_fmap. case_bool_decide; auto.
Qed.

Lemma highlighted_ok_filter db (P : Snippet → Prop) `{∀ s, Decision (P s)} :
  highlighted_ok db → highlighted_ok (with_snippets db (filter P (snippets db))).
Proof. intros Hok s [_ Hs]%list_elem_of_filter. auto. Qed.

Lemma Effect_highlighted_ok request now db response db' :
  Effect request now db response db' → highlighted_ok db → highlighted_ok db'.
Proof.
  intros [] Hok;
    auto using highlighted_ok_insert, highlighted_ok_replace,
      highlighted_ok_filter.
Qed.

Lemma step_highlighted_ok st db op :
  highlighted_ok db → highlighted_ok (step st db op).
Proof.
  intros Hok. destruct op as [now r|name|k|now attrs o|k]; simpl.
  - eapply Effect_highlighted_ok; [apply handle_effect | done].
  - unfold User_objects_create_user. unfold_M. by case_bool_decide.
  - destruct (get_by_pk (users db) k) as [u|]; [|done].
    apply (highlighted_ok_filter db (λ s, owner s ≠ pk u) Hok).
  - unfold Snippet_objects_create. unfold_M.
    destruct (get_by_pk (users db) o); [|done].
    by apply highlighted_ok_insert.
  - destruct (get_by_pk (snippets db) k) as [s|]; [|done].
    by apply highlighted_ok_filter.
Qed.

Lemma reachable_highlighted_ok st db : reachable st db → highlighted_ok db.
Proof.
  intros [ops ->]. apply run_invariant; [apply step_highlighted_ok|].
  by intros s ?%elem_of_nil.
Qed.
End invariants.

(** ** Status codes *)

Lemma getattr_None (handlers : Handlers) (m : string) :
  m ∉ handlers.*1 → getattr handlers m = None.
Proof.
  induction handlers as [|[name h] rest IH]; simpl; [done|].
  rewrite not_elem_of_cons. intros [Hne Hrest].
  destruct (String.eqb_spec name m) as [->|_]; [done | by apply IH].
Qed.

Lemma select_handler_unsupported names (handlers : Handlers) (m : string) :
  m ∉ handlers.*1 → m ≠ "OPTIONS" →
  m ≠ "HEAD" ∨ "GET" ∉ handlers.*1 →
  select_handler names handlers m = http_method_not_allowed.
Proof.
  intros Hm Ho Hh. unfold select_handler. case_bool_decide; [|done].
  rewrite getattr_None by done.
  destruct (String.eqb_spec m "HEAD") as [->|_].
  - destruct Hh as [|Hg]; [done|]. by rewrite getattr_None.
  - by destruct (String.eqb_spec m "OPTIONS").
Qed.

Lemma dispatch_denied {T} names (classes : list (Permission T)) handlers r now db :
  forallb (λ p, has_permission p (initialize_request db r)) classes = false →
  (dispatch names classes handlers r now db).2 = db ∧
  status_code (dispatch names classes handlers r now db).1 = HTTP_403_FORBIDDEN.
Proof.
  intros Hp. unfold dispatch. rewrite respond_bind.
  destruct (check_permissions_false _ _ now db Hp) as (e & -> & He). done.
Qed.

Lemma dispatch_allowed {T} names (classes : list (Permission T)) handlers r now db :
  forallb (λ p, has_permission p (initialize_request db r)) classes = true →
  dispatch names classes handlers r now db =
  respond (select_handler names handlers (http_method r)
             (initialize_request db r)) now db.
Proof.
  intros Hp. unfold dispatch. rewrite respond_bind.
  by rewrite check_permissions_true.
Qed.

(** Closed decisions, such as a literal verb being safe, are evaluated. *)
Ltac eval_decides :=
  repeat match goal with
  | |- context [bool_decide ?P] =>
      let b := eval vm_compute in (bool_decide P) in
      match b with
      | true => change (bool_decide P) with true
      | false => change (bool_decide P) with false
      end
  end.

(** A verb outside a list of verbs is none of them. *)
Ltac other_verb Hn :=
  clear -Hn; simpl in *; rewrite ?elem_of_cons, ?elem_of_nil in *;
  intuition congruence.

(** Case analysis on the verb of a request, given the list it belongs to. *)
Ltac verb_cases Hs :=
  repeat (apply elem_of_cons in Hs as [Hs|Hs]); [..|by apply elem_of_nil in Hs].

Section results.
Context `{Fields, Pygments}.

Lemma respond_retrieve {T} `{Model T} (self : GenericAPIView T) k request now db :
  respond (retrieve self k request) now db =
  match get_by_pk (queryset self db) k with
  | None => (handle_exception Http404, db)
  | Some obj =>
      if forallb (λ p, has_object_permission p request obj)
           (permission_classes self)
      then ({| status_code := HTTP_200_OK;
               content := Object (serializer_class self db obj) |}, db)
      else (respond (permission_denied request) now db)
  end.
Proof.
  unfold retrieve, get_object, check_object_permissions, respond. unfold_M.
  destruct (get_by_pk (queryset self db) k) as [obj|]; [|done].
  destruct (forallb _ _); [done|].
  unfold permission_denied. by destruct (is_authenticated _).
Qed.

Lemma respond_permission_denied request now db :
  ∃ e, respond (permission_denied request) now db = (handle_exception e, db) ∧
       status_of e = HTTP_403_FORBIDDEN.
Proof.
  unfold permission_denied. destruct (is_authenticated _); eexists; by split.
Qed.

Lemma respond_highlight_action (self : GenericAPIView Snippet) k request now db :
  respond (highlight_action self k request) now db =
  match get_by_pk (queryset self db) k with
  | None => (handle_exception Http404, db)
  | Some obj =>
      if forallb (λ p, has_object_permission p request obj)
           (permission_classes self)
      then ({| status_code := HTTP_200_OK;
               content := StaticHTML (highlighted obj) |}, db)
      else (respond (permission_denied request) now db)
  end.
Proof.
  unfold highlight_action, get_object, check_object_permissions, respond.
  unfold_M.
  destruct (get_by_pk (queryset self db) k) as [obj|]; [|done].
  destruct (forallb _ _); [done|].
  unfold permission_denied. by destruct (is_authenticated _).
Qed.

Lemma respond_create (self : GenericAPIView Snippet) request now db :
  respond (create self perform_create request) now db =
  match SnippetSerializer_to_internal_value false (data request) with
  | inl errors => (handle_exception (ValidationError errors), db)
  | inr attrs =>
      match user request with
      | AnonymousUser => (handle_exception ValueError, db)
      | AuthUser u =>
          match get_by_pk (users db) (pk u) with
          | None => (handle_exception IntegrityError, db)
          | Some _ =>
              let row :=
                render (Snippet_row (Snippet_init attrs (pk u))
                          (snippet_seq db) now) in
              let db' := insert_snippet db row in
              ({| status_code := HTTP_201_CREATED;
                  content := Object (serializer_class self db' row) |}, db')
          end
      end
  end.
Proof.
  unfold create, is_valid, perform_create, Snippet_objects_create, respond.
  unfold_M.
  destruct (SnippetSerializer_to_internal_value false (data request)); [done|].
  destruct (user request) as [|u]; [done|].
  by destruct (get_by_pk (users db) (pk u)).
Qed.

Lemma respond_update (self : GenericAPIView Snippet) partial k request now db :
  respond (update self partial k request) now db =
  match get_by_pk (queryset self db) k with
  | None => (handle_exception Http404, db)
  | Some obj =>
      if forallb (λ p, has_object_permission p request obj)
           (permission_classes self)
      then
        match SnippetSerializer_to_internal_value partial (data request) with
        | inl errors => (handle_exception (ValidationError errors), db)
        | inr attrs =>
            let row := render (set_attrs obj attrs) in
            let db' := with_snippets db (replace_row row (snippets db)) in
            ({| status_code := HTTP_200_OK;
                content := Object (serializer_class self db' row) |}, db')
        end
      else (respond (permission_denied request) now db)
  end.
Proof.
  unfold update, get_object, check_object_permissions, is_valid, Snippet_save,
    respond. unfold_M.
  destruct (get_by_pk (queryset self db) k) as [obj|]; [|done].
  destruct (forallb _ _).
  - by destruct (SnippetSerializer_to_internal_value partial (data request)).
  - unfold permission_denied. by destruct (is_authenticated _).
Qed.

Lemma respond_destroy (self : GenericAPIView Snippet) k request now db :
  respond (destroy self k request) now db =
  match get_by_pk (queryset self db) k with
  | None => (handle_exception Http404, db)
  | Some obj =>
      if forallb (λ p, has_object_permission p request obj)
           (permission_classes self)
      then
        ({| status_code := HTTP_204_NO_CONTENT; content := NoData |},
         with_snippets db (filter (λ r, pk r ≠ pk obj) (snippets db)))
      else (respond (permission_denied request) now db)
  end.
Proof.
  unfold destroy, get_object, check_object_permissions, Snippet_delete,
    respond. unfold_M.
  destruct (get_by_pk (queryset self db) k) as [obj|]; [|done].
  destruct (forallb _ _); [done|].
  unfold permission_denied. by destruct (is_authenticated _).
Qed.
End results.

Section status.
Context `{Fields, Pygments, Settings}.

Lemma dispatch_status {T} names (classes : list (Permission T)) handlers r now db :
  status_code (dispatch names classes handlers r now db).1 =
  if forallb (λ p, has_permission p (initialize_request db r)) classes
  then status_code
         (respond (select_handler names handlers (http_method r)
                     (initialize_request db r)) now db).1
  else HTTP_403_FORBIDDEN.
Proof.
  destruct (forallb _ _) eqn:Hp.
  - by rewrite dispatch_allowed.
  - by apply dispatch_denied.
Qed.

Lemma collection_status (self : GenericAPIView Snippet) r now db :
  (∀ request, forallb (λ p, has_permission p request) (permission_classes self)
     = bool_decide (method request ∈ SAFE_METHODS)
       || is_authenticated (user request)) →
  status_code
    (as_view self (ListCreateAPIView self perform_create) r now db).1 =
  (if negb (bool_decide (http_method r ∈ SAFE_METHODS)) &&
      negb (is_authenticated (authenticate db (http_session r)))
   then HTTP_403_FORBIDDEN
   else if negb (bool_decide (http_method r ∈ ["GET"; "HEAD"; "OPTIONS"; "POST"]))
   then HTTP_405_METHOD_NOT_ALLOWED
   else if bool_decide (http_method r = "OPTIONS") then HTTP_200_OK
   else if bool_decide (http_method r = "POST") then
     if body_invalid false (http_body r) then HTTP_400_BAD_REQUEST
     else HTTP_201_CREATED
   else HTTP_200_OK).
Proof.
  intros Hperm. unfold as_view. rewrite dispatch_status, Hperm. simpl.
  destruct (decide (http_method r ∈ ["GET"; "HEAD"; "OPTIONS"; "POST"]))
    as [Hs|Hn].
  - verb_cases Hs; rewrite Hs; eval_decides; simpl; try done.
    destruct (authenticate db (http_session r)) as [|u] eqn:Hu; simpl; [done|].
    unfold select_handler. eval_decides. simpl. rewrite respond_create. simpl.
    rewrite Hu. unfold body_invalid.
    destruct (SnippetSerializer_to_internal_value false (http_body r));
      [done|].
    by destruct (authenticate_stored _ _ _ Hu) as [u' ->].
  - rewrite select_handler_unsupported; simpl.
    + rewrite (bool_decide_eq_false_2 _ Hn).
      by destruct (bool_decide _), (is_authenticated _).
    + other_verb Hn.
    + other_verb Hn.
    + left. other_verb Hn.
Qed.

Lemma member_status (self : GenericAPIView Snippet) k r now db :
  (∀ request, forallb (λ p, has_permission p request) (permission_classes self)
     = bool_decide (method request ∈ SAFE_METHODS)
       || is_authenticated (user request)) →
  (∀ request obj,
     forallb (λ p, has_object_permission p request obj) (permission_classes self)
     = IsOwnerOrReadOnly_has_object_permission request obj) →
  queryset self = Snippet_objects_all →
  status_code
    (as_view self (RetrieveUpdateDestroyAPIView self k) r now db).1 =
  (if negb (bool_decide (http_method r ∈ SAFE_METHODS)) &&
      negb (is_authenticated (authenticate db (http_session r)))
   then HTTP_403_FORBIDDEN
   else if negb (bool_decide (http_method r ∈ supported (SnippetMember k)))
   then HTTP_405_METHOD_NOT_ALLOWED
   else if bool_decide (http_method r = "OPTIONS") then HTTP_200_OK
   else
     match get_by_pk (Snippet_objects_all db) k with
     | None => HTTP_404_NOT_FOUND
     | Some obj =>
         if negb (bool_decide (http_method r ∈ SAFE_METHODS)) &&
            negb (owner_eq obj (authenticate db (http_session r)))
         then HTTP_403_FORBIDDEN
         else if bool_decide (http_method r = "DELETE") then HTTP_204_NO_CONTENT
         else if bool_decide (http_method r ∈ ["PUT"; "PATCH"]) then
           if body_invalid (bool_decide (http_method r = "PATCH")) (http_body r)
           then HTTP_400_BAD_REQUEST
           else HTTP_200_OK
         else HTTP_200_OK
     end).
Proof.
  intros Hperm Hobj Hqs. unfold as_view. rewrite dispatch_status, Hperm. simpl.
  destruct (decide (http_method r ∈ supported (SnippetMember k))) as [Hs|Hn].
  - simpl in Hs.
    verb_cases Hs; rewrite Hs; eval_decides; simpl; try done;
      (destruct (authenticate db (http_session r)) as [|u] eqn:Hu; simpl;
        [try done|]);
      unfold select_handler; eval_decides; simpl;
      rewrite ?respond_retrieve, ?respond_update, ?respond_destroy, Hqs;
      (destruct (get_by_pk (Snippet_objects_all db) k) as [obj|]; [|done]);
      rewrite Hobj; unfold IsOwnerOrReadOnly_has_object_permission; simpl;
      rewrite Hs, ?Hu; eval_decides; simpl; try done.
    all: destruct (bool_decide (owner obj = pk u)); simpl; try done.
    all: try (destruct (respond_permission_denied
                {| method := http_method r; user := AuthUser u;
                   data := http_body r |} now db) as (e & He & Hst)).
    all: unfold initialize_request; rewrite ?Hu, ?Hs.
    all: unfold body_invalid.
    all: try destruct (SnippetSerializer_to_internal_value _ _); try done.
    all: try by rewrite <-Hs, He.
  - simpl in Hn. rewrite select_handler_unsupported; simpl.
    + rewrite (bool_decide_eq_false_2 _ Hn).
      by destruct (bool_decide _), (is_authenticated _).
    + other_verb Hn.
    + other_verb Hn.
    + left. other_verb Hn.
Qed.

Lemma read_only_unsupported names (handlers : Handlers) (m : string) request now db :
  handlers.*1 = ["GET"] → m ∉ ["GET"; "HEAD"; "OPTIONS"] →
  status_code (respond (select_handler names handlers m request) now db).1
  = HTTP_405_METHOD_NOT_ALLOWED.
Proof.
  intros Hh Hm. rewrite select_handler_unsupported; [done|..]; rewrite ?Hh.
  - intros ->%list_elem_of_singleton. apply Hm, list_elem_of_here.
  - intros ->. apply Hm. do 2 apply list_elem_of_further. apply list_elem_of_here.
  - left. intros ->. apply Hm. apply list_elem_of_further, list_elem_of_here.
Qed.

Lemma list_status {T} (self : GenericAPIView T) r now db :
  (∀ request,
     forallb (λ p, has_permission p request) (permission_classes self) = true) →
  status_code (as_view self (ListAPIView self) r now db).1 =
  (if negb (bool_decide (http_method r ∈ ["GET"; "HEAD"; "OPTIONS"]))
   then HTTP_405_METHOD_NOT_ALLOWED
   else HTTP_200_OK).
Proof.
  intros Hperm. unfold as_view. rewrite dispatch_status, Hperm.
  destruct (decide (http_method r ∈ ["GET"; "HEAD"; "OPTIONS"])) as [Hs|Hn].
  - by verb_cases Hs; rewrite Hs; eval_decides.
  - rewrite (bool_decide_eq_false_2 _ Hn). by apply read_only_unsupported.
Qed.

Lemma retrieve_status {T} `{Model T} (self : GenericAPIView T) k r now db :
  (∀ request,
     forallb (λ p, has_permission p request) (permission_classes self) = true) →
  (∀ request obj,
     forallb (λ p, has_object_permission p request obj) (permission_classes self)
     = true) →
  status_code (as_view self (RetrieveAPIView self k) r now db).1 =
  (if negb (bool_decide (http_method r ∈ ["GET"; "HEAD"; "OPTIONS"]))
   then HTTP_405_METHOD_NOT_ALLOWED
   else if bool_decide (http_method r = "OPTIONS") then HTTP_200_OK
   else match get_by_pk (queryset self db) k with
        | None => HTTP_404_NOT_FOUND
        | Some _ => HTTP_200_OK
        end).
Proof.
  intros Hperm Hobj. unfold as_view. rewrite dispatch_status, Hperm.
  destruct (decide (http_method r ∈ ["GET"; "HEAD"; "OPTIONS"])) as [Hs|Hn].
  - verb_cases Hs; rewrite Hs; eval_decides; simpl; try done;
      unfold select_handler; eval_decides; simpl;
      rewrite respond_retrieve;
      (destruct (get_by_pk (queryset self db) k); [|done]);
      by rewrite Hobj.
  - rewrite (bool_decide_eq_false_2 _ Hn). by apply read_only_unsupported.
Qed.

Lemma page_status (self : GenericAPIView Snippet) k r now db :
  (∀ request, method request ∈ SAFE_METHODS →
     forallb (λ p, has_permission p request) (permission_classes self) = true) →
  (∀ request obj, method request ∈ SAFE_METHODS →
     forallb (λ p, has_object_permission p request obj) (permission_classes self)
     = true) →
  status_code (as_view self [("GET", highlight_action self k)] r now db).1 =
  (if negb (forallb (λ p, has_permission p (initialize_request db r))
              (permission_classes self))
   then HTTP_403_FORBIDDEN
   else if negb (bool_decide (http_method r ∈ ["GET"; "HEAD"; "OPTIONS"]))
   then HTTP_405_METHOD_NOT_ALLOWED
   else if bool_decide (http_method r = "OPTIONS") then HTTP_200_OK
   else match get_by_pk (queryset self db) k with
        | None => HTTP_404_NOT_FOUND
        | Some _ => HTTP_200_OK
        end).
Proof.
  intros Hperm Hobj. unfold as_view. rewrite dispatch_status.
  destruct (forallb _ (permission_classes self)) eqn:Hp; [simpl|done].
  destruct (decide (http_method r ∈ ["GET"; "HEAD"; "OPTIONS"])) as [Hs|Hn].
  - assert (method (initialize_request db r) ∈ SAFE_METHODS) as Hsafe by done.
    verb_cases Hs; rewrite Hs; eval_decides; simpl; try done;
      unfold select_handler; eval_decides; simpl;
      rewrite respond_highlight_action;
      (destruct (get_by_pk (queryset self db) k); [|done]);
      by rewrite Hobj.
  - rewrite (bool_decide_eq_false_2 _ Hn). by apply read_only_unsupported.
Qed.

Lemma api_root_status r now db :
  status_code (api_root r now db).1 =
  (if negb (bool_decide (http_method r ∈ ["GET"; "OPTIONS"]))
   then HTTP_405_METHOD_NOT_ALLOWED
   else HTTP_200_OK).
Proof.
  unfold api_root. rewrite dispatch_status. simpl.
  destruct (decide (http_method r ∈ ["GET"; "OPTIONS"])) as [Hs|Hn].
  - by verb_cases Hs; rewrite Hs; eval_decides.
  - rewrite (bool_decide_eq_false_2 _ Hn).
    unfold select_handler. by case_bool_decide.
Qed.

Lemma is_authenticated_safe_or (b : bool) (c : bool) :
  negb (b || c) = negb b && negb c.
Proof. by destruct b, c. Qed.

Lemma SnippetList_has_permission st request :
  forallb (λ p, has_permission p request) (permission_classes (SnippetList st))
  = bool_decide (method request ∈ SAFE_METHODS)
    || is_authenticated (user request).
Proof. simpl. by rewrite andb_true_r. Qed.

Lemma SnippetDetail_has_permission st request :
  forallb (λ p, has_permission p request) (permission_classes (SnippetDetail st))
  = bool_decide (method request ∈ SAFE_METHODS)
    || is_authenticated (user request).
Proof. simpl. by rewrite andb_true_r. Qed.

Lemma SnippetDetail_has_object_permission st request obj :
  forallb (λ p, has_object_permission p request obj)
    (permission_classes (SnippetDetail st))
  = IsOwnerOrReadOnly_has_object_permission request obj.
Proof. simpl. by rewrite andb_true_r. Qed.

Lemma SnippetDetail_safe st request :
  method request ∈ SAFE_METHODS →
  forallb (λ p, has_permission p request) (permission_classes (SnippetDetail st))
  = true.
Proof.
  intros Hm. rewrite SnippetDetail_has_permission.
  by rewrite bool_decide_eq_true_2.
Qed.

Lemma SnippetDetail_safe_object st request obj :
  method request ∈ SAFE_METHODS →
  forallb (λ p, has_object_permission p request obj)
    (permission_classes (SnippetDetail st)) = true.
Proof.
  intros Hm. rewrite SnippetDetail_has_object_permission.
  unfold IsOwnerOrReadOnly_has_object_permission.
  by rewrite bool_decide_eq_true_2.
Qed.

(** The status of every response is the one the order of checks gives. *)
Lemma handle_status st r now db :
  status_code (handle st r now db).1 = expected_status st db r.
Proof.
  unfold handle, expected_status, urlpatterns, urlpatterns_4, urlpatterns_5,
    urlpatterns_6.
  destruct st, (http_url r) as [| |k|k| |k]; simpl; try done.
  all: try (apply collection_status;
            auto using SnippetList_has_permission, SnippetDetail_has_permission).
  all: try (apply member_status;
            auto using SnippetDetail_has_permission,
              SnippetDetail_has_object_permission).
  all: try (rewrite list_status by done; by repeat case_bool_decide).
  all: try (rewrite retrieve_status by (intros; reflexivity);
            unfold UserDetail, UserViewSet, UserList, User_objects_all; simpl;
            try (pose proof (get_user_order_by_id db k);
                 destruct (get_by_pk (User_objects_order_by_id db) k),
                   (get_by_pk (users db) k); try done);
            by repeat case_bool_decide).
  all: try (rewrite api_root_status; by repeat case_bool_decide).
  - etrans; [by apply page_status|]. simpl.
    by repeat case_bool_decide.
  - etrans; [apply page_status;
               auto using SnippetDetail_safe, SnippetDetail_safe_object|].
    rewrite SnippetDetail_has_permission. simpl.
    rewrite is_authenticated_safe_or.
    by repeat case_bool_decide.
Qed.
End status.

(** ** Keys of the body that no view reads *)

Section noninterference.
Context `{Fields, Pygments, Settings}.

Lemma to_internal_value_ext partial (b1 b2 : gmap string json) :
  (∀ k, k ∈ writable_fields → b1 !! k = b2 !! k) →
  SnippetSerializer_to_internal_value partial b1
  = SnippetSerializer_to_internal_value partial b2.
Proof.
  intros Hk. unfold SnippetSerializer_to_internal_value.
  rewrite !(Hk "title"), !(Hk "code"), !(Hk "linenos"), !(Hk "language"),
    !(Hk "style"); [done|..]; unfold writable_fields;
    repeat first [apply list_elem_of_here | apply list_elem_of_further].
Qed.

Lemma to_internal_value_insert partial (b : gmap string json) key v :
  key ∉ writable_fields →
  SnippetSerializer_to_internal_value partial (<[key:=v]> b)
  = SnippetSerializer_to_internal_value partial b.
Proof.
  intros Hkey. apply to_internal_value_ext. intros k Hk.
  apply lookup_insert_ne. by intros ->.
Qed.

Lemma BasePermission_respects T : permission_respects (BasePermission T).
Proof. by intros q1 q2 _. Qed.

Lemma IsAuthenticatedOrReadOnly_respects T :
  permission_respects (IsAuthenticatedOrReadOnly T).
Proof. intros q1 q2 (Hm & Hu & _). simpl. by rewrite Hm, Hu. Qed.

Lemma IsOwnerOrReadOnly_respects : permission_respects IsOwnerOrReadOnly.
Proof.
  intros q1 q2 (Hm & Hu & _). simpl.
  unfold IsOwnerOrReadOnly_has_object_permission. by rewrite Hm, Hu.
Qed.

Lemma has_permission_respects {T} (classes : list (Permission T)) q1 q2 :
  Forall permission_respects classes → same_request q1 q2 →
  forallb (λ p, has_permission p q1) classes
  = forallb (λ p, has_permission p q2) classes.
Proof.
  intros Hall Hq. induction Hall as [|p ps Hp _ IH]; simpl; [done|].
  by rewrite IH, (proj1 (Hp _ _ Hq)).
Qed.

Lemma has_object_permission_respects {T} (classes : list (Permission T)) q1 q2 obj :
  Forall permission_respects classes → same_request q1 q2 →
  forallb (λ p, has_object_permission p q1 obj) classes
  = forallb (λ p, has_object_permission p q2 obj) classes.
Proof.
  intros Hall Hq. induction Hall as [|p ps Hp _ IH]; simpl; [done|].
  by rewrite IH, (proj2 (Hp _ _ Hq)).
Qed.

Lemma permission_denied_respects {A} q1 q2 now db :
  same_request q1 q2 →
  @permission_denied A q1 now db = permission_denied q2 now db.
Proof. intros (_ & Hu & _). unfold permission_denied. by rewrite Hu. Qed.

Lemma get_object_respects {T} `{Model T} (self : GenericAPIView T) k q1 q2 now db :
  Forall permission_respects (permission_classes self) → same_request q1 q2 →
  get_object self k q1 now db = get_object self k q2 now db.
Proof.
  intros Hall Hq. unfold get_object, check_object_permissions. unfold_M.
  destruct (get_by_pk (queryset self db) k) as [obj|]; [|done].
  rewrite (has_object_permission_respects _ q1 q2) by done.
  destruct (forallb _ _); [done|].
  by rewrite (permission_denied_respects q1 q2).
Qed.

Lemma list_respects {T} (self : GenericAPIView T) : handler_respects (list_ self).
Proof. by intros q1 q2 _. Qed.

Lemma retrieve_respects {T} `{Model T} (self : GenericAPIView T) k :
  Forall permission_respects (permission_classes self) →
  handler_respects (retrieve self k).
Proof.
  intros Hall q1 q2 Hq now db. unfold retrieve. unfold_M.
  by rewrite (get_object_respects self k q1 q2).
Qed.

Lemma highlight_action_respects (self : GenericAPIView Snippet) k :
  Forall permission_respects (permission_classes self) →
  handler_respects (highlight_action self k).
Proof.
  intros Hall q1 q2 Hq now db. unfold highlight_action. unfold_M.
  by rewrite (get_object_respects self k q1 q2).
Qed.

Lemma create_respects (self : GenericAPIView Snippet) :
  handler_respects (create self perform_create).
Proof.
  intros q1 q2 (Hm & Hu & Hd) now db.
  unfold create, is_valid, perform_create. unfold_M.
  by rewrite Hd, Hu.
Qed.

Lemma update_respects (self : GenericAPIView Snippet) partial k :
  Forall permission_respects (permission_classes self) →
  handler_respects (update self partial k).
Proof.
  intros Hall q1 q2 Hq now db. unfold update, is_valid. unfold_M.
  rewrite (get_object_respects self k q1 q2) by done.
  destruct Hq as (_ & _ & Hd). by rewrite Hd.
Qed.

Lemma destroy_respects (self : GenericAPIView Snippet) k :
  Forall permission_respects (permission_classes self) →
  handler_respects (destroy self k).
Proof.
  intros Hall q1 q2 Hq now db. unfold destroy. unfold_M.
  by rewrite (get_object_respects self k q1 q2).
Qed.

Lemma select_handler_respects names (handlers : Handlers) m :
  Forall (λ nh, handler_respects nh.2) handlers →
  handler_respects (select_handler names handlers m).
Proof.
  intros Hall. rewrite Forall_forall in Hall. unfold select_handler.
  case_bool_decide; [|done].
  destruct (getattr handlers m) as [h|] eqn:Hh.
  { apply getattr_Some in Hh. apply (Hall _ Hh). }
  destruct (String.eqb m "HEAD").
  { destruct (getattr handlers "GET") as [h|] eqn:Hg; [|done].
    apply getattr_Some in Hg. apply (Hall _ Hg). }
  by destruct (String.eqb m "OPTIONS").
Qed.

Lemma dispatch_respects {T} names (classes : list (Permission T)) handlers r1 r2 now db :
  Forall permission_respects classes →
  Forall (λ nh, handler_respects nh.2) handlers →
  same_request (initialize_request db r1) (initialize_request db r2) →
  dispatch names classes handlers r1 now db
  = dispatch names classes handlers r2 now db.
Proof.
  intros Hp Hh Hq. unfold dispatch, respond, check_permissions. unfold_M.
  rewrite (has_permission_respects classes _ _ Hp Hq).
  destruct (forallb _ _).
  - pose proof Hq as (Hm & _).
    rewrite Hm, (select_handler_respects names handlers _ Hh _ _ Hq). done.
  - rewrite (permission_denied_respects _ _ now db Hq).
    by destruct (permission_denied_403 (A:=()) (initialize_request db r2) now db)
      as (e & -> & _).
Qed.

Lemma SnippetList_respects st :
  Forall permission_respects (permission_classes (SnippetList st)).
Proof. apply Forall_singleton, IsAuthenticatedOrReadOnly_respects. Qed.

Lemma SnippetDetail_respects st :
  Forall permission_respects (permission_classes (SnippetDetail st)).
Proof.
  apply Forall_cons. split; [apply IsAuthenticatedOrReadOnly_respects|].
  apply Forall_singleton, IsOwnerOrReadOnly_respects.
Qed.

Lemma DEFAULT_PERMISSION_CLASSES_respects T :
  Forall permission_respects (DEFAULT_PERMISSION_CLASSES T).
Proof. apply Forall_singleton, BasePermission_respects. Qed.

Lemma ListCreateAPIView_respects (self : GenericAPIView Snippet) :
  Forall (λ nh, handler_respects nh.2) (ListCreateAPIView self perform_create).
Proof.
  apply Forall_cons. split; [apply list_respects|].
  apply Forall_singleton, create_respects.
Qed.

Lemma RetrieveUpdateDestroyAPIView_respects (self : GenericAPIView Snippet) k :
  Forall permission_respects (permission_classes self) →
  Forall (λ nh, handler_respects nh.2) (RetrieveUpdateDestroyAPIView self k).
Proof.
  intros Hp. repeat (apply Forall_cons; split); [..|apply Forall_nil_2]; simpl;
    auto using retrieve_respects, update_respects, destroy_respects.
Qed.

(** A view sees of a request the verb, the URL, the session and the
    validation outcome of the body, nothing else. *)
Lemma handle_respects st r1 r2 now db :
  http_url r1 = http_url r2 →
  same_request (initialize_request db r1) (initialize_request db r2) →
  handle st r1 now db = handle st r2 now db.
Proof.
  intros Hurl Hq.
  unfold handle, urlpatterns, urlpatterns_4, urlpatterns_5, urlpatterns_6.
  rewrite <-Hurl.
  destruct st, (http_url r1) as [| |k|k| |k]; simpl; try done;
    unfold as_view, api_root; apply dispatch_respects; try done;
    auto using SnippetList_respects, SnippetDetail_respects,
      DEFAULT_PERMISSION_CLASSES_respects, ListCreateAPIView_respects,
      RetrieveUpdateDestroyAPIView_respects.
  all: apply Forall_singleton; simpl.
  all: first [ apply list_respects
             | apply retrieve_respects
             | apply highlight_action_respects
             | by intros ? ? ? ].
  all: auto using SnippetDetail_respects, DEFAULT_PERMISSION_CLASSES_respects.
Qed.
End noninterference.

(** ** The outcome of the requests the claims are about *)

Section outcomes.
Context `{Fields, Pygments, Settings}.

(** The snippet views of a stage, by URL. *)
Lemma handle_snippet_list st r now db :
  http_url r = snippet_list_url →
  handle st r now db =
  as_view (SnippetList st) (ListCreateAPIView (SnippetList st) perform_create)
    r now db
  ∨ handle st r now db =
    as_view (SnippetViewSet st)
      (ListCreateAPIView (SnippetViewSet st) perform_create) r now db.
Proof.
  intros Hurl.
  unfold handle, urlpatterns, urlpatterns_4, urlpatterns_5, urlpatterns_6.
  rewrite Hurl. destruct st; auto.
Qed.

Lemma handle_snippet_detail st r now db k :
  http_url r = snippet_detail_url k →
  handle st r now db =
  as_view (SnippetDetail st) (RetrieveUpdateDestroyAPIView (SnippetDetail st) k)
    r now db.
Proof.
  intros Hurl.
  unfold handle, urlpatterns, urlpatterns_4, urlpatterns_5, urlpatterns_6.
  rewrite Hurl. by destruct st.
Qed.

Lemma dispatch_anonymous_unsafe {T} names (classes : list (Permission T))
    handlers r now db :
  IsAuthenticatedOrReadOnly T ∈ classes →
  http_method r ∉ SAFE_METHODS →
  authenticate db (http_session r) = AnonymousUser →
  dispatch names classes handlers r now db
  = (handle_exception NotAuthenticated, db).
Proof.
  intros Hin Hm Hu. unfold dispatch. rewrite respond_bind.
  unfold check_permissions.
  destruct (forallb _ _) eqn:Hp.
  - apply forallb_elem_of with (x:=IsAuthenticatedOrReadOnly T) in Hp; [|done].
    simpl in Hp. rewrite Hu, bool_decide_eq_false_2 in Hp; done.
  - unfold permission_denied. simpl. by rewrite Hu.
Qed.

Lemma handle_create st r now db :
  http_url r = snippet_list_url → http_method r = "POST" →
  handle st r now db =
  match authenticate db (http_session r) with
  | AnonymousUser => (handle_exception NotAuthenticated, db)
  | AuthUser u =>
      match SnippetSerializer_to_internal_value false (http_body r) with
      | inl errors => (handle_exception (ValidationError errors), db)
      | inr attrs =>
          let row :=
            render (Snippet_row (Snippet_init attrs (pk u))
                      (snippet_seq db) now) in
          let db' := insert_snippet db row in
          ({| status_code := HTTP_201_CREATED;
              content :=
                Object (SnippetItem
                          (SnippetSerializer_to_representation st db' row)) |},
           db')
      end
  end.
Proof.
  intros Hurl Hm.
  destruct (authenticate db (http_session r)) as [|u] eqn:Hu.
  - destruct (handle_snippet_list st r now db Hurl) as [-> | ->];
      apply dispatch_anonymous_unsafe; try done;
      rewrite ?Hm; auto using unsafe_POST; apply list_elem_of_here.
  - destruct (authenticate_stored _ _ _ Hu) as [u' Hu'].
    destruct (handle_snippet_list st r now db Hurl) as [-> | ->];
      unfold as_view; rewrite dispatch_allowed;
      try (simpl; by rewrite Hu, orb_true_r);
      rewrite Hm; unfold select_handler; eval_decides; simpl;
      rewrite respond_create; simpl; rewrite Hu, Hu'; done.
Qed.

Lemma handle_list st r now db :
  http_url r = snippet_list_url → http_method r = "GET" →
  handle st r now db =
  ({| status_code := HTTP_200_OK;
      content :=
        paginate (SnippetList st)
          ((λ s, SnippetItem (SnippetSerializer_to_representation st db s))
             <$> Snippet_objects_all db) |}, db).
Proof.
  intros Hurl Hm.
  destruct (handle_snippet_list st r now db Hurl) as [-> | ->];
    unfold as_view; rewrite dispatch_allowed;
    try (simpl; rewrite Hm; by eval_decides);
    rewrite Hm; unfold select_handler; by eval_decides.
Qed.

Lemma handle_retrieve st r now db k :
  http_url r = snippet_detail_url k → http_method r = "GET" →
  handle st r now db =
  match get_by_pk (Snippet_objects_all db) k with
  | None => (handle_exception Http404, db)
  | Some obj =>
      ({| status_code := HTTP_200_OK;
          content :=
            Object (SnippetItem
                      (SnippetSerializer_to_representation st db obj)) |}, db)
  end.
Proof.
  intros Hurl Hm. rewrite (handle_snippet_detail st r now db k Hurl).
  unfold as_view. rewrite dispatch_allowed
    by (simpl; rewrite Hm; by eval_decides).
  rewrite Hm. unfold select_handler. eval_decides. simpl.
  rewrite respond_retrieve. simpl.
  destruct (get_by_pk (Snippet_objects_all db) k) as [obj|]; [|done].
  unfold IsOwnerOrReadOnly_has_object_permission. simpl. rewrite Hm.
  by eval_decides.
Qed.

Lemma handle_highlight st r now db k :
  st ≠ Stage4 →
  http_url r = snippet_highlight_url k → http_method r = "GET" →
  handle st r now db =
  match get_by_pk (Snippet_objects_all db) k with
  | None => (handle_exception Http404, db)
  | Some obj =>
      ({| status_code := HTTP_200_OK;
          content := StaticHTML (highlighted obj) |}, db)
  end.
Proof.
  intros Hst Hurl Hm.
  unfold handle, urlpatterns, urlpatterns_4, urlpatterns_5, urlpatterns_6.
  rewrite Hurl.
  destruct st; [done|..]; unfold as_view;
    (rewrite dispatch_allowed by (simpl; rewrite ?Hm; by eval_decides));
    rewrite Hm; unfold select_handler; eval_decides; simpl;
    rewrite respond_highlight_action; simpl;
    (destruct (get_by_pk (Snippet_objects_all db) k) as [obj|]; [|done]);
    unfold IsOwnerOrReadOnly_has_object_permission; simpl; rewrite ?Hm;
    by eval_decides.
Qed.
End outcomes.

(** * The claims *)

Lemma same_pk_same_row (db : DB) (a b : Snippet) :
  db_ok db → a ∈ snippets db → b ∈ snippets db → pk a = pk b → a = b.
Proof.
  intros [Hnd _] Ha Hb Hab.
  pose proof (get_by_pk_NoDup _ a Hnd Ha) as Hga.
  pose proof (get_by_pk_NoDup _ b Hnd Hb) as Hgb.
  rewrite Hab, Hgb in Hga. by injection Hga.
Qed.

Lemma elem_of_replace_row (row r : Snippet) (rows : list Snippet) :
  r ∈ rows → pk r ≠ pk row → r ∈ replace_row row rows.
Proof.
  intros Hr Hne. apply list_elem_of_fmap. exists r.
  by rewrite bool_decide_eq_false_2.
Qed.

Lemma sample_db_ok : db_ok Sample.db.
Proof.
  split.
  - by apply (bool_decide_unpack _).
  - by apply (bool_decide_unpack _).
Defined.

Lemma sample_snippet1 : Sample.snippet1 ∈ snippets Sample.db.
Proof. apply list_elem_of_here. Defined.

Lemma IsOwnerOrReadOnly_iff (request : Request) (obj : Snippet) :
  has_object_permission IsOwnerOrReadOnly request obj = true ↔
  method request ∈ ["GET"; "HEAD"; "OPTIONS"] ∨ is_owner (user request) obj.
Proof.
  simpl. unfold IsOwnerOrReadOnly_has_object_permission, owner_eq, is_owner.
  change ["GET"; "HEAD"; "OPTIONS"] with SAFE_METHODS.
  case_bool_decide as Hm; [by split; [left|]|]. split.
  - destruct (user request) as [|u]; [done|].
    intros Ho%bool_decide_eq_true. right. by exists u.
  - intros [?|(u & -> & Ho)]; [done|]. by apply bool_decide_eq_true.
Qed.

Section claims.
Context `{Fields, Pygments, Settings}.

Lemma error_response_writes_nothing st r now db :
  400 ≤ status_code (handle st r now db).1 → (handle st r now db).2 = db.
Proof.
  intros Hst.
  destruct (handle_effect st r now db)
    as [response|? ? response ? ? Hc|? ? ? ? response ? ? ? ? Hc
       |? ? response ? ? ? Hc]; [done|..];
    rewrite Hc in Hst; unfold HTTP_201_CREATED, HTTP_200_OK,
      HTTP_204_NO_CONTENT in Hst; lia.
Qed.

Lemma stored_iff_found (db : DB) (k : nat) :
  k ∈ pk <$> snippets db ↔ is_Some (get_by_pk (Snippet_objects_all db) k).
Proof.
  rewrite get_by_pk_is_Some. by rewrite Snippet_objects_all_perm.
Qed.

(** C1. For every request that targets a stored snippet, the object-level
    permission check of [IsOwnerOrReadOnly] answers true exactly when the
    verb is one of GET, HEAD and OPTIONS or the requesting user is the
    stored owner of the snippet.  Consequently a request after which the
    snippet is no longer stored as it was (it was updated or deleted) comes
    from its owner, and a GET of the snippet's detail URL by any client is
    answered 200 with the snippet. *)
Theorem C1_owner_or_read_only
    (st : Stage) (r : HttpRequest) (now : nat) (db : DB) (obj : Snippet) :
  db_ok db → obj ∈ snippets db →
  let request := initialize_request db r in
  (has_object_permission IsOwnerOrReadOnly request obj = true ↔
     method request ∈ ["GET"; "HEAD"; "OPTIONS"] ∨ is_owner (user request) obj)
  ∧ (obj ∉ snippets (handle st r now db).2 → is_owner (user request) obj)
  ∧ (http_url r = snippet_detail_url (pk obj) → http_method r = "GET" →
     handle st r now db =
     ({| status_code := HTTP_200_OK;
         content :=
           Object (SnippetItem
                     (SnippetSerializer_to_representation st db obj)) |}, db)).
Proof.
  intros Hok Hobj request. split_and!.
  - apply IsOwnerOrReadOnly_iff.
  - intros Hgone.
    destruct (handle_effect st r now db)
      as [response|u attrs response Hu _ _
         |u obj' partial attrs response Hin Hu Ho _ _
         |u obj' response Hin Hu Ho _].
    + done.
    + exfalso. apply Hgone. simpl. apply elem_of_app. by left.
    + destruct (decide (pk obj = pk obj')) as [Hpk|Hpk].
      * rewrite (same_pk_same_row db obj obj') by done. by exists u.
      * exfalso. apply Hgone. simpl. by apply elem_of_replace_row.
    + destruct (decide (pk obj = pk obj')) as [Hpk|Hpk].
      * rewrite (same_pk_same_row db obj obj') by done. by exists u.
      * exfalso. apply Hgone. simpl. by apply list_elem_of_filter.
  - intros Hurl Hm. rewrite (handle_retrieve st r now db (pk obj)) by done.
    by rewrite get_snippet.
Qed.


(** C3. Whatever sequence of operations (requests, creations, deletions)
    led to the current database, [Snippet.objects.all()] returns every
    stored snippet, ordered by creation time ascending; so does the reverse
    relation [user.snippets.all()] for the snippets of a user.  A GET of
    the snippet list is answered 200 with exactly the representations of
    that list, in that order: all of it in stage 4; from stage 5 on its
    first page, with [count] the number of stored snippets.  The page is
    sorted, holds as many snippets as the page size allows, and every
    snippet it leaves out was created no earlier than those it holds. *)
Theorem C3_snippets_are_ordered_by_created
    (st : Stage) (ops : list Op) (db0 : DB) (r : HttpRequest) (now : nat) :
  http_url r = snippet_list_url → http_method r = "GET" →
  let db := run st ops db0 in
  let page :=
    match st with
    | Stage4 => Snippet_objects_all db
    | Stage5 | Stage6 => take (Pos.to_nat PAGE_SIZE) (Snippet_objects_all db)
    end in
  let items :=
    (λ s, SnippetItem (SnippetSerializer_to_representation st db s)) <$> page in
  StronglySorted created_le (Snippet_objects_all db)
  ∧ Snippet_objects_all db ≡ₚ snippets db
  ∧ (∀ u, StronglySorted created_le (user_snippets db u))
  ∧ handle st r now db =
      ({| status_code := HTTP_200_OK;
          content :=
            match st with
            | Stage4 => Objects items
            | Stage5 | Stage6 => Paginated (length (snippets db)) items
            end |}, db)
  ∧ StronglySorted created_le page
  ∧ length page =
      match st with
      | Stage4 => length (snippets db)
      | Stage5 | Stage6 => Pos.to_nat PAGE_SIZE `min` length (snippets db)
      end
  ∧ (∀ s s', s ∈ page → s' ∈ snippets db → s' ∉ page →
       created s ≤ created s').
Proof.
  intros Hurl Hm db page items.
  pose proof (Snippet_objects_all_sorted db) as Hsorted.
  assert (length (Snippet_objects_all db) = length (snippets db)) as Hlen
    by by rewrite Snippet_objects_all_perm.
  split_and!.
  - done.
  - apply Snippet_objects_all_perm.
  - intros u. by apply StronglySorted_filter.
  - rewrite (handle_list st r now db) by done. unfold items, page, paginate.
    destruct st; simpl; [done|..]; by rewrite length_fmap, Hlen, fmap_take.
  - unfold page. destruct st; auto using StronglySorted_take.
  - unfold page. destruct st; [done|..]; by rewrite length_take, Hlen.
  - intros s s' Hs Hs' Hout.
    apply elem_of_Snippet_objects_all in Hs'.
    assert (∀ n, s ∈ take n (Snippet_objects_all db) →
                 s' ∉ take n (Snippet_objects_all db) → created s ≤ created s')
      as Hpage.
    { intros n Hin Hnot.
      rewrite <-(take_drop n (Snippet_objects_all db)) in Hs', Hsorted.
      apply elem_of_app in Hs' as [?|Hs']; [done|].
      apply (StronglySorted_app_1_elem_of _ _ _ s s' Hsorted Hin Hs'). }
    unfold page in Hs, Hout. destruct st; [done|..]; eauto.
Qed.

(** C4, amended.  The HTTP surface exposes create, read, update and delete
    over snippets, and over users only the two read operations: for every
    client, a POST, PUT, PATCH or DELETE on the user list or on a user's
    detail URL is answered 405 and changes nothing, while a GET of the user
    list is answered 200 and a GET of a stored user's detail URL is
    answered 200. *)
Theorem C4_users_are_read_only
    (st : Stage) (r : HttpRequest) (now : nat) (db : DB) :
  http_url r = user_list_url ∨ (∃ k, http_url r = user_detail_url k) →
  (http_method r ∈ ["POST"; "PUT"; "PATCH"; "DELETE"] →
     status_code (handle st r now db).1 = HTTP_405_METHOD_NOT_ALLOWED ∧
     (handle st r now db).2 = db)
  ∧ (http_method r = "GET" →
     (http_url r = user_list_url →
        status_code (handle st r now db).1 = HTTP_200_OK) ∧
     (∀ k, http_url r = user_detail_url k → k ∈ pk <$> users db →
        status_code (handle st r now db).1 = HTTP_200_OK)).
Proof.
  intros Hurl. split.
  - intros Hm.
    assert (status_code (handle st r now db).1 = HTTP_405_METHOD_NOT_ALLOWED)
      as Hst.
    { rewrite handle_status. unfold expected_status.
      destruct Hurl as [->|[k ->]]; simpl;
        verb_cases Hm; rewrite Hm; by eval_decides. }
    split; [done|]. apply error_response_writes_nothing. rewrite Hst.
    unfold HTTP_405_METHOD_NOT_ALLOWED. lia.
  - intros Hm. split.
    + intros Hlist. rewrite handle_status. unfold expected_status.
      rewrite Hlist, Hm. simpl. by eval_decides.
    + intros k Hk Hin. rewrite handle_status. unfold expected_status.
      rewrite Hk, Hm. simpl. eval_decides. simpl.
      apply get_by_pk_is_Some in Hin as [u ->]. done.
Qed.

(** C5. In every state the application can reach, the highlighted page of
    each stored snippet is the page rendered at save time from the
    snippet's code, language and style, so two snippets that agree on the
    three have equal pages; a [highlighted] key in a request body changes
    nothing; and a GET of the highlight URL (stages 5 and 6) is answered 200
    with exactly the stored page. *)
Theorem C5_highlighted_is_derived_and_read_only
    (st : Stage) (db : DB) :
  reachable st db →
  (∀ s, s ∈ snippets db →
     highlighted s = highlight (code s) (language s) (style s))
  ∧ (∀ s1 s2, s1 ∈ snippets db → s2 ∈ snippets db →
       code s1 = code s2 → language s1 = language s2 → style s1 = style s2 →
       highlighted s1 = highlighted s2)
  ∧ (∀ r v now,
       handle st
         {| http_method := http_method r; http_url := http_url r;
            http_session := http_session r;
            http_body := <["highlighted" := v]> (http_body r) |} now db
       = handle st r now db)
  ∧ (∀ s r now, st ≠ Stage4 → s ∈ snippets db →
       http_url r = snippet_highlight_url (pk s) → http_method r = "GET" →
       handle st r now db =
       ({| status_code := HTTP_200_OK;
           content := StaticHTML (highlighted s) |}, db)).
Proof.
  intros Hreach.
  pose proof (reachable_highlighted_ok st db Hreach) as Hhl.
  pose proof (reachable_db_ok st db Hreach) as Hok.
  split_and!.
  - done.
  - intros s1 s2 Hs1 Hs2 Hc Hl Hs.
    by rewrite (Hhl s1 Hs1), (Hhl s2 Hs2), Hc, Hl, Hs.
  - intros r v now. apply handle_respects; [done|].
    split_and!; simpl; try done.
    intros partial. apply to_internal_value_insert.
    by apply (bool_decide_eq_false_1 _).
  - intros s r now Hst Hs Hurl Hm.
    rewrite (handle_highlight st r now db (pk s)) by done.
    by rewrite get_snippet.
Qed.

(** C6. Deleting a user deletes the user's snippets: a snippet owned by the
    user is gone after [user.delete()], no snippet that remains is owned by
    the user, the snippets of the other users all remain, and the user is
    gone. *)
Theorem C6_snippets_are_deleted_with_their_owner
    (u : User) (now : nat) (db : DB) (s : Snippet) :
  s ∈ snippets db → owner s = pk u →
  let db' := (User_delete u now db).2 in
  (s ∉ snippets db')
  ∧ (∀ s', s' ∈ snippets db' → owner s' ≠ pk u)
  ∧ (∀ s', s' ∈ snippets db → owner s' ≠ pk u → s' ∈ snippets db')
  ∧ (u ∉ users db').
Proof.
  intros Hs Ho. simpl. split_and!.
  - by intros [? _]%list_elem_of_filter.
  - by intros s' [? _]%list_elem_of_filter.
  - intros s' Hs' Ho'. by apply list_elem_of_filter.
  - by intros [? _]%list_elem_of_filter.
Qed.

(** A body with no valid [code] value, the key absent or its value
    rejected by the field, fails the full validation with an error on
    [code], whatever else it holds. *)
Lemma to_internal_value_no_code (body : gmap string json) :
  body !! "code" ≫= code_field = None →
  ∃ errors, SnippetSerializer_to_internal_value false body = inl errors
            ∧ "code" ∈ errors.
Proof.
  intros Hc. unfold SnippetSerializer_to_internal_value.
  assert (run_field true false code_field (body !! "code") = Failed) as ->.
  { destruct (body !! "code") as [v|]; simpl in *; [|done]. by rewrite Hc. }
  simpl. destruct (field_error "title" _) as [|e errors]; simpl.
  - eexists. split; [reflexivity|]. apply list_elem_of_here.
  - eexists. split; [reflexivity|]. apply elem_of_cons. right.
    apply elem_of_app. right. apply list_elem_of_here.
Qed.

(** C7. A snippet created with only [code] supplied has an empty title, no
    line numbers, language "python" and style "friendly".  This holds when
    [Snippet.objects.create] is called with the code alone, without an
    owner as in the stages before authentication and with any stored
    owner afterwards; when the serializer validates and saves a body whose
    only snippet field is a valid [code]; and when an authenticated
    client posts such a body.  Creating a snippet with no [code] value
    fails validation: whatever else the body holds, a body whose [code] key
    is absent or is rejected by the field fails with an error on [code],
    the serializer stores nothing, and posting the body is answered 400
    and stores nothing. *)
Theorem C7_defaults_of_a_new_snippet
    (st : Stage) (r : HttpRequest) (now : nat) (db : DB) (u : User) (c : string) :
  let fresh o :=
    render {| snippet_pk := snippet_seq db; created := now; title := EmptyString;
              code := c; linenos := false; language := "python";
              style := "friendly"; owner := o; highlighted := EmptyString |} in
  let only_code :=
    {| a_title := None; a_code := Some c; a_linenos := None;
       a_language := None; a_style := None |} in
  let code_alone (body : gmap string json) :=
    body !! "title" = None ∧ body !! "linenos" = None ∧
    body !! "language" = None ∧ body !! "style" = None ∧
    body !! "code" ≫= code_field = Some c in
  Snippet_objects_create_unowned only_code now db
  = (inr (fresh no_owner), insert_snippet db (fresh no_owner))
  ∧ (∀ o, is_Some (get_by_pk (users db) o) →
       Snippet_objects_create only_code o now db
       = (inr (fresh o), insert_snippet db (fresh o)))
  ∧ (∀ body, code_alone body →
       SnippetSerializer_to_internal_value false body = inr only_code ∧
       SnippetSerializer_save body now db
       = (inr (fresh no_owner), insert_snippet db (fresh no_owner)))
  ∧ (∀ body, body !! "code" ≫= code_field = None →
       ∃ errors,
         SnippetSerializer_to_internal_value false body = inl errors ∧
         "code" ∈ errors ∧
         SnippetSerializer_save body now db = (inl (ValidationError errors), db))
  ∧ (http_url r = snippet_list_url → http_method r = "POST" →
     authenticate db (http_session r) = AuthUser u →
     (code_alone (http_body r) →
        status_code (handle st r now db).1 = HTTP_201_CREATED ∧
        (handle st r now db).2 = insert_snippet db (fresh (pk u)))
     ∧ (http_body r !! "code" ≫= code_field = None →
        status_code (handle st r now db).1 = HTTP_400_BAD_REQUEST ∧
        (handle st r now db).2 = db)).
Proof.
  intros fresh only_code code_alone.
  assert (∀ body, code_alone body →
            SnippetSerializer_to_internal_value false body = inr only_code)
    as Hvalid.
  { intros body (Ht & Hn & Hl & Hs & Hc).
    unfold SnippetSerializer_to_internal_value. rewrite Ht, Hn, Hl, Hs.
    destruct (body !! "code") as [v|]; simpl in *; [|done]. by rewrite Hc. }
  split_and!.
  - done.
  - intros o [u' Hu']. unfold Snippet_objects_create. unfold_M.
    by rewrite Hu'.
  - intros body Hbody. split; [by apply Hvalid|].
    unfold SnippetSerializer_save, is_valid. rewrite (Hvalid body Hbody).
    done.
  - intros body Hc.
    destruct (to_internal_value_no_code body Hc) as (errors & Hv & Hin).
    exists errors. split_and!; [done..|].
    unfold SnippetSerializer_save, is_valid. by rewrite Hv.
  - intros Hurl Hm Hu. split.
    + intros Hbody. rewrite (handle_create st r now db) by done.
      by rewrite Hu, (Hvalid _ Hbody).
    + intros Hc.
      destruct (to_internal_value_no_code _ Hc) as (errors & Hv & _).
      rewrite (handle_create st r now db) by done. by rewrite Hu, Hv.
Qed.

(** C8. The [owner] key of a request body has no influence: two requests
    with the same verb, URL and session whose bodies differ at most in the
    [owner] key get the same response and leave the same database.  Every
    row a request adds or rewrites is owned by the authenticated requester;
    in particular the snippet a successful create request stores is owned
    by the requester, whatever the body says. *)
Theorem C8_owner_key_is_ignored
    (st : Stage) (r1 r2 : HttpRequest) (now : nat) (db : DB) :
  http_method r1 = http_method r2 →
  http_url r1 = http_url r2 →
  http_session r1 = http_session r2 →
  delete "owner" (http_body r1) = delete "owner" (http_body r2) →
  handle st r1 now db = handle st r2 now db
  ∧ (∀ s, s ∈ snippets (handle st r1 now db).2 → s ∉ snippets db →
       is_owner (authenticate db (http_session r1)) s)
  ∧ (http_url r1 = snippet_list_url → http_method r1 = "POST" →
     status_code (handle st r1 now db).1 = HTTP_201_CREATED →
     ∃ s, snippets (handle st r1 now db).2 = snippets db ++ [s] ∧
          is_owner (authenticate db (http_session r1)) s).
Proof.
  intros Hm Hurl Hs Hbody. split_and!.
  - apply handle_respects; [done|]. split_and!; simpl; [done|by rewrite Hs|].
    intros partial. apply to_internal_value_ext. intros k Hk.
    assert (k ≠ "owner") as Hne.
    { intros ->. revert Hk. by apply (bool_decide_eq_false_1 _). }
    rewrite <-(lookup_delete_ne (http_body r1) "owner" k) by done.
    rewrite <-(lookup_delete_ne (http_body r2) "owner" k) by done.
    by rewrite Hbody.
  - intros s Hin Hnew.
    destruct (handle_effect st r1 now db)
      as [response|u attrs response Hu _ _
         |u obj partial attrs response Hobj Hu Ho _ _
         |u obj response Hobj Hu Ho _]; simpl in *.
    + done.
    + apply elem_of_app in Hin as [?| ->%list_elem_of_singleton]; [done|].
      by exists u.
    + apply list_elem_of_fmap in Hin as (row & -> & Hrow).
      case_bool_decide; [|done]. by exists u.
    + by apply list_elem_of_filter in Hin as [_ ?].
  - intros Hlist Hpost. rewrite (handle_create st r1 now db) by done.
    destruct (authenticate db (http_session r1)) as [|u]; [done|].
    destruct (SnippetSerializer_to_internal_value false (http_body r1));
      [done|].
    intros _. eexists. split; [done|]. by exists u.
Qed.

(** C9, amended.  In the authenticated stages a snippet-create request
    from an unauthenticated client is rejected with status 403 and stores
    nothing; a GET of the snippet list from an unauthenticated client is
    answered 200; a GET of a snippet's detail URL from an unauthenticated
    client is answered 200 when a snippet with that id is stored, and 404
    when none is. *)
Theorem C9_unauthenticated_clients
    (st : Stage) (r : HttpRequest) (now : nat) (db : DB) :
  authenticate db (http_session r) = AnonymousUser →
  (http_url r = snippet_list_url → http_method r = "POST" →
     status_code (handle st r now db).1 = HTTP_403_FORBIDDEN ∧
     (handle st r now db).2 = db)
  ∧ (http_url r = snippet_list_url → http_method r = "GET" →
     status_code (handle st r now db).1 = HTTP_200_OK ∧
     (handle st r now db).2 = db)
  ∧ (∀ k, http_url r = snippet_detail_url k → http_method r = "GET" →
     (handle st r now db).2 = db ∧
     (k ∈ pk <$> snippets db →
        status_code (handle st r now db).1 = HTTP_200_OK) ∧
     (k ∉ pk <$> snippets db →
        status_code (handle st r now db).1 = HTTP_404_NOT_FOUND)).
Proof.
  intros Hu. split_and!.
  - intros Hurl Hm. rewrite (handle_create st r now db) by done.
    by rewrite Hu.
  - intros Hurl Hm. by rewrite (handle_list st r now db).
  - intros k Hurl Hm. rewrite (handle_retrieve st r now db k) by done.
    pose proof (stored_iff_found db k) as Hk.
    destruct (get_by_pk (Snippet_objects_all db) k) as [obj|]; simpl.
    + split_and!; [done..|]. intros Hno. destruct Hno. by apply Hk.
    + split_and!; [done| |done]. intros [? [=]]%Hk.
Qed.

(** C10. A rejected request writes nothing: whenever the response has
    status 400, 403 or 405, the database after the request is the database
    before it, so the stored snippets, their number and every field of each,
    are the same. *)
Theorem C10_rejected_request_is_atomic
    (st : Stage) (r : HttpRequest) (now : nat) (db : DB) :
  status_code (handle st r now db).1 ∈ [400; 403; 405] →
  (handle st r now db).2 = db ∧
  snippets (handle st r now db).2 = snippets db ∧
  Snippet_objects_count (handle st r now db).2 = Snippet_objects_count db.
Proof.
  intros Hst.
  assert ((handle st r now db).2 = db) as Hdb; [|by rewrite Hdb].
  apply error_response_writes_nothing.
  repeat (apply elem_of_cons in Hst as [->|Hst]); [lia..|].
  by apply elem_of_nil in Hst.
Qed.

End claims.

Lemma C1_owner_or_read_only_witness :
  db_ok Sample.db ∧ Sample.snippet1 ∈ snippets Sample.db ∧
  let r := Sample.request "DELETE" (snippet_detail_url 1) (Some 1) ∅ in
  (Sample.snippet1 ∉
     snippets (@handle Sample.fields Sample.pygments Sample.settings
                 Stage4 r 20 Sample.db).2) ∧
  is_owner (user (initialize_request Sample.db r)) Sample.snippet1.
Proof.
  split; [exact sample_db_ok|]. split; [exact sample_snippet1|].
  intros r.
  assert (Sample.snippet1 ∉
    snippets (@handle Sample.fields Sample.pygments Sample.settings
                Stage4 r 20 Sample.db).2) as Hgone.
  { by apply (bool_decide_unpack _). }
  split; [exact Hgone|].
  exact (proj1 (proj2 (@C1_owner_or_read_only Sample.fields Sample.pygments
           Sample.settings Stage4 r 20 Sample.db Sample.snippet1
           sample_db_ok sample_snippet1)) Hgone).
Defined.

Lemma C10_rejected_request_is_atomic_witness :
  let r := Sample.request "DELETE" (snippet_detail_url 1) (Some 2) ∅ in
  status_code (@handle Sample.fields Sample.pygments Sample.settings
                 Stage4 r 20 Sample.db).1 = 403 ∧
  (@handle Sample.fields Sample.pygments Sample.settings
     Stage4 r 20 Sample.db).2 = Sample.db.
Proof.
  intros r. split; [reflexivity|].
  apply (@C10_rejected_request_is_atomic Sample.fields Sample.pygments
           Sample.settings Stage4 r 20 Sample.db).
  by apply (bool_decide_unpack _).
Defined.

(** ** The claims at the fixture of the view tests *)

Lemma C8_owner_key_is_ignored_witness :
  Sample.app Stage4
    (Sample.request "POST" snippet_list_url (Some 1)
       {["code" := JStr "print('test')"; "owner" := JStr "user2"]})
    20 Sample.db
  = Sample.app Stage4
      (Sample.request "POST" snippet_list_url (Some 1)
         {["code" := JStr "print('test')"]})
      20 Sample.db.
Proof.
  apply (@C8_owner_key_is_ignored Sample.fields Sample.pygments
           Sample.settings Stage4
           (Sample.request "POST" snippet_list_url (Some 1)
              {["code" := JStr "print('test')"; "owner" := JStr "user2"]})
           (Sample.request "POST" snippet_list_url (Some 1)
              {["code" := JStr "print('test')"]})
           20 Sample.db); reflexivity.
Defined.

Lemma C6_snippets_are_deleted_with_their_owner_witness :
  Sample.snippet1 ∈ snippets Sample.db ∧
  Sample.snippet1 ∉
    snippets (User_delete {| user_pk := 1; username := "user1" |} 0 Sample.db).2.
Proof.
  split; [exact sample_snippet1|].
  apply (C6_snippets_are_deleted_with_their_owner
           {| user_pk := 1; username := "user1" |} 0 Sample.db Sample.snippet1);
    [exact sample_snippet1 | reflexivity].
Defined.

Lemma C3_snippets_are_ordered_by_created_witness :
  let db :=
    @run Sample.fields Sample.pygments Sample.settings Stage5
      [DeleteSnippet 1; CreateSnippet 5 no_attrs 2] Sample.db in
  let page := take 10 (Snippet_objects_all db) in
  StronglySorted created_le (Snippet_objects_all db)
  ∧ Sample.app Stage5 (Sample.request "GET" snippet_list_url None ∅) 20 db =
      ({| status_code := 200;
          content :=
            Paginated 2
              ((λ s, SnippetItem (SnippetSerializer_to_representation Stage5 db s))
                 <$> page) |}, db)
  ∧ StronglySorted created_le page
  ∧ created <$> page = [5; 11].
Proof.
  intros db page.
  destruct (@C3_snippets_are_ordered_by_created Sample.fields Sample.pygments
              Sample.settings Stage5
              [DeleteSnippet 1; CreateSnippet 5 no_attrs 2] Sample.db
              (Sample.request "GET" snippet_list_url None ∅) 20
              eq_refl eq_refl)
    as (Hall & _ & _ & Hresp & Hpage & _).
  split_and!; [exact Hall | exact Hresp | exact Hpage | reflexivity].
Defined.

Lemma sample_reachable (st : Stage) :
  @reachable Sample.fields Sample.pygments Sample.settings st Sample.db.
Proof. exists Sample.setUp. by destruct st. Defined.

Lemma C5_highlighted_is_derived_and_read_only_witness :
  Sample.app Stage5
    (Sample.request "GET" (snippet_highlight_url 1) None ∅) 20 Sample.db
  = ({| status_code := 200;
        content := StaticHTML (highlighted Sample.snippet1) |}, Sample.db).
Proof.
  apply (proj2 (proj2 (proj2
    (@C5_highlighted_is_derived_and_read_only Sample.fields Sample.pygments
       Sample.settings Stage5 Sample.db (sample_reachable Stage5))))
    Sample.snippet1
    (Sample.request "GET" (snippet_highlight_url 1) None ∅) 20);
    [discriminate | exact sample_snippet1 | reflexivity | reflexivity].
Defined.

Lemma C7_defaults_of_a_new_snippet_witness :
  (∃ s, snippets
          (Sample.app Stage4
             (Sample.request "POST" snippet_list_url (Some 2)
                {["code" := JStr "print('owned')"]}) 20 Sample.db).2
        = snippets Sample.db ++ [s] ∧
        title s = EmptyString ∧ linenos s = false ∧ language s = "python" ∧
        style s = "friendly" ∧ code s = "print('owned')")
  ∧ (∃ errors,
       @SnippetSerializer_to_internal_value Sample.fields false
         {["title" := JStr "No Code"]} = inl errors ∧ "code" ∈ errors)
  ∧ status_code
      (Sample.app Stage4
         (Sample.request "POST" snippet_list_url (Some 1)
            {["title" := JStr "No Code"]}) 20 Sample.db).1 = 400
  ∧ (Sample.app Stage4
       (Sample.request "POST" snippet_list_url (Some 1)
          {["title" := JStr "No Code"]}) 20 Sample.db).2 = Sample.db.
Proof.
  split.
  - destruct (@C7_defaults_of_a_new_snippet Sample.fields Sample.pygments
         Sample.settings Stage4
         (Sample.request "POST" snippet_list_url (Some 2)
            {["code" := JStr "print('owned')"]})
         20 Sample.db {| user_pk := 2; username := "user2" |} "print('owned')")
      as (_ & _ & _ & _ & Hpost).
    destruct (Hpost eq_refl eq_refl eq_refl) as [Hcreated _].
    destruct Hcreated as [_ ->]; [repeat split|].
    eexists. split; [reflexivity|]. repeat split.
  - destruct (@C7_defaults_of_a_new_snippet Sample.fields Sample.pygments
         Sample.settings Stage4
         (Sample.request "POST" snippet_list_url (Some 1)
            {["title" := JStr "No Code"]})
         20 Sample.db {| user_pk := 1; username := "user1" |} EmptyString)
      as (_ & _ & _ & Hinvalid & Hpost).
    destruct (Hinvalid {["title" := JStr "No Code"]})
      as (errors & Hv & Hin & _); [reflexivity|].
    split; [by exists errors|].
    destruct (Hpost eq_refl eq_refl eq_refl) as [_ Hrejected].
    apply Hrejected. reflexivity.
Defined.

Lemma C9_unauthenticated_clients_witness :
  status_code
    (Sample.app Stage4
       (Sample.request "POST" snippet_list_url None
          {["code" := JStr "print('new')"]}) 20 Sample.db).1 = 403 ∧
  (Sample.app Stage4
     (Sample.request "POST" snippet_list_url None
        {["code" := JStr "print('new')"]}) 20 Sample.db).2 = Sample.db.
Proof.
  apply (@C9_unauthenticated_clients Sample.fields Sample.pygments
           Sample.settings Stage4
           (Sample.request "POST" snippet_list_url None
              {["code" := JStr "print('new')"]}) 20 Sample.db);
    reflexivity.
Defined.

Lemma C4_users_are_read_only_witness :
  status_code
    (Sample.app Stage6
       (Sample.request "POST" user_list_url (Some 1)
          {["username" := JStr "hacker"]}) 20 Sample.db).1 = 405 ∧
  (Sample.app Stage6
     (Sample.request "POST" user_list_url (Some 1)
        {["username" := JStr "hacker"]}) 20 Sample.db).2 = Sample.db.
Proof.
  apply (@C4_users_are_read_only Sample.fields Sample.pygments
           Sample.settings Stage6
           (Sample.request "POST" user_list_url (Some 1)
              {["username" := JStr "hacker"]}) 20 Sample.db).
  - left. reflexivity.
  - apply list_elem_of_here.
Defined.


(** C9 as stated fails: the GET of a detail URL whose id is not stored,
    sent without a session, is answered 404, not 200 (the scenario of
    [test_retrieve_snippet_not_found]). *)
Lemma C9_counterexample :
  authenticate Sample.db None = AnonymousUser ∧
  status_code
    (Sample.app Stage4
       (Sample.request "GET" (snippet_detail_url 99) None ∅) 20 Sample.db).1
  = 404.
Proof. split; reflexivity. Qed.

(** C4 as stated fails: no authenticated client can create, update or
    delete through the user endpoints. *)
Lemma C4_counterexample :
  ¬ ∃ st r now db,
      (http_url r = user_list_url ∨ ∃ k, http_url r = user_detail_url k) ∧
      http_method r ∈ ["POST"; "PUT"; "PATCH"; "DELETE"] ∧
      is_authenticated (authenticate db (http_session r)) = true ∧
      status_code (Sample.app st r now db).1 < 400.
Proof.
  intros (st & r & now & db & Hurl & Hm & _ & Hst).
  rewrite (@handle_status Sample.fields Sample.pygments Sample.settings)
    in Hst.
  unfold expected_status in Hst.
  destruct Hurl as [Hurl|[k Hurl]]; rewrite Hurl in Hst; simpl in Hst;
    verb_cases Hm; rewrite Hm in Hst; vm_compute in Hst; lia.
Qed.


(** ** The scenarios of the view and model test suites

    The model run on the requests of [tests/test_views.py] and
    [tests/test_models.py], with the statuses and counts the tests
    assert. *)
Module Tests.
Import Sample.

Example test_list_snippets_unauthenticated :
  status Stage4 (request "GET" snippet_list_url None ∅) = 200 ∧
  length (items_of (content (app Stage4
            (request "GET" snippet_list_url None ∅) 20 db).1)) = 2.
Proof. split; reflexivity. Qed.

Example test_create_snippet_unauthenticated :
  let r := request "POST" snippet_list_url None
             {["code" := JStr "print('new')"]} in
  status Stage4 r = 403 ∧ count_after Stage4 r = 2.
Proof. split; reflexivity. Qed.

Example test_create_snippet_authenticated :
  let r := request "POST" snippet_list_url (Some 1)
             {["title" := JStr "New Snippet"; "code" := JStr "print('new')";
               "linenos" := JBool true; "language" := JStr "python";
               "style" := JStr "monokai"]} in
  status Stage4 r = 201 ∧ count_after Stage4 r = 3 ∧
  ∃ repr, content (app Stage4 r 20 db).1 = Object (SnippetItem repr) ∧
          r_title repr = "New Snippet" ∧ r_owner repr = Some "user1".
Proof. split_and!; [reflexivity..|]. eexists. split_and!; reflexivity. Qed.

Example test_create_snippet_sets_owner :
  let r := request "POST" snippet_list_url (Some 2)
             {["code" := JStr "print('owned')"]} in
  status Stage4 r = 201 ∧
  owner <$> get_by_pk (snippets (app Stage4 r 20 db).2) 3 = Some 2.
Proof. split; reflexivity. Qed.

Example test_create_snippet_invalid_data :
  let r := request "POST" snippet_list_url (Some 1)
             {["title" := JStr "No Code Field"]} in
  status Stage4 r = 400 ∧ count_after Stage4 r = 2.
Proof. split; reflexivity. Qed.

Example test_retrieve_snippet_unauthenticated :
  ∃ repr,
    app Stage4 (request "GET" (snippet_detail_url 1) None ∅) 20 db
    = ({| status_code := 200; content := Object (SnippetItem repr) |}, db) ∧
    r_title repr = "First Snippet" ∧ r_owner repr = Some "user1".
Proof. eexists. split_and!; reflexivity. Qed.

Example test_retrieve_snippet_not_found :
  status Stage4 (request "GET" (snippet_detail_url 99) None ∅) = 404.
Proof. reflexivity. Qed.

Example test_update_snippet_unauthenticated :
  status Stage4 (request "PUT" (snippet_detail_url 1) None
                   {["code" := JStr "print('hacked')"]}) = 403.
Proof. reflexivity. Qed.

Example test_update_snippet_as_owner :
  let r := request "PUT" (snippet_detail_url 1) (Some 1)
             {["title" := JStr "Updated Title";
               "code" := JStr "print('updated')"; "linenos" := JBool true;
               "language" := JStr "python"; "style" := JStr "monokai"]} in
  status Stage4 r = 200 ∧
  title <$> get_by_pk (snippets (app Stage4 r 20 db).2) 1
  = Some "Updated Title".
Proof. split; reflexivity. Qed.

Example test_update_snippet_as_non_owner :
  status Stage4 (request "PUT" (snippet_detail_url 1) (Some 2)
                   {["code" := JStr "print('hacked')"]}) = 403.
Proof. reflexivity. Qed.

Example test_delete_snippet_unauthenticated :
  let r := request "DELETE" (snippet_detail_url 1) None ∅ in
  status Stage4 r = 403 ∧ count_after Stage4 r = 2.
Proof. split; reflexivity. Qed.

Example test_delete_snippet_as_owner :
  let r := request "DELETE" (snippet_detail_url 1) (Some 1) ∅ in
  status Stage4 r = 204 ∧ count_after Stage4 r = 1 ∧
  get_by_pk (snippets (app Stage4 r 20 db).2) 1 = None.
Proof. split_and!; reflexivity. Qed.

Example test_delete_snippet_as_non_owner :
  let r := request "DELETE" (snippet_detail_url 1) (Some 2) ∅ in
  status Stage4 r = 403 ∧ count_after Stage4 r = 2.
Proof. split; reflexivity. Qed.

Example test_list_method_not_allowed :
  status Stage4 (request "DELETE" snippet_list_url (Some 1) ∅) = 405.
Proof. reflexivity. Qed.

Example test_detail_method_not_allowed :
  status Stage4 (request "POST" (snippet_detail_url 1) (Some 1) ∅) = 405.
Proof. reflexivity. Qed.

Example test_retrieve_user_with_snippets :
  ∃ repr,
    content (app Stage4 (request "GET" (user_detail_url 1) None ∅) 20 db).1
    = Object (UserItem repr) ∧
    u_username repr = "user1" ∧ u_snippets repr = [ByPk 1].
Proof. eexists. split_and!; reflexivity. Qed.

Example test_retrieve_user_not_found :
  status Stage4 (request "GET" (user_detail_url 99) None ∅) = 404.
Proof. reflexivity. Qed.

Example test_user_list_method_not_allowed :
  status Stage4 (request "POST" user_list_url None
                   {["username" := JStr "hacker"]}) = 405.
Proof. reflexivity. Qed.

Example test_user_detail_method_not_allowed :
  status Stage4 (request "PUT" (user_detail_url 1) None
                   {["username" := JStr "hacked"]}) = 405.
Proof. reflexivity. Qed.

(** stage 5: paginated lists, hyperlinks, the highlight endpoint *)

Example test_list_snippets_paginated :
  ∃ results,
    content (app Stage5 (request "GET" snippet_list_url None ∅) 20 db).1
    = Paginated 2 results ∧ length results = 2.
Proof. eexists. split; reflexivity. Qed.

Example test_retrieve_snippet_contains_hyperlinks :
  ∃ repr,
    content (app Stage5 (request "GET" (snippet_detail_url 1) None ∅) 20 db).1
    = Object (SnippetItem repr) ∧
    r_url repr = Some (snippet_detail_url 1) ∧
    r_highlight repr = Some (snippet_highlight_url 1).
Proof. eexists. split_and!; reflexivity. Qed.

Example test_highlight_returns_html :
  app Stage5 (request "GET" (snippet_highlight_url 1) None ∅) 20 db
  = ({| status_code := 200; content := StaticHTML (highlighted snippet1) |}, db).
Proof. reflexivity. Qed.

Example test_highlight_not_found :
  status Stage5 (request "GET" (snippet_highlight_url 99) None ∅) = 404.
Proof. reflexivity. Qed.

Example test_api_root_returns_links :
  content (app Stage5 (request "GET" api_root_url None ∅) 20 db).1
  = Links [("users", user_list_url); ("snippets", snippet_list_url)].
Proof. reflexivity. Qed.

(** tests/test_models.py *)

Example test_snippet_ordering :
  code <$> Snippet_objects_all
    (@run fields pygments settings Stage6
       [CreateUser "testuser"; CreateSnippet 3 (code_only "first") 1;
        CreateSnippet 4 (code_only "second") 1;
        CreateSnippet 5 (code_only "third") 1] empty_db)
  = ["first"; "second"; "third"].
Proof. reflexivity. Qed.

Example test_snippet_deleted_with_owner :
  Snippet_objects_count
    (@run fields pygments settings Stage6
       [CreateUser "testuser"; CreateSnippet 3 (code_only "test") 1] empty_db)
  = 1 ∧
  Snippet_objects_count
    (@run fields pygments settings Stage6
       [CreateUser "testuser"; CreateSnippet 3 (code_only "test") 1;
        DeleteUser 1] empty_db)
  = 0.
Proof. split; reflexivity. Qed.

(** tests/test_models.py and tests/test_serializers.py of stage 2 *)

Example test_create_snippet_with_defaults :
  ∃ s, (@Snippet_objects_create_unowned pygments (code_only "print('hello')")
          3 empty_db).1 = inr s ∧
       code s = "print('hello')" ∧ title s = EmptyString ∧
       language s = "python" ∧ style s = "friendly" ∧ linenos s = false.
Proof. eexists. split; [reflexivity|]. repeat split. Qed.

Example test_deserialize_minimal_data :
  ∃ s, (@SnippetSerializer_save fields pygments
          {["code" := JStr "minimal code"]} 3 empty_db).1 = inr s ∧
       code s = "minimal code" ∧ title s = EmptyString.
Proof. eexists. split; [reflexivity|]. repeat split. Qed.

Example test_deserialize_invalid_data_missing_code :
  ∃ errors,
    @SnippetSerializer_save fields pygments {["title" := JStr "No Code"]}
      3 empty_db = (inl (ValidationError errors), empty_db) ∧
    "code" ∈ errors.
Proof. eexists. split; [reflexivity|]. apply list_elem_of_here. Qed.

End Tests.

(** * Further properties of the views *)

(** ** More outcomes *)

Section more_outcomes.
Context `{Fields, Pygments, Settings}.

Lemma handle_update st r now db k :
  http_url r = snippet_detail_url k → http_method r ∈ ["PUT"; "PATCH"] →
  handle st r now db =
  match authenticate db (http_session r) with
  | AnonymousUser => (handle_exception NotAuthenticated, db)
  | AuthUser u =>
      match get_by_pk (Snippet_objects_all db) k with
      | None => (handle_exception Http404, db)
      | Some obj =>
          if bool_decide (owner obj = pk u) then
            match SnippetSerializer_to_internal_value
                    (bool_decide (http_method r = "PATCH")) (http_body r) with
            | inl errors => (handle_exception (ValidationError errors), db)
            | inr attrs =>
                let row := render (set_attrs obj attrs) in
                let db' := with_snippets db (replace_row row (snippets db)) in
                ({| status_code := HTTP_200_OK;
                    content :=
                      Object (SnippetItem
                                (SnippetSerializer_to_representation st db' row))
                 |}, db')
            end
          else (handle_exception PermissionDenied, db)
      end
  end.
Proof.
  intros Hurl Hm. rewrite (handle_snippet_detail st r now db k Hurl).
  destruct (authenticate db (http_session r)) as [|u] eqn:Hu.
  - apply dispatch_anonymous_unsafe; [apply list_elem_of_here| |done].
    verb_cases Hm; rewrite Hm; auto using unsafe_PUT, unsafe_PATCH.
  - unfold as_view. rewrite dispatch_allowed
      by (simpl; by rewrite Hu, orb_true_r).
    verb_cases Hm; rewrite Hm; unfold select_handler; eval_decides; simpl;
      rewrite respond_update; simpl;
      (destruct (get_by_pk (Snippet_objects_all db) k) as [obj|]; [|done]);
      unfold IsOwnerOrReadOnly_has_object_permission; simpl;
      rewrite Hm, Hu; eval_decides; simpl;
      (destruct (bool_decide (owner obj = pk u)); simpl; [done|]);
      unfold permission_denied; simpl; by rewrite Hu.
Qed.

Lemma handle_destroy st r now db k :
  http_url r = snippet_detail_url k → http_method r = "DELETE" →
  handle st r now db =
  match authenticate db (http_session r) with
  | AnonymousUser => (handle_exception NotAuthenticated, db)
  | AuthUser u =>
      match get_by_pk (Snippet_objects_all db) k with
      | None => (handle_exception Http404, db)
      | Some obj =>
          if bool_decide (owner obj = pk u) then
            ({| status_code := HTTP_204_NO_CONTENT; content := NoData |},
             with_snippets db (filter (λ s, pk s ≠ pk obj) (snippets db)))
          else (handle_exception PermissionDenied, db)
      end
  end.
Proof.
  intros Hurl Hm. rewrite (handle_snippet_detail st r now db k Hurl).
  destruct (authenticate db (http_session r)) as [|u] eqn:Hu.
  - apply dispatch_anonymous_unsafe; [apply list_elem_of_here| |done].
    rewrite Hm. apply unsafe_DELETE.
  - unfold as_view. rewrite dispatch_allowed
      by (simpl; by rewrite Hu, orb_true_r).
    rewrite Hm; unfold select_handler; eval_decides; simpl.
    rewrite respond_destroy; simpl.
    destruct (get_by_pk (Snippet_objects_all db) k) as [obj|]; [|done].
    unfold IsOwnerOrReadOnly_has_object_permission; simpl.
    rewrite Hm, Hu; eval_decides; simpl.
    destruct (bool_decide (owner obj = pk u)); simpl; [done|].
    unfold permission_denied; simpl; by rewrite Hu.
Qed.

(** A safe verb selects the [GET] handler, [APIView.options] or no
    handler. *)
Lemma select_handler_safe names (handlers : Handlers) m request now db :
  m ∈ SAFE_METHODS →
  handlers.*1 ⊆ ["GET"; "POST"; "PUT"; "PATCH"; "DELETE"] →
  (∀ h, getattr handlers "GET" = Some h → (h request now db).2 = db) →
  (respond (select_handler names handlers m request) now db).2 = db.
Proof.
  intros Hm Hnames Hget.
  assert (getattr handlers "HEAD" = None) as Hhead.
  { apply getattr_None. intros Hin%Hnames. revert Hin.
    by apply (bool_decide_eq_false_1 _). }
  assert (getattr handlers "OPTIONS" = None) as Hopt.
  { apply getattr_None. intros Hin%Hnames. revert Hin.
    by apply (bool_decide_eq_false_1 _). }
  assert (∀ h, (h request now db).2 = db → (respond (h request) now db).2 = db)
    as Hresp.
  { intros h Hh. unfold respond. by destruct (h request now db) as [[?|?] ?]. }
  unfold select_handler. case_bool_decide; [|done].
  unfold SAFE_METHODS in Hm. verb_cases Hm; subst m.
  - destruct (getattr handlers "GET") as [h|] eqn:Hg; [|done].
    apply Hresp. by apply Hget.
  - rewrite Hhead. simpl.
    destruct (getattr handlers "GET") as [h|] eqn:Hg; [|done].
    apply Hresp. simpl. by apply Hget.
  - by rewrite Hopt.
Qed.

Lemma dispatch_safe {T} names (classes : list (Permission T)) handlers r now db :
  http_method r ∈ SAFE_METHODS →
  handlers.*1 ⊆ ["GET"; "POST"; "PUT"; "PATCH"; "DELETE"] →
  (∀ h, getattr handlers "GET" = Some h →
        (h (initialize_request db r) now db).2 = db) →
  (dispatch names classes handlers r now db).2 = db.
Proof.
  intros Hm Hnames Hget. unfold dispatch. rewrite respond_bind.
  unfold check_permissions. destruct (forallb _ _).
  - by apply select_handler_safe.
  - by destruct (permission_denied_403 (A:=()) (initialize_request db r) now db)
      as (e & -> & _).
Qed.

Lemma get_object_reads {T} `{Model T} (self : GenericAPIView T) k request now db :
  (get_object self k request now db).2 = db.
Proof. by destruct (get_object_spec self k request now db) as (res & -> & _). Qed.

Lemma retrieve_reads {T} `{Model T} (self : GenericAPIView T) k request now db :
  (retrieve self k request now db).2 = db.
Proof.
  unfold retrieve. unfold_M.
  by destruct (get_object_spec self k request now db) as ([e|obj] & -> & _).
Qed.

Lemma highlight_action_reads (self : GenericAPIView Snippet) k request now db :
  (highlight_action self k request now db).2 = db.
Proof.
  unfold highlight_action. unfold_M.
  by destruct (get_object_spec self k request now db) as ([e|obj] & -> & _).
Qed.

Lemma handle_safe_reads st r now db :
  http_method r ∈ SAFE_METHODS → (handle st r now db).2 = db.
Proof.
  intros Hm.
  unfold handle, urlpatterns, urlpatterns_4, urlpatterns_5, urlpatterns_6.
  destruct st, (http_url r) as [| |k|k| |k]; simpl; try done;
    unfold as_view, api_root; apply dispatch_safe; try done; simpl.
  all: try (intros x Hx; repeat (apply elem_of_cons in Hx as [->|Hx]);
            [repeat first [apply list_elem_of_here
                          | apply list_elem_of_further]..
            |by apply elem_of_nil in Hx]).
  all: intros h [= <-]; auto using retrieve_reads, highlight_action_reads.
Qed.
End more_outcomes.

(** ** Safe verbs, error statuses, and the stages compared *)

(** A status code that is one of a list of status codes. *)
Ltac status_listed :=
  unfold HTTP_200_OK, HTTP_201_CREATED, HTTP_204_NO_CONTENT,
    HTTP_400_BAD_REQUEST, HTTP_403_FORBIDDEN, HTTP_404_NOT_FOUND,
    HTTP_405_METHOD_NOT_ALLOWED;
  by apply (bool_decide_unpack _).

Section statuses.
Context `{Fields, Pygments, Settings}.

Lemma expected_status_safe st db r :
  http_method r ∈ SAFE_METHODS →
  expected_status st db r ∈ [200; 404; 405].
Proof.
  intros Hm. unfold expected_status.
  destruct (endpoint st (http_url r)) as [e|]; [|status_listed].
  unfold SAFE_METHODS in Hm.
  destruct e; verb_cases Hm; rewrite Hm; simpl; eval_decides; simpl;
    rewrite ?andb_false_r; simpl; repeat case_match; status_listed.
Qed.

(** X1. Read permissions are allowed to any request: a GET, HEAD or
    OPTIONS request is never answered 403, whoever sends it and whatever it
    targets, and it writes nothing. *)
Theorem X1_safe_verbs_read_and_are_never_denied
    (st : Stage) (r : HttpRequest) (now : nat) (db : DB) :
  http_method r ∈ SAFE_METHODS →
  (handle st r now db).2 = db ∧
  status_code (handle st r now db).1 ∈ [200; 404; 405] ∧
  status_code (handle st r now db).1 ≠ HTTP_403_FORBIDDEN.
Proof.
  intros Hm. split; [by apply handle_safe_reads|].
  rewrite handle_status.
  pose proof (expected_status_safe st db r Hm) as Hst.
  split; [done|]. intros Heq. rewrite Heq in Hst. revert Hst.
  by apply (bool_decide_eq_false_1 _).
Qed.

(** X2. No request ends in a server error: the status of every response
    is one of 200, 201, 204, 400, 403, 404 and 405.  In particular
    [perform_create] never runs [serializer.save(owner=request.user)] for
    the anonymous user, because [IsAuthenticatedOrReadOnly] rejects the
    request before. *)
Theorem X2_no_server_error
    (st : Stage) (r : HttpRequest) (now : nat) (db : DB) :
  status_code (handle st r now db).1 ∈ [200; 201; 204; 400; 403; 404; 405].
Proof.
  rewrite handle_status. unfold expected_status.
  repeat case_match; status_listed.
Qed.

(** X3. The highlight endpoint is guarded differently in the two stages
    that have it.  [SnippetHighlight] of stage 5 declares no permission
    classes, so an unsafe verb from an unauthenticated client is answered
    405; the [highlight] action of stage 6 inherits the permission classes
    of [SnippetViewSet], so the same request is answered 403.  A GET is
    answered alike in both. *)
Theorem X3_highlight_endpoint_by_stage
    (r : HttpRequest) (now : nat) (db : DB) (k : nat) :
  http_url r = snippet_highlight_url k →
  (http_method r ∉ SAFE_METHODS →
   authenticate db (http_session r) = AnonymousUser →
   status_code (handle Stage5 r now db).1 = HTTP_405_METHOD_NOT_ALLOWED ∧
   status_code (handle Stage6 r now db).1 = HTTP_403_FORBIDDEN)
  ∧ (http_method r = "GET" →
     handle Stage5 r now db = handle Stage6 r now db).
Proof.
  intros Hurl. split.
  - intros Hm Hu. rewrite !handle_status. unfold expected_status.
    rewrite Hurl, Hu. simpl.
    rewrite (bool_decide_eq_false_2 _ Hm). simpl.
    by rewrite bool_decide_eq_false_2.
  - intros Hm. by rewrite !(handle_highlight _ r now db k).
Qed.
End statuses.

(** ** What a request can do to a stored snippet *)

Lemma authenticate_lookup (db : DB) (session : option nat) (u : User) :
  authenticate db session = AuthUser u → get_by_pk (users db) (pk u) = Some u.
Proof.
  unfold authenticate. destruct session as [k|]; simpl; [|done].
  destruct (get_by_pk (users db) k) as [u'|] eqn:Hk; [|done].
  intros [= ->]. by destruct (get_by_pk_Some _ _ _ Hk) as [_ ->].
Qed.

Lemma fresh_pk (db : DB) : db_ok db → snippet_seq db ∉ pk <$> snippets db.
Proof.
  intros [_ Hlt] (s & Hpk & Hs)%list_elem_of_fmap.
  rewrite Forall_forall in Hlt. specialize (Hlt s Hs). simpl in Hlt. lia.
Qed.

Lemma elem_of_replace_row_inv (row r : Snippet) (rows : list Snippet) :
  r ∈ replace_row row rows →
  (r = row ∧ pk row ∈ pk <$> rows) ∨ (r ∈ rows ∧ pk r ≠ pk row).
Proof.
  intros (x & -> & Hx)%list_elem_of_fmap. case_bool_decide as Hpk.
  - left. split; [done|]. rewrite <-Hpk. by apply list_elem_of_fmap_2.
  - by right.
Qed.

Section absent_keys.
Context `{Fields}.


(** A key that is present carries the value its field validated. *)
Lemma to_internal_value_present partial (body : gmap string json) attrs :
  SnippetSerializer_to_internal_value partial body = inr attrs →
  (∀ j, body !! "title" = Some j →
        ∃ v, title_field j = Some v ∧ a_title attrs = Some v) ∧
  (∀ j, body !! "code" = Some j →
        ∃ v, code_field j = Some v ∧ a_code attrs = Some v) ∧
  (∀ j, body !! "linenos" = Some j →
        ∃ v, linenos_field j = Some v ∧ a_linenos attrs = Some v) ∧
  (∀ j, body !! "language" = Some j →
        ∃ v, language_field j = Some v ∧ a_language attrs = Some v) ∧
  (∀ j, body !! "style" = Some j →
        ∃ v, style_field j = Some v ∧ a_style attrs = Some v).
Proof.
  unfold SnippetSerializer_to_internal_value. intros Hv.
  repeat split; intros j Hj; rewrite Hj in Hv; simpl in Hv;
    match type of Hv with
    | context [match ?f j with _ => _ end] => destruct (f j) as [v|]
    end;
    repeat match type of Hv with
    | context [run_field ?a ?b ?c ?d] => destruct (run_field a b c d)
    end; simpl in Hv; try done;
    injection Hv as <-; by exists v.
Qed.
End absent_keys.

Section rows.
Context `{Fields, Pygments, Settings}.

(** The row a request leaves under a primary key that was stored before:
    the row as it was, or the row its owner's valid update made of it. *)
Lemma handle_rows st r now db s s' :
  db_ok db → s ∈ snippets db → s' ∈ snippets (handle st r now db).2 →
  pk s' = pk s →
  s' = s ∨
  ∃ u partial attrs,
    authenticate db (http_session r) = AuthUser u ∧ owner s = pk u ∧
    SnippetSerializer_to_internal_value partial (http_body r) = inr attrs ∧
    s' = render (set_attrs s attrs).
Proof.
  intros Hok Hs Hs' Hpk.
  destruct (handle_effect st r now db)
    as [response|u attrs response Hu Hv Hc
       |u obj partial attrs response Hobj Hu Ho Hv Hc
       |u obj response Hobj Hu Ho Hc].
  - left. by apply (same_pk_same_row db).
  - simpl in Hs'. apply elem_of_app in Hs' as [Hs'|Hs'%list_elem_of_singleton].
    + left. by apply (same_pk_same_row db).
    + exfalso. apply (fresh_pk db Hok). rewrite Hs' in Hpk. simpl in Hpk.
      change (snippet_seq db = pk s) in Hpk. rewrite Hpk.
      by apply list_elem_of_fmap_2.
  - simpl in Hs'. apply elem_of_replace_row_inv in Hs' as [[-> _]|[Hs' _]].
    + right. exists u, partial, attrs. simpl in Hpk.
      assert (obj = s) as -> by by apply (same_pk_same_row db).
      done.
    + left. by apply (same_pk_same_row db).
  - simpl in Hs'. apply list_elem_of_filter in Hs' as [_ Hs'].
    left. by apply (same_pk_same_row db).
Qed.

(** X4. No request transfers a snippet or rewrites its history: whatever
    the request, the user table is left as it is, and a snippet that is
    stored before and after (the same primary key) keeps its owner and
    its creation time. *)
Theorem X4_owner_and_created_are_immutable
    (st : Stage) (r : HttpRequest) (now : nat) (db : DB) (s s' : Snippet) :
  db_ok db → s ∈ snippets db → s' ∈ snippets (handle st r now db).2 →
  pk s' = pk s →
  owner s' = owner s ∧ created s' = created s ∧
  users (handle st r now db).2 = users db.
Proof.
  intros Hok Hs Hs' Hpk. split_and!.
  - by destruct (handle_rows st r now db s s' Hok Hs Hs' Hpk)
      as [Heq|(? & ? & ? & _ & _ & _ & Heq)]; rewrite Heq.
  - by destruct (handle_rows st r now db s s' Hok Hs Hs' Hpk)
      as [Heq|(? & ? & ? & _ & _ & _ & Heq)]; rewrite Heq.
  - by destruct (handle_effect st r now db).
Qed.

End rows.

(** ** Round trips *)

Lemma set_attrs_render_idem `{Pygments} (s : Snippet) (attrs : SnippetAttrs) :
  render (set_attrs (render (set_attrs s attrs)) attrs)
  = render (set_attrs s attrs).
Proof.
  destruct attrs as [[?|] [?|] [?|] [?|] [?|]]; reflexivity.
Qed.

Lemma set_attrs_no_attrs (s : Snippet) : set_attrs s no_attrs = s.
Proof. by destruct s. Qed.

Lemma render_stored `{Pygments} (db : DB) (s : Snippet) :
  highlighted_ok db → s ∈ snippets db → render s = s.
Proof.
  intros Hh Hs. specialize (Hh s Hs). destruct s. simpl in *.
  unfold render. simpl. by rewrite Hh.
Qed.

Lemma replace_row_stored (db : DB) (s : Snippet) :
  db_ok db → s ∈ snippets db → replace_row s (snippets db) = snippets db.
Proof.
  intros Hok Hs. unfold replace_row.
  rewrite <-(list_fmap_id (snippets db)) at 2.
  apply Forall_fmap_ext_1, Forall_forall. intros x Hx. simpl.
  case_bool_decide as Hpk; [|done]. symmetry. by apply (same_pk_same_row db).
Qed.

Lemma elem_of_replace_row_same (row obj : Snippet) (rows : list Snippet) :
  obj ∈ rows → pk obj = pk row → row ∈ replace_row row rows.
Proof.
  intros Hobj Hpk. apply list_elem_of_fmap. exists obj.
  by rewrite bool_decide_eq_true_2.
Qed.

Lemma with_snippets_same (db : DB) : with_snippets db (snippets db) = db.
Proof. by destruct db. Qed.

Lemma filter_other_rows (s : Snippet) (rows : list Snippet) :
  NoDup (pk <$> rows) → s ∈ rows →
  length (filter (λ x, pk x ≠ pk s) rows) + 1 = length rows.
Proof.
  induction rows as [|x rows IH]; simpl; [by intros _ ?%elem_of_nil|].
  rewrite NoDup_cons. intros [Hx Hnd] Hs.
  destruct (decide (pk x = pk s)) as [Hpk|Hpk].
  - rewrite filter_cons_False by (intros Hne; by apply Hne).
    assert (filter (λ y, pk y ≠ pk s) rows = rows) as ->; [|lia].
    clear IH Hs Hnd. induction rows as [|y rows IH]; [done|].
    rewrite fmap_cons, not_elem_of_cons in Hx. destruct Hx as [Hxy Hx].
    rewrite filter_cons_True by congruence. f_equal. by apply IH.
  - rewrite filter_cons_True by done. simpl.
    apply elem_of_cons in Hs as [->|Hs]; [done|]. rewrite <-(IH Hnd Hs). lia.
Qed.

Lemma filter_fresh (db : DB) (row : Snippet) :
  db_ok db → pk row = snippet_seq db →
  filter (λ x, pk x ≠ pk row) (snippets db ++ [row]) = snippets db.
Proof.
  intros [_ Hlt] Hpk. rewrite filter_app.
  rewrite filter_cons_False by (intros Hne; by apply Hne).
  rewrite filter_nil, app_nil_r.
  induction Hlt as [|x rows Hx Hlt IH]; [done|].
  rewrite filter_cons_True; [by f_equal|]. rewrite Hpk. simpl in Hx.
  change (snippet_pk x) with (pk x) in Hx. lia.
Qed.

Section round_trips.
Context `{Fields, Pygments, Settings}.

Lemma detail_other_verbs st r now db k :
  http_url r = snippet_detail_url k →
  http_method r ∉ SAFE_METHODS → http_method r ∉ ["PUT"; "PATCH"] →
  http_method r ≠ "DELETE" →
  (handle st r now db).2 = db.
Proof.
  intros Hurl Hsafe Hput Hdel. apply error_response_writes_nothing.
  rewrite handle_status. unfold expected_status. rewrite Hurl. simpl.
  destruct (_ && _); [unfold HTTP_403_FORBIDDEN; lia|].
  rewrite bool_decide_eq_false_2; [simpl; unfold HTTP_405_METHOD_NOT_ALLOWED; lia|].
  intros Hin. unfold SAFE_METHODS in Hsafe.
  rewrite !elem_of_cons, !elem_of_nil in *. intuition congruence.
Qed.

(** X6. A created snippet can be read back.  The POST of a valid body by a
    logged-in user is answered 201 with the representation of the new
    snippet; its id is the next of the sequence and was not in use, its
    owner is the name of the requesting user, and a GET of its detail URL
    afterwards is answered 200 with that same representation. *)
Theorem X6_created_snippet_is_read_back
    (st : Stage) (r g : HttpRequest) (now now' : nat) (db : DB) (u : User) :
  db_ok db →
  http_url r = snippet_list_url → http_method r = "POST" →
  authenticate db (http_session r) = AuthUser u →
  body_invalid false (http_body r) = false →
  ∃ repr,
    (handle st r now db).1 =
      {| status_code := HTTP_201_CREATED; content := Object (SnippetItem repr) |}
    ∧ r_id repr = snippet_seq db
    ∧ (r_id repr ∉ pk <$> snippets db)
    ∧ r_owner repr = Some (username u)
    ∧ (http_url g = snippet_detail_url (r_id repr) → http_method g = "GET" →
       handle st g now' (handle st r now db).2 =
       ({| status_code := HTTP_200_OK; content := Object (SnippetItem repr) |},
        (handle st r now db).2)).
Proof.
  intros Hok Hurl Hm Hu Hv. unfold body_invalid in Hv.
  rewrite (handle_create st r now db Hurl Hm), Hu.
  destruct (SnippetSerializer_to_internal_value false (http_body r))
    as [|attrs]; [done|]. simpl.
  set (row := render (Snippet_row (Snippet_init attrs (pk u)) (snippet_seq db) now)).
  eexists. split; [reflexivity|]. simpl. split_and!; [done|by apply fresh_pk|..].
  - by rewrite (authenticate_lookup _ _ _ Hu).
  - intros Hg Hgm. rewrite (handle_retrieve st g now' _ _ Hg Hgm).
    change (snippet_seq db) with (pk row).
    rewrite get_snippet; [done|by apply insert_snippet_ok|].
    simpl. apply elem_of_app. right. apply list_elem_of_here.
Qed.

(** X7. An update can be read back.  A PUT or PATCH of a valid body by the
    owner of a stored snippet is answered 200 with a representation that
    carries, for every key of the body among the writable fields, the
    value its field validated, under the same id and owner; a GET of the
    detail URL afterwards is answered 200 with that same representation. *)
Theorem X7_update_is_read_back
    (st : Stage) (r g : HttpRequest) (now now' : nat) (db : DB)
    (u : User) (s : Snippet) :
  db_ok db → s ∈ snippets db →
  http_url r = snippet_detail_url (pk s) → http_method r ∈ ["PUT"; "PATCH"] →
  authenticate db (http_session r) = AuthUser u → owner s = pk u →
  body_invalid (bool_decide (http_method r = "PATCH")) (http_body r) = false →
  ∃ repr,
    (handle st r now db).1 =
      {| status_code := HTTP_200_OK; content := Object (SnippetItem repr) |}
    ∧ r_id repr = pk s
    ∧ r_owner repr = Some (username u)
    ∧ (∀ j, http_body r !! "title" = Some j → title_field j = Some (r_title repr))
    ∧ (∀ j, http_body r !! "code" = Some j → code_field j = Some (r_code repr))
    ∧ (∀ j, http_body r !! "linenos" = Some j →
            linenos_field j = Some (r_linenos repr))
    ∧ (∀ j, http_body r !! "language" = Some j →
            language_field j = Some (r_language repr))
    ∧ (∀ j, http_body r !! "style" = Some j → style_field j = Some (r_style repr))
    ∧ (http_url g = snippet_detail_url (pk s) → http_method g = "GET" →
       handle st g now' (handle st r now db).2 =
       ({| status_code := HTTP_200_OK; content := Object (SnippetItem repr) |},
        (handle st r now db).2)).
Proof.
  intros Hok Hs Hurl Hm Hu Ho Hv. unfold body_invalid in Hv.
  rewrite (handle_update st r now db _ Hurl Hm), Hu, (get_snippet db s Hok Hs).
  rewrite (bool_decide_eq_true_2 _ Ho).
  destruct (SnippetSerializer_to_internal_value _ (http_body r))
    as [|attrs] eqn:Hattrs; [done|]. simpl.
  set (row := render (set_attrs s attrs)).
  destruct (to_internal_value_present _ _ _ Hattrs) as (Ht & Hc & Hn & Hl & Hy).
  eexists. split; [reflexivity|]. simpl. split_and!; [done|..].
  - rewrite Ho. by rewrite (authenticate_lookup _ _ _ Hu).
  - intros j Hj. by destruct (Ht j Hj) as (v & -> & ->).
  - intros j Hj. by destruct (Hc j Hj) as (v & -> & ->).
  - intros j Hj. by destruct (Hn j Hj) as (v & -> & ->).
  - intros j Hj. by destruct (Hl j Hj) as (v & -> & ->).
  - intros j Hj. by destruct (Hy j Hj) as (v & -> & ->).
  - intros Hg Hgm. rewrite (handle_retrieve st g now' _ _ Hg Hgm).
    change (pk s) with (pk row).
    rewrite get_snippet; [done|by apply replace_row_ok|].
    simpl. by apply (elem_of_replace_row_same row s).
Qed.
End round_trips.

(** ** Deleting, repeating and undoing *)

Section composition.
Context `{Fields, Pygments, Settings}.

Lemma deleted_not_found (db : DB) (s : Snippet) :
  get_by_pk
    (Snippet_objects_all
       (with_snippets db (filter (λ x, pk x ≠ pk s) (snippets db)))) (pk s)
  = None.
Proof.
  apply get_by_pk_None. rewrite Snippet_objects_all_perm. simpl.
  intros (x & Hpk & [Hne _]%list_elem_of_filter)%list_elem_of_fmap.
  by apply Hne.
Qed.

(** X8. The DELETE of a stored snippet by its owner is answered 204 and
    removes that snippet and no other: the number of snippets drops by
    one, every other snippet stays stored, and a GET of the detail URL
    afterwards is answered 404. *)
Theorem X8_delete_removes_one_snippet
    (st : Stage) (r g : HttpRequest) (now now' : nat) (db : DB)
    (u : User) (s : Snippet) :
  db_ok db → s ∈ snippets db →
  http_url r = snippet_detail_url (pk s) → http_method r = "DELETE" →
  authenticate db (http_session r) = AuthUser u → owner s = pk u →
  (handle st r now db).1 =
    {| status_code := HTTP_204_NO_CONTENT; content := NoData |}
  ∧ (s ∉ snippets (handle st r now db).2)
  ∧ (∀ x, x ∈ snippets db → x ≠ s → x ∈ snippets (handle st r now db).2)
  ∧ Snippet_objects_count (handle st r now db).2 + 1 = Snippet_objects_count db
  ∧ (http_url g = snippet_detail_url (pk s) → http_method g = "GET" →
     status_code (handle st g now' (handle st r now db).2).1
     = HTTP_404_NOT_FOUND).
Proof.
  intros Hok Hs Hurl Hm Hu Ho.
  rewrite (handle_destroy st r now db _ Hurl Hm), Hu, (get_snippet db s Hok Hs).
  rewrite (bool_decide_eq_true_2 _ Ho). simpl. split_and!; [done|..].
  - intros [Hne _]%list_elem_of_filter. by apply Hne.
  - intros x Hx Hne. apply list_elem_of_filter. split; [|done].
    intros Hpk. apply Hne. by apply (same_pk_same_row db).
  - unfold Snippet_objects_count. rewrite !Snippet_objects_all_perm. simpl.
    apply filter_other_rows; [apply Hok|done].
  - intros Hg Hgm. rewrite (handle_retrieve st g now' _ _ Hg Hgm).
    by rewrite deleted_not_found.
Qed.

(** X9. PUT, PATCH and DELETE are idempotent on the stored data, as is
    every other verb on a detail URL: sending the same request to a
    snippet a second time, at whatever time, leaves the database as the
    first left it. *)
Theorem X9_detail_requests_are_idempotent
    (st : Stage) (r : HttpRequest) (now now' : nat) (db : DB) (k : nat) :
  db_ok db → http_url r = snippet_detail_url k →
  (handle st r now' (handle st r now db).2).2 = (handle st r now db).2.
Proof.
  intros Hok Hurl.
  destruct (decide (http_method r ∈ SAFE_METHODS)) as [Hsafe|Hsafe];
    [by rewrite !handle_safe_reads|].
  destruct (decide (http_method r ∈ ["PUT"; "PATCH"])) as [Hput|Hput].
  - rewrite (handle_update st r now db k Hurl Hput).
    destruct (authenticate db (http_session r)) as [|u] eqn:Hu.
    { simpl. by rewrite (handle_update st r now' db k Hurl Hput), Hu. }
    destruct (get_by_pk (Snippet_objects_all db) k) as [obj|] eqn:Hobj.
    2:{ simpl. by rewrite (handle_update st r now' db k Hurl Hput), Hu, Hobj. }
    case_bool_decide as Ho.
    2:{ simpl. rewrite (handle_update st r now' db k Hurl Hput), Hu, Hobj.
        by rewrite bool_decide_eq_false_2. }
    destruct (SnippetSerializer_to_internal_value _ (http_body r))
      as [errors|attrs] eqn:Hv.
    { simpl. rewrite (handle_update st r now' db k Hurl Hput), Hu, Hobj, Hv.
      by rewrite bool_decide_eq_true_2. }
    simpl. set (row := render (set_attrs obj attrs)).
    set (db' := with_snippets db (replace_row row (snippets db))).
    apply get_by_pk_Some in Hobj as [Hin Hpk].
    apply elem_of_Snippet_objects_all in Hin.
    assert (db_ok db') as Hok' by by apply replace_row_ok.
    assert (row ∈ snippets db') as Hrow
      by by apply (elem_of_replace_row_same row obj).
    rewrite (handle_update st r now' db' k Hurl Hput).
    change (authenticate db' (http_session r))
      with (authenticate db (http_session r)). rewrite Hu.
    assert (get_by_pk (Snippet_objects_all db') k = Some row) as ->.
    { rewrite <-Hpk. apply (get_snippet db' row Hok' Hrow). }
    rewrite bool_decide_eq_true_2 by done. rewrite Hv.
    change (with_snippets db'
              (replace_row (render (set_attrs row attrs)) (snippets db')) = db').
    unfold row at 1. rewrite set_attrs_render_idem. fold row.
    by rewrite (replace_row_stored db' row Hok' Hrow), with_snippets_same.
  - destruct (decide (http_method r = "DELETE")) as [Hdel|Hdel];
      [|by rewrite !(detail_other_verbs st r _ _ k)].
    rewrite (handle_destroy st r now db k Hurl Hdel).
    destruct (authenticate db (http_session r)) as [|u] eqn:Hu.
    { simpl. by rewrite (handle_destroy st r now' db k Hurl Hdel), Hu. }
    destruct (get_by_pk (Snippet_objects_all db) k) as [obj|] eqn:Hobj.
    2:{ simpl. by rewrite (handle_destroy st r now' db k Hurl Hdel), Hu, Hobj. }
    case_bool_decide as Ho.
    2:{ simpl. rewrite (handle_destroy st r now' db k Hurl Hdel), Hu, Hobj.
        by rewrite bool_decide_eq_false_2. }
    simpl. rewrite (handle_destroy st r now' _ k Hurl Hdel).
    apply get_by_pk_Some in Hobj as [_ <-].
    rewrite deleted_not_found. by destruct (authenticate _ _).
Qed.

(** X10. A PATCH that names none of the writable fields changes nothing,
    whoever sends it to whichever snippet; sent by the owner of a stored
    snippet it is answered 200 with the snippet as it is.  A PUT of the
    same body is answered 400, because [code] is required. *)
Theorem X10_patch_without_fields_changes_nothing
    (st : Stage) (r : HttpRequest) (now : nat) (db : DB) (k : nat) :
  reachable st db →
  http_url r = snippet_detail_url k →
  (∀ key, key ∈ writable_fields → http_body r !! key = None) →
  (http_method r = "PATCH" → (handle st r now db).2 = db)
  ∧ (∀ u s, http_method r = "PATCH" → s ∈ snippets db → k = pk s →
       authenticate db (http_session r) = AuthUser u → owner s = pk u →
       (handle st r now db).1 =
       {| status_code := HTTP_200_OK;
          content :=
            Object (SnippetItem (SnippetSerializer_to_representation st db s)) |})
  ∧ (∀ u s, http_method r = "PUT" → s ∈ snippets db → k = pk s →
       authenticate db (http_session r) = AuthUser u → owner s = pk u →
       status_code (handle st r now db).1 = HTTP_400_BAD_REQUEST).
Proof.
  intros Hreach Hurl Hbody.
  pose proof (reachable_db_ok st db Hreach) as Hok.
  pose proof (reachable_highlighted_ok st db Hreach) as Hhl.
  assert (∀ partial,
    SnippetSerializer_to_internal_value partial (http_body r)
    = if partial then inr no_attrs else inl ["code"]) as Hv.
  { intros partial. unfold SnippetSerializer_to_internal_value.
    rewrite !Hbody by (by apply (bool_decide_unpack _)).
    by destruct partial. }
  assert (∀ s, s ∈ snippets db →
    with_snippets db (replace_row (render (set_attrs s no_attrs)) (snippets db))
    = db) as Hsame.
  { intros s Hs. rewrite set_attrs_no_attrs, (render_stored db s Hhl Hs).
    by rewrite (replace_row_stored db s Hok Hs), with_snippets_same. }
  split_and!.
  - intros Hm. rewrite (handle_update st r now db k Hurl)
      by (rewrite Hm; by apply (bool_decide_unpack _)).
    destruct (authenticate db (http_session r)) as [|u]; [done|].
    destruct (get_by_pk (Snippet_objects_all db) k) as [obj|] eqn:Hobj; [|done].
    case_bool_decide; [|done]. rewrite Hm, Hv. simpl.
    apply Hsame. apply get_by_pk_Some in Hobj as [Hin _].
    by apply elem_of_Snippet_objects_all.
  - intros u s Hm Hs -> Hu Ho. rewrite (handle_update st r now db _ Hurl)
      by (rewrite Hm; by apply (bool_decide_unpack _)).
    rewrite Hu, (get_snippet db s Hok Hs), (bool_decide_eq_true_2 _ Ho).
    rewrite Hm, Hv. simpl. rewrite (Hsame s Hs).
    by rewrite set_attrs_no_attrs, (render_stored db s Hhl Hs).
  - intros u s Hm Hs -> Hu Ho. rewrite (handle_update st r now db _ Hurl)
      by (rewrite Hm; by apply (bool_decide_unpack _)).
    rewrite Hu, (get_snippet db s Hok Hs), (bool_decide_eq_true_2 _ Ho).
    by rewrite Hm, Hv.
Qed.

(** X11. Primary keys are not reused.  When a logged-in user creates a
    snippet and then deletes it, the stored snippets and users are what
    they were before, but the sequence has advanced: the next snippet gets
    a new id. *)
Theorem X11_create_then_delete
    (st : Stage) (r d : HttpRequest) (now now' : nat) (db : DB) (u : User) :
  db_ok db →
  http_url r = snippet_list_url → http_method r = "POST" →
  authenticate db (http_session r) = AuthUser u →
  body_invalid false (http_body r) = false →
  http_url d = snippet_detail_url (snippet_seq db) → http_method d = "DELETE" →
  http_session d = http_session r →
  let db' := (handle st d now' (handle st r now db).2).2 in
  snippets db' = snippets db ∧ users db' = users db ∧
  snippet_seq db' = S (snippet_seq db) ∧
  status_code (handle st d now' (handle st r now db).2).1 = HTTP_204_NO_CONTENT.
Proof.
  intros Hok Hurl Hm Hu Hv Hd Hdm Hds. unfold body_invalid in Hv.
  rewrite (handle_create st r now db Hurl Hm), Hu.
  destruct (SnippetSerializer_to_internal_value false (http_body r))
    as [|attrs]; [done|]. simpl.
  set (row := render (Snippet_row (Snippet_init attrs (pk u)) (snippet_seq db) now)).
  rewrite (handle_destroy st d now' _ _ Hd Hdm). rewrite Hds.
  change (authenticate (insert_snippet db row) (http_session r))
    with (authenticate db (http_session r)). rewrite Hu.
  assert (get_by_pk (Snippet_objects_all (insert_snippet db row))
            (snippet_seq db) = Some row) as Hrow.
  { apply (get_snippet (insert_snippet db row) row);
      [by apply insert_snippet_ok|].
    simpl. apply elem_of_app. right. apply list_elem_of_here. }
  simpl. rewrite !Hrow. rewrite bool_decide_eq_true_2 by done. simpl.
  by rewrite (filter_fresh db row Hok).
Qed.
End composition.

(** ** Validation of full and partial updates *)

Section validation.
Context `{Fields}.



End validation.

(** ** Hyperlinks *)

Section hyperlinks.
Context `{Fields, Pygments, Settings}.

Lemma follow_status st url session now db :
  status_code (handle st (follow url session) now db).1 =
  match endpoint st url with
  | None => HTTP_404_NOT_FOUND
  | Some (SnippetMember k) | Some (SnippetPage k) =>
      match get_by_pk (Snippet_objects_all db) k with
      | Some _ => HTTP_200_OK
      | None => HTTP_404_NOT_FOUND
      end
  | Some (UserMember k) =>
      match get_by_pk (users db) k with
      | Some _ => HTTP_200_OK
      | None => HTTP_404_NOT_FOUND
      end
  | Some _ => HTTP_200_OK
  end.
Proof.
  rewrite handle_status. unfold expected_status, follow. simpl.
  destruct (endpoint st url) as [[]|]; simpl; eval_decides; simpl;
    rewrite ?andb_false_r; simpl; eval_decides; simpl; try done;
    by case_match.
Qed.

(** X13. The hyperlinks of a representation resolve.  In the hyperlinked
    stages, following the [url] or the [highlight] link of a stored
    snippet's representation, the [url] of a stored user's representation
    or any link of its [snippets] is answered 200, for every client; and
    when primary keys are unique, the [url] of a snippet leads back to the
    representation that carried it. *)
Theorem X13_hyperlinks_resolve
    (st : Stage) (db : DB) (session : option nat) (now : nat) :
  hyperlinked st = true →
  (∀ s url, s ∈ snippets db →
     r_url (SnippetSerializer_to_representation st db s) = Some url
     ∨ r_highlight (SnippetSerializer_to_representation st db s) = Some url →
     status_code (handle st (follow url session) now db).1 = HTTP_200_OK)
  ∧ (∀ u url, u ∈ users db →
       u_url (UserSerializer_to_representation st db u) = Some url
       ∨ ByLink url ∈ u_snippets (UserSerializer_to_representation st db u) →
       status_code (handle st (follow url session) now db).1 = HTTP_200_OK)
  ∧ (∀ s url, db_ok db → s ∈ snippets db →
       r_url (SnippetSerializer_to_representation st db s) = Some url →
       content (handle st (follow url session) now db).1
       = Object (SnippetItem (SnippetSerializer_to_representation st db s))).
Proof.
  intros Hst.
  assert (∀ s, s ∈ snippets db →
            is_Some (get_by_pk (Snippet_objects_all db) (pk s))) as Hfound.
  { intros s Hs. apply stored_iff_found. by apply list_elem_of_fmap_2. }
  split_and!.
  - intros s url Hs Hurl. simpl in Hurl. rewrite Hst in Hurl.
    rewrite follow_status.
    destruct Hurl as [[= <-]|[= <-]]; destruct st; try done; simpl;
      by destruct (Hfound s Hs) as [? ->].
  - intros u url Hu Hurl. simpl in Hurl. rewrite Hst in Hurl.
    rewrite follow_status. destruct Hurl as [[= <-]|Hurl].
    + assert (is_Some (get_by_pk (users db) (pk u))) as [? Hget].
      { apply get_by_pk_is_Some. by apply list_elem_of_fmap_2. }
      destruct st; try done; simpl; by rewrite Hget.
    + apply list_elem_of_fmap in Hurl as (s & [= ->] & Hs).
      apply list_elem_of_filter in Hs as [_ Hs].
      apply elem_of_Snippet_objects_all in Hs.
      destruct st; try done; simpl; by destruct (Hfound s Hs) as [? ->].
  - intros s url Hok Hs Hurl. simpl in Hurl. rewrite Hst in Hurl.
    injection Hurl as <-.
    rewrite (handle_retrieve st _ now db (pk s)) by done.
    by rewrite (get_snippet db s Hok Hs).
Qed.

(** X14. The API root links to the two collections.  From stage 5 on, a
    GET of the root is answered 200 with a link named [users] and a link
    named [snippets], it writes nothing, and following either link is
    answered 200 for every client and database; stage 4 has no root. *)
Theorem X14_api_root_links
    (st : Stage) (r : HttpRequest) (now : nat) (db : DB) :
  http_url r = api_root_url → http_method r = "GET" →
  if hyperlinked st then
    ∃ links,
      handle st r now db =
        ({| status_code := HTTP_200_OK; content := Links links |}, db)
      ∧ links.*1 = ["users"; "snippets"]
      ∧ ∀ name url session now' db',
          (name, url) ∈ links →
          status_code (handle st (follow url session) now' db').1 = HTTP_200_OK
  else status_code (handle st r now db).1 = HTTP_404_NOT_FOUND.
Proof.
  intros Hurl Hm.
  assert (api_root r now db =
    ({| status_code := HTTP_200_OK;
        content := Links [("users", user_list_url);
                          ("snippets", snippet_list_url)] |}, db)) as Hroot.
  { unfold api_root. rewrite dispatch_allowed by done.
    rewrite Hm. unfold select_handler. eval_decides. simpl. done. }
  destruct st; simpl.
  - unfold handle, urlpatterns, urlpatterns_4. by rewrite Hurl.
  - exists [("users", user_list_url); ("snippets", snippet_list_url)].
    split; [|split; [reflexivity|]].
    + unfold handle, urlpatterns, urlpatterns_5. rewrite Hurl. apply Hroot.
    + intros name url session now' db' Hin. rewrite follow_status.
      apply elem_of_cons in Hin as [[= _ ->]|Hin]; [done|].
      by apply list_elem_of_singleton in Hin as [= _ ->].
  - exists [("users", user_list_url); ("snippets", snippet_list_url)].
    split; [|split; [reflexivity|]].
    + unfold handle, urlpatterns, urlpatterns_6. rewrite Hurl. apply Hroot.
    + intros name url session now' db' Hin. rewrite follow_status.
      apply elem_of_cons in Hin as [[= _ ->]|Hin]; [done|].
      by apply list_elem_of_singleton in Hin as [= _ ->].
Qed.
End hyperlinks.

(** ** Users, owners and the stages compared *)

#[global] Instance user_pk_le_total : Total user_pk_le.
Proof. intros a b. unfold user_pk_le. lia. Qed.

#[global] Instance user_pk_le_trans : Transitive user_pk_le.
Proof. intros a b c. unfold user_pk_le. lia. Qed.

Lemma empty_fk_ok : fk_ok empty_db.
Proof. split_and!; simpl; constructor. Qed.

Lemma same_pk_same_user (db : DB) (a b : User) :
  NoDup (pk <$> users db) → a ∈ users db → b ∈ users db → pk a = pk b → a = b.
Proof.
  intros Hnd Ha Hb Hab.
  pose proof (get_by_pk_NoDup _ a Hnd Ha) as Hga.
  pose proof (get_by_pk_NoDup _ b Hnd Hb) as Hgb.
  rewrite Hab, Hgb in Hga. by injection Hga.
Qed.

Section users.
Context `{Fields, Pygments, Settings}.

Lemma Effect_fk_ok request now db response db' :
  (∀ u, user request = AuthUser u → pk u ∈ pk <$> users db) →
  Effect request now db response db' → fk_ok db → fk_ok db'.
Proof.
  intros Hauth
    [response0|u attrs response0 Hu Hv Hc
    |u obj partial attrs response0 Hobj Hu Ho Hv Hc
    |u obj response0 Hobj Hu Ho Hc] (Hnd & Hlt & Hfk); [done|..];
    split_and!; simpl; try done.
  - apply Forall_app. split; [done|]. apply Forall_singleton. simpl.
    by apply Hauth.
  - rewrite Forall_forall in Hfk. apply Forall_forall.
    intros x (y & -> & Hy)%list_elem_of_fmap. case_bool_decide; simpl; auto.
  - rewrite Forall_forall in Hfk. apply Forall_forall.
    intros x [_ Hx]%list_elem_of_filter. auto.
Qed.

Lemma step_fk_ok st db op : fk_ok db → fk_ok (step st db op).
Proof.
  intros Hok. destruct op as [now r|name|k|now attrs o|k]; simpl.
  - eapply Effect_fk_ok; [|apply handle_effect|done].
    intros u Hu. simpl in Hu. apply authenticate_stored in Hu.
    by apply get_by_pk_is_Some.
  - unfold User_objects_create_user. unfold_M. case_bool_decide; [done|].
    destruct Hok as (Hnd & Hlt & Hfk). split_and!; simpl.
    + rewrite fmap_app. apply NoDup_app.
      split_and!; [done| |apply NoDup_singleton].
      intros i Hi ->%list_elem_of_singleton.
      apply list_elem_of_fmap in Hi as (u & Hu & Hin).
      rewrite Forall_forall in Hlt. specialize (Hlt _ Hin).
      unfold pk, User_model in *. simpl in *. lia.
    + apply Forall_app. split.
      * eapply Forall_impl; [done|]. simpl. lia.
      * apply Forall_singleton. unfold pk, User_model. simpl. lia.
    + eapply Forall_impl; [done|]. simpl. intros s Hs.
      rewrite fmap_app. apply elem_of_app. by left.
  - destruct (get_by_pk (users db) k) as [u|]; [|done].
    destruct Hok as (Hnd & Hlt & Hfk). split_and!; simpl.
    + eapply sublist_NoDup; [done|]. apply fmap_sublist, sublist_filter.
    + rewrite Forall_forall in Hlt. apply Forall_forall.
      intros x [_ Hx]%list_elem_of_filter. auto.
    + rewrite Forall_forall in Hfk. apply Forall_forall.
      intros s [Hne Hs]%list_elem_of_filter.
      destruct (proj1 (list_elem_of_fmap _ _ _) (Hfk s Hs)) as (x & Hx & Hin).
      apply list_elem_of_fmap. exists x. split; [done|].
      apply list_elem_of_filter. split; [|done]. by rewrite <-Hx.
  - unfold Snippet_objects_create. unfold_M.
    destruct (get_by_pk (users db) o) as [x|] eqn:Hx; [|done].
    destruct Hok as (Hnd & Hlt & Hfk). split_and!; simpl; try done.
    apply Forall_app. split; [done|]. apply Forall_singleton. simpl.
    apply get_by_pk_is_Some. by rewrite Hx.
  - destruct (get_by_pk (snippets db) k) as [s|]; [|done].
    destruct Hok as (Hnd & Hlt & Hfk). split_and!; simpl; try done.
    rewrite Forall_forall in Hfk. apply Forall_forall.
    intros x [_ Hx]%list_elem_of_filter. auto.
Qed.

Lemma reachable_fk_ok st db : reachable st db → fk_ok db.
Proof.
  intros [ops ->]. apply run_invariant; [apply step_fk_ok | apply empty_fk_ok].
Qed.

Lemma handle_user_list st r now db :
  http_url r = user_list_url → http_method r = "GET" →
  handle st r now db =
  ({| status_code := HTTP_200_OK;
      content :=
        paginate (UserList st)
          ((λ u, UserItem (UserSerializer_to_representation st db u))
             <$> queryset (UserList st) db) |}, db).
Proof.
  intros Hurl Hm.
  unfold handle, urlpatterns, urlpatterns_4, urlpatterns_5, urlpatterns_6.
  rewrite Hurl.
  destruct st; unfold as_view; rewrite dispatch_allowed by done;
    rewrite Hm; unfold select_handler; by eval_decides.
Qed.

(** X15. The user list.  In stage 4 a GET of the user list returns every
    stored user, once.  From stage 5 on the queryset is ordered by id and
    the response is a page: [count] is the number of stored users, and the
    results are the first users by id, as many as the page size allows;
    every user left out has an id at least as large. *)
Theorem X15_user_list_is_ordered_by_id
    (st : Stage) (r : HttpRequest) (now : nat) (db : DB) :
  http_url r = user_list_url → http_method r = "GET" →
  if hyperlinked st then
    ∃ rows rest,
      content (handle st r now db).1 =
        Paginated (length (users db))
          ((λ u, UserItem (UserSerializer_to_representation st db u)) <$> rows)
      ∧ rows ++ rest ≡ₚ users db
      ∧ StronglySorted user_pk_le (rows ++ rest)
      ∧ length rows = Pos.to_nat PAGE_SIZE `min` length (users db)
  else
    ∃ rows,
      content (handle st r now db).1 =
        Objects ((λ u, UserItem (UserSerializer_to_representation st db u))
                   <$> rows)
      ∧ rows ≡ₚ users db.
Proof.
  intros Hurl Hm. rewrite (handle_user_list st r now db Hurl Hm).
  assert (User_objects_order_by_id db ≡ₚ users db) as Hp
    by apply merge_sort_Permutation.
  assert (length (User_objects_order_by_id db) = length (users db)) as Hlen
    by by rewrite Hp.
  destruct st; simpl; [by exists (users db)|..];
    (exists (take (Pos.to_nat PAGE_SIZE) (User_objects_order_by_id db)),
       (drop (Pos.to_nat PAGE_SIZE) (User_objects_order_by_id db));
     unfold paginate; simpl; rewrite take_drop; split_and!;
     [by rewrite length_fmap, Hlen, fmap_take
     |done
     |apply StronglySorted_merge_sort; apply _
     |by rewrite length_take, Hlen]).
Qed.

(** X16. The owner a snippet shows is the user that lists it.  In every
    state the application can reach, each stored snippet has a stored
    owner: its representation carries that user's name, that user's
    representation lists the snippet, and no other user's does. *)
Theorem X16_owner_and_snippets_agree
    (st : Stage) (db : DB) (s : Snippet) :
  reachable st db → s ∈ snippets db →
  ∃ u, u ∈ users db
    ∧ r_owner (SnippetSerializer_to_representation st db s) = Some (username u)
    ∧ related_snippet st (pk s)
        ∈ u_snippets (UserSerializer_to_representation st db u)
    ∧ ∀ u', u' ∈ users db →
        related_snippet st (pk s)
          ∈ u_snippets (UserSerializer_to_representation st db u') →
        u' = u.
Proof.
  intros Hreach Hs.
  pose proof (reachable_db_ok st db Hreach) as Hok.
  destruct (reachable_fk_ok st db Hreach) as (Hnd & _ & Hfk).
  rewrite Forall_forall in Hfk.
  destruct (proj1 (list_elem_of_fmap _ _ _) (Hfk s Hs)) as (u & Ho & Hu).
  exists u. split_and!; [done|..].
  - simpl. by rewrite Ho, (get_by_pk_NoDup _ u Hnd Hu).
  - simpl. apply list_elem_of_fmap. exists s. split; [done|].
    apply list_elem_of_filter. split; [done|].
    by apply elem_of_Snippet_objects_all.
  - intros u' Hu' (s' & Heq & [Ho' Hs']%list_elem_of_filter)%list_elem_of_fmap.
    apply elem_of_Snippet_objects_all in Hs'.
    assert (pk s' = pk s) as Hpk.
    { unfold related_snippet in Heq. destruct (hyperlinked st); congruence. }
    assert (s' = s) as -> by by apply (same_pk_same_row db).
    apply (same_pk_same_user db); [done..|]. simpl in Ho'.
    change (user_pk u') with (pk u') in Ho'. congruence.
Qed.

Lemma list_other_verbs st r now db :
  http_url r = snippet_list_url →
  http_method r ∉ SAFE_METHODS → http_method r ≠ "POST" →
  (handle st r now db).2 = db.
Proof.
  intros Hurl Hsafe Hpost. apply error_response_writes_nothing.
  rewrite handle_status. unfold expected_status. rewrite Hurl. simpl.
  destruct (_ && _); [unfold HTTP_403_FORBIDDEN; lia|].
  rewrite bool_decide_eq_false_2; [simpl; unfold HTTP_405_METHOD_NOT_ALLOWED; lia|].
  intros Hin. unfold SAFE_METHODS in Hsafe.
  rewrite !elem_of_cons, !elem_of_nil in *. intuition congruence.
Qed.

Lemma user_unsafe_verbs st r now db :
  http_url r = user_list_url ∨ (∃ k, http_url r = user_detail_url k) →
  http_method r ∉ SAFE_METHODS →
  (handle st r now db).2 = db.
Proof.
  intros Hurl Hsafe. apply error_response_writes_nothing.
  rewrite handle_status. unfold expected_status.
  destruct Hurl as [->|[k ->]]; simpl;
    (rewrite bool_decide_eq_false_2 by done); simpl;
    unfold HTTP_405_METHOD_NOT_ALLOWED; lia.
Qed.

(** X17. The three stages are the same application on the URLs they
    share.  Generic views with plain serializers (stage 4), with
    hyperlinked serializers (stage 5) and viewsets (stage 6) answer every
    request to the snippet and user collections and members with the same
    status and leave the same database; only the representations
    differ. *)
Theorem X17_stages_agree
    (st1 st2 : Stage) (r : HttpRequest) (now : nat) (db : DB) :
  common_url (http_url r) = true →
  status_code (handle st1 r now db).1 = status_code (handle st2 r now db).1
  ∧ (handle st1 r now db).2 = (handle st2 r now db).2.
Proof.
  intros Hurl. split.
  - rewrite !handle_status. unfold expected_status.
    by destruct (http_url r).
  - destruct (decide (http_method r ∈ SAFE_METHODS)) as [Hsafe|Hsafe];
      [by rewrite !handle_safe_reads|].
    destruct (http_url r) as [| |k|k| |k] eqn:Hr; try done.
    + destruct (decide (http_method r = "POST")) as [Hpost|Hpost];
        [|by rewrite !list_other_verbs].
      rewrite !(handle_create _ r now db Hr Hpost).
      destruct (authenticate db (http_session r)); [done|].
      by destruct (SnippetSerializer_to_internal_value false (http_body r)).
    + destruct (decide (http_method r ∈ ["PUT"; "PATCH"])) as [Hput|Hput].
      { rewrite !(handle_update _ r now db k Hr Hput).
        destruct (authenticate db (http_session r)); [done|].
        destruct (get_by_pk (Snippet_objects_all db) k); [|done].
        case_bool_decide; [|done].
        by destruct (SnippetSerializer_to_internal_value _ (http_body r)). }
      destruct (decide (http_method r = "DELETE")) as [Hdel|Hdel];
        [|by rewrite !(detail_other_verbs _ r now db k)].
      by rewrite !(handle_destroy _ r now db k Hr Hdel).
    + rewrite !user_unsafe_verbs; auto.
    + rewrite !user_unsafe_verbs; eauto.
Qed.
End users.

(** ** Who writes, and where *)

Section writers.
Context `{Fields, Pygments, Settings}.

Lemma anonymous_reads st r now db :
  authenticate db (http_session r) = AnonymousUser →
  (handle st r now db).2 = db.
Proof.
  intros Hu.
  destruct (handle_effect st r now db)
    as [response|u attrs response Hu' _ _
       |u obj partial attrs response _ Hu' _ _ _
       |u obj response _ Hu' _ _]; [done|..];
    simpl in Hu'; congruence.
Qed.

Lemma unsupported_no_write st r now db e :
  endpoint st (http_url r) = Some e → http_method r ∉ supported e →
  (handle st r now db).2 = db.
Proof.
  intros He Hm. apply error_response_writes_nothing.
  rewrite handle_status. unfold expected_status. rewrite He.
  destruct (_ && _); [unfold HTTP_403_FORBIDDEN; lia|].
  rewrite bool_decide_eq_false_2 by done. simpl.
  unfold HTTP_405_METHOD_NOT_ALLOWED. lia.
Qed.

Lemma unrouted_no_write st r now db :
  endpoint st (http_url r) = None → (handle st r now db).2 = db.
Proof.
  intros He. apply error_response_writes_nothing.
  rewrite handle_status. unfold expected_status. rewrite He.
  unfold HTTP_404_NOT_FOUND. lia.
Qed.

(** X18. Writes come from logged-in users, through four handlers only.  A
    request from an unauthenticated client leaves the database as it is,
    whatever its verb, URL and body; so does every request other than a
    POST to the snippet list and a PUT, PATCH or DELETE to a snippet. *)
Theorem X18_only_logged_in_writers
    (st : Stage) (r : HttpRequest) (now : nat) (db : DB) :
  authenticate db (http_session r) = AnonymousUser
  ∨ http_method r ∉ write_verbs (http_url r) →
  (handle st r now db).2 = db.
Proof.
  intros [Hanon|Hverb]; [by apply anonymous_reads|].
  destruct (decide (http_method r ∈ SAFE_METHODS)) as [Hsafe|Hsafe];
    [by apply handle_safe_reads|].
  assert (http_method r ∉ ["GET"; "HEAD"; "OPTIONS"]) as Hread by done.
  assert (http_method r ∉ ["GET"; "OPTIONS"]) as Hroot.
  { intros Hin. apply Hsafe. unfold SAFE_METHODS.
    rewrite !elem_of_cons, !elem_of_nil in *. intuition. }
  destruct (http_url r) as [| |k|k| |k] eqn:Hurl; simpl in Hverb.
  - destruct st; [by apply unrouted_no_write; rewrite Hurl|..];
      by apply (unsupported_no_write _ r now db RootEndpoint); rewrite ?Hurl.
  - apply list_other_verbs; [done..|]. intros Hm. apply Hverb. rewrite Hm.
    apply list_elem_of_here.
  - apply (detail_other_verbs st r now db k); [done..| |].
    + intros Hin. apply Hverb.
      rewrite !elem_of_cons, !elem_of_nil in *. intuition.
    + intros Hm. apply Hverb. rewrite Hm.
      by apply (bool_decide_unpack _).
  - destruct st; [by apply unrouted_no_write; rewrite Hurl|..];
      by apply (unsupported_no_write _ r now db (SnippetPage k));
        rewrite ?Hurl.
  - apply user_unsafe_verbs; auto.
  - apply user_unsafe_verbs; eauto.
Qed.
End writers.

(** ** The further properties at the fixture of the view tests *)

Lemma X1_safe_verbs_read_and_are_never_denied_witness :
  (Sample.app Stage4
     (Sample.request "HEAD" (snippet_detail_url 1) None ∅) 20 Sample.db).2
  = Sample.db ∧
  status_code
    (Sample.app Stage4
       (Sample.request "HEAD" (snippet_detail_url 1) None ∅) 20 Sample.db).1
  ∈ [200; 404; 405] ∧
  status_code
    (Sample.app Stage4
       (Sample.request "HEAD" (snippet_detail_url 1) None ∅) 20 Sample.db).1
  ≠ HTTP_403_FORBIDDEN.
Proof.
  apply (@X1_safe_verbs_read_and_are_never_denied Sample.fields Sample.pygments
           Sample.settings Stage4
           (Sample.request "HEAD" (snippet_detail_url 1) None ∅) 20 Sample.db).
  by apply (bool_decide_unpack _).
Defined.

Lemma X3_highlight_endpoint_by_stage_witness :
  status_code
    (Sample.app Stage5
       (Sample.request "POST" (snippet_highlight_url 1) None ∅) 20 Sample.db).1
  = 405 ∧
  status_code
    (Sample.app Stage6
       (Sample.request "POST" (snippet_highlight_url 1) None ∅) 20 Sample.db).1
  = 403.
Proof.
  apply (proj1 (@X3_highlight_endpoint_by_stage Sample.fields Sample.pygments
           Sample.settings
           (Sample.request "POST" (snippet_highlight_url 1) None ∅)
           20 Sample.db 1 eq_refl));
    [by apply (bool_decide_eq_false_1 _) | reflexivity].
Defined.

Lemma X4_owner_and_created_are_immutable_witness :
  let r := Sample.request "PATCH" (snippet_detail_url 1) (Some 1)
             {["title" := JStr "Renamed"]} in
  let s' :=
    {| snippet_pk := 1; created := 10; title := "Renamed";
       code := "print('first')"; linenos := false; language := "python";
       style := "friendly"; owner := 1;
       highlighted := "<html><pre class=friendly>print('first')</pre></html>" |} in
  s' ∈ snippets (Sample.app Stage4 r 20 Sample.db).2 ∧
  owner s' = owner Sample.snippet1 ∧ created s' = created Sample.snippet1 ∧
  users (Sample.app Stage4 r 20 Sample.db).2 = users Sample.db.
Proof.
  intros r s'.
  assert (s' ∈ snippets (Sample.app Stage4 r 20 Sample.db).2) as Hs'
    by apply list_elem_of_here.
  split; [exact Hs'|].
  exact (@X4_owner_and_created_are_immutable Sample.fields Sample.pygments
           Sample.settings Stage4 r 20 Sample.db Sample.snippet1 s'
           sample_db_ok sample_snippet1 Hs' eq_refl).
Defined.


Lemma X6_created_snippet_is_read_back_witness :
  let r := Sample.request "POST" snippet_list_url (Some 2)
             {["code" := JStr "print('owned')"]} in
  let g := Sample.request "GET" (snippet_detail_url 3) None ∅ in
  ∃ repr,
    (Sample.app Stage5 r 20 Sample.db).1 =
      {| status_code := 201; content := Object (SnippetItem repr) |}
    ∧ r_id repr = 3
    ∧ (r_id repr ∉ pk <$> snippets Sample.db)
    ∧ r_owner repr = Some "user2"
    ∧ (http_url g = snippet_detail_url (r_id repr) → http_method g = "GET" →
       Sample.app Stage5 g 30 (Sample.app Stage5 r 20 Sample.db).2 =
       ({| status_code := 200; content := Object (SnippetItem repr) |},
        (Sample.app Stage5 r 20 Sample.db).2)).
Proof.
  intros r g.
  apply (@X6_created_snippet_is_read_back Sample.fields Sample.pygments
           Sample.settings Stage5 r g 20 30 Sample.db
           {| user_pk := 2; username := "user2" |});
    [exact sample_db_ok | reflexivity..].
Defined.

Lemma X7_update_is_read_back_witness :
  let r := Sample.request "PUT" (snippet_detail_url 1) (Some 1)
             {["code" := JStr "print('changed')"]} in
  let g := Sample.request "GET" (snippet_detail_url 1) None ∅ in
  ∃ repr,
    (Sample.app Stage4 r 20 Sample.db).1 =
      {| status_code := 200; content := Object (SnippetItem repr) |}
    ∧ r_code repr = "print('changed')" ∧ r_title repr = "First Snippet"
    ∧ Sample.app Stage4 g 30 (Sample.app Stage4 r 20 Sample.db).2 =
      ({| status_code := 200; content := Object (SnippetItem repr) |},
       (Sample.app Stage4 r 20 Sample.db).2).
Proof.
  intros r g.
  destruct (@X7_update_is_read_back Sample.fields Sample.pygments
              Sample.settings Stage4 r g 20 30 Sample.db
              {| user_pk := 1; username := "user1" |} Sample.snippet1
              sample_db_ok sample_snippet1 eq_refl)
    as (repr & Hresp & _ & _ & _ & Hcode & _ & _ & _ & Hget);
    [by apply (bool_decide_unpack _) | reflexivity..|].
  exists repr. split; [exact Hresp|].
  specialize (Hcode (JStr "print('changed')") eq_refl).
  injection Hcode as Hcode. split; [by symmetry|].
  split; [|by apply Hget].
  injection Hresp as Hresp. by rewrite <-Hresp.
Defined.

Lemma X8_delete_removes_one_snippet_witness :
  let r := Sample.request "DELETE" (snippet_detail_url 1) (Some 1) ∅ in
  let g := Sample.request "GET" (snippet_detail_url 1) (Some 1) ∅ in
  (Sample.app Stage6 r 20 Sample.db).1 =
    {| status_code := 204; content := NoData |}
  ∧ (Sample.snippet1 ∉ snippets (Sample.app Stage6 r 20 Sample.db).2)
  ∧ Snippet_objects_count (Sample.app Stage6 r 20 Sample.db).2 + 1 = 2
  ∧ status_code (Sample.app Stage6 g 30 (Sample.app Stage6 r 20 Sample.db).2).1
    = 404.
Proof.
  intros r g.
  destruct (@X8_delete_removes_one_snippet Sample.fields Sample.pygments
              Sample.settings Stage6 r g 20 30 Sample.db
              {| user_pk := 1; username := "user1" |} Sample.snippet1
              sample_db_ok sample_snippet1 eq_refl eq_refl eq_refl eq_refl)
    as (Hresp & Hgone & _ & Hcount & Hget).
  split_and!; [exact Hresp | exact Hgone | exact Hcount | by apply Hget].
Defined.

Lemma X9_detail_requests_are_idempotent_witness :
  let r := Sample.request "PUT" (snippet_detail_url 1) (Some 1)
             {["code" := JStr "print('changed')"]} in
  (Sample.app Stage4 r 30 (Sample.app Stage4 r 20 Sample.db).2).2
  = (Sample.app Stage4 r 20 Sample.db).2.
Proof.
  intros r.
  exact (@X9_detail_requests_are_idempotent Sample.fields Sample.pygments
           Sample.settings Stage4 r 20 30 Sample.db 1 sample_db_ok eq_refl).
Defined.

Lemma X10_patch_without_fields_changes_nothing_witness :
  let r := Sample.request "PATCH" (snippet_detail_url 1) (Some 1)
             {["id" := JNum 7]} in
  (Sample.app Stage5 r 20 Sample.db).2 = Sample.db.
Proof.
  intros r.
  apply (proj1 (@X10_patch_without_fields_changes_nothing Sample.fields
                  Sample.pygments Sample.settings Stage5 r 20 Sample.db 1
                  (sample_reachable Stage5) eq_refl
                  ltac:(intros key Hk; verb_cases Hk; by rewrite Hk)));
    reflexivity.
Defined.

Lemma X11_create_then_delete_witness :
  let r := Sample.request "POST" snippet_list_url (Some 1)
             {["code" := JStr "print('short-lived')"]} in
  let d := Sample.request "DELETE" (snippet_detail_url 3) (Some 1) ∅ in
  let db' := (Sample.app Stage4 d 30 (Sample.app Stage4 r 20 Sample.db).2).2 in
  snippets db' = snippets Sample.db ∧ users db' = users Sample.db ∧
  snippet_seq db' = 4 ∧
  status_code (Sample.app Stage4 d 30 (Sample.app Stage4 r 20 Sample.db).2).1
  = 204.
Proof.
  intros r d.
  apply (@X11_create_then_delete Sample.fields Sample.pygments
           Sample.settings Stage4 r d 20 30 Sample.db
           {| user_pk := 1; username := "user1" |});
    [exact sample_db_ok | reflexivity..].
Defined.


Lemma X13_hyperlinks_resolve_witness :
  status_code
    (Sample.app Stage5 (follow (snippet_highlight_url 1) None) 20 Sample.db).1
  = 200.
Proof.
  apply (proj1 (@X13_hyperlinks_resolve Sample.fields Sample.pygments
                  Sample.settings Stage5 Sample.db None 20 eq_refl)
           Sample.snippet1 (snippet_highlight_url 1) sample_snippet1).
  right. reflexivity.
Defined.

Lemma X14_api_root_links_witness :
  ∃ links,
    Sample.app Stage6 (Sample.request "GET" api_root_url None ∅) 20 Sample.db =
      ({| status_code := 200; content := Links links |}, Sample.db)
    ∧ links.*1 = ["users"; "snippets"]
    ∧ ∀ name url session now' db',
        (name, url) ∈ links →
        status_code (Sample.app Stage6 (follow url session) now' db').1 = 200.
Proof.
  exact (@X14_api_root_links Sample.fields Sample.pygments Sample.settings
           Stage6 (Sample.request "GET" api_root_url None ∅) 20 Sample.db
           eq_refl eq_refl).
Defined.

Lemma X15_user_list_is_ordered_by_id_witness :
  ∃ rows rest,
    content
      (Sample.app Stage5 (Sample.request "GET" user_list_url None ∅) 20
         Sample.db).1 =
      Paginated 2
        ((λ u, UserItem (UserSerializer_to_representation Stage5 Sample.db u))
           <$> rows)
    ∧ rows ++ rest ≡ₚ users Sample.db
    ∧ StronglySorted user_pk_le (rows ++ rest)
    ∧ length rows = 10 `min` 2.
Proof.
  exact (@X15_user_list_is_ordered_by_id Sample.fields Sample.pygments
           Sample.settings Stage5
           (Sample.request "GET" user_list_url None ∅) 20 Sample.db
           eq_refl eq_refl).
Defined.

Lemma X16_owner_and_snippets_agree_witness :
  ∃ u, u ∈ users Sample.db
    ∧ r_owner (SnippetSerializer_to_representation Stage4 Sample.db
                 Sample.snippet1) = Some (username u)
    ∧ related_snippet Stage4 1
        ∈ u_snippets (UserSerializer_to_representation Stage4 Sample.db u)
    ∧ ∀ u', u' ∈ users Sample.db →
        related_snippet Stage4 1
          ∈ u_snippets (UserSerializer_to_representation Stage4 Sample.db u') →
        u' = u.
Proof.
  exact (@X16_owner_and_snippets_agree Sample.fields Sample.pygments
           Sample.settings Stage4 Sample.db Sample.snippet1
           (sample_reachable Stage4) sample_snippet1).
Defined.

Lemma X17_stages_agree_witness :
  let r := Sample.request "POST" snippet_list_url (Some 1)
             {["code" := JStr "print('new')"]} in
  status_code (Sample.app Stage4 r 20 Sample.db).1
  = status_code (Sample.app Stage6 r 20 Sample.db).1
  ∧ (Sample.app Stage4 r 20 Sample.db).2 = (Sample.app Stage6 r 20 Sample.db).2.
Proof.
  intros r.
  exact (@X17_stages_agree Sample.fields Sample.pygments Sample.settings
           Stage4 Stage6 r 20 Sample.db eq_refl).
Defined.

Lemma X18_only_logged_in_writers_witness :
  (Sample.app Stage4
     (Sample.request "DELETE" (snippet_detail_url 1) None ∅) 20 Sample.db).2
  = Sample.db.
Proof.
  apply (@X18_only_logged_in_writers Sample.fields Sample.pygments
           Sample.settings Stage4
           (Sample.request "DELETE" (snippet_detail_url 1) None ∅)
           20 Sample.db).
  left. reflexivity.
Defined.
